(** * ash: reviewing Stash pull requests from a text editor

    A shallow embedding of [main.go] (the review session, the parser of
    the pull-request argument and the redaction of the password in the
    log) and of the pull-request client ([PullRequest.GetReview],
    [ApplyChange] and its helpers), followed by the properties proved
    about the embedded code.

    - Go strings are [string], a sequence of bytes;
      [map[string]interface{}] is [gmap string value].
    - Everything the program does to the outside world (HTTP requests,
      printing, logging, the temporary file, the editor) is recorded, in
      order, in the [trace] of an explicit [World]; a computation returns,
      exits ([os.Exit]) or panics.
    - The remote service, the editor and the functions that render, parse
      and compare reviews are the [Collaborators] of a session; the
      properties hold for all of them.
    - [strconv.ParseInt], [strings.Split], [regexp] and [fmt.Sprint] are
      modelled after the Go library.  Log calls are recorded whatever the
      log level; [ioutil.TempFile] is taken to succeed. *)

From Stdlib Require Import ZArith Ascii String List Lia.
From stdpp Require Import base option list gmap strings pretty.

Open Scope Z_scope.


(** ** Go values held in an [interface{}] *)

(** The dynamic values that docopt and the review differ put in a
    [map[string]interface{}].  A nested map keeps its entries in the
    order [fmt] prints them. *)
#[warnings="-register-all"] Inductive value : Type :=
  | VNil
  | VBool (b : bool)
  | VInt (n : Z)
  | VStr (s : string)
  | VMap (entries : list (string * value)).

(** [fmt.Sprint] of one operand. *)
Fixpoint Sprint (v : value) : string :=
  match v with
  | VNil => "<nil>"
  | VBool b => if b then "true" else "false"
  | VInt n => pretty n
  | VStr s => s
  | VMap entries =>
      "map[" +:+
      (fix entries_text (l : list (string * value)) : string :=
         match l with
         | [] => ""
         | (k, x) :: l' =>
             k +:+ ":" +:+ Sprint x +:+
             match l' with [] => "" | _ :: _ => " " +:+ entries_text l' end
         end) entries +:+ "]"
  end.

(** [m[k]] on a Go map: the zero value ([nil]) when the key is absent. *)
Definition index (m : gmap string value) (k : string) : value :=
  default VNil (m !! k).

(** [_, ok := m[k]]. *)
Definition has_key (m : gmap string value) (k : string) : bool :=
  bool_decide (is_Some (m !! k)).

(** [m[k] == nil]: true for an absent key and for a key bound to [nil]. *)
Definition is_nil (v : value) : bool :=
  match v with VNil => true | _ => false end.

(** [ReviewChange], a [map[string]interface{}]: [ApplyChange] indexes it
    by "id", "text" and "version" and sends it as the JSON payload. *)
Abbreviation ReviewChange := (gmap string value).

(** ** The outside world *)

Inductive Method : Type := GET | POST | PUT | DELETE.

(** One HTTP request as the REST client sends it: the path below the
    pull request's resource, the query string and the JSON payload. *)
Record Request : Type := mkRequest {
  req_method : Method;
  req_path : list string;
  req_query : gmap string string;
  req_payload : option ReviewChange
}.

Inductive Level : Type := CRITICAL | ERROR | WARNING | NOTICE | INFO | DEBUG.

(** An operand of a formatted print or log call. *)
Inductive Arg : Type :=
  | AInt (n : Z)
  | AStr (s : string)
  | APayload (c : ReviewChange)
  | AStack.

(** What a print call writes: the operands of [fmt.Println], or the
    format and the operands of [fmt.Printf]. *)
Inductive Output : Type :=
  | Line (args : list Arg)
  | Formatted (format : string) (args : list Arg).

Inductive Event : Type :=
  | EvLog (lvl : Level) (format : string) (args : list Arg)
  | EvPrint (o : Output)
  | EvRequest (r : Request) (err : option string)
  | EvTempFile (name : string)
  | EvWriteReview (name : string)
  | EvEditor (editor name : string) (err : option string)
  | EvReadReview (name : string)
  | EvCompare
  | EvClose (name : string)
  | EvRemove (name : string).

Record World : Type := mkWorld {
  trace : list Event;
  files : gmap string string
}.

Definition emit (e : Event) (w : World) : World :=
  {| trace := trace w ++ [e]; files := files w |}.

Definition set_file (name content : string) (w : World) : World :=
  {| trace := trace w; files := <[name := content]> (files w) |}.

Definition remove_file (name : string) (w : World) : World :=
  {| trace := trace w; files := delete name (files w) |}.

(** The requests of a trace, oldest first. *)
Fixpoint requests_of (t : list Event) : list Request :=
  match t with
  | [] => []
  | EvRequest r _ :: t' => r :: requests_of t'
  | _ :: t' => requests_of t'
  end.

(** The requests that change the remote review. *)
Definition is_mutation (r : Request) : bool :=
  match req_method r with GET => false | _ => true end.

Definition mutations_of (t : list Event) : list Request :=
  filter (fun r => is_mutation r = true) (requests_of t).

(** ** Computations: state, [os.Exit] and [panic] *)

Inductive Outcome (A : Type) : Type :=
  | Done (a : A) (w : World)
  | Exited (code : Z) (w : World)
  | Panicked (msg : string) (w : World).
Arguments Done {A} a w.
Arguments Exited {A} code w.
Arguments Panicked {A} msg w.

Definition M (A : Type) : Type := World -> Outcome A.

Global Instance M_ret : MRet M := fun A a w => Done a w.

Global Instance M_bind : MBind M := fun A B f m w =>
  match m w with
  | Done a w' => f a w'
  | Exited code w' => Exited code w'
  | Panicked msg w' => Panicked msg w'
  end.

Definition event (e : Event) : M unit := fun w => Done tt (emit e w).

Definition Exit {A} (code : Z) : M A := fun w => Exited code w.

Definition panic {A} (msg : string) : M A := fun w => Panicked msg w.

(** [defer func() { if r := recover(); r != nil { handler(r) } }()]
    around [body]: a panic runs the handler and the function returns;
    [os.Exit] does not run deferred calls. *)
Definition with_recover (body : M unit) (handler : string -> M unit) : M unit :=
  fun w =>
    match body w with
    | Panicked msg w' => handler msg w'
    | o => o
    end.

(** The result of a call into code that may panic. *)
Inductive call (A : Type) : Type :=
  | Returns (a : A)
  | Panics (msg : string).
Arguments Returns {A} a.
Arguments Panics {A} msg.

Definition run_call {A} (c : call A) : M A :=
  match c with
  | Returns a => mret a
  | Panics msg => panic msg
  end.

(** *** fmt and go-logging *)

Definition Println (args : list Arg) : M unit := event (EvPrint (Line args)).
Definition Printf (format : string) (args : list Arg) : M unit :=
  event (EvPrint (Formatted format args)).

Module logger.
(** [Critical] only logs; [Fatal] logs at the same level and then
    calls [os.Exit(1)]. *)
Definition Debug (format : string) (args : list Arg) : M unit :=
  event (EvLog DEBUG format args).
Definition Info (format : string) (args : list Arg) : M unit :=
  event (EvLog INFO format args).
Definition Warning (format : string) (args : list Arg) : M unit :=
  event (EvLog WARNING format args).
Definition Critical (format : string) (args : list Arg) : M unit :=
  event (EvLog CRITICAL format args).
Definition Fatal {A} (err : string) : M A :=
  event (EvLog CRITICAL "%s" [AStr err]) ;; Exit 1.
End logger.

(** ** godiff: the changeset the remote service returns *)

Module godiff.
Record Comment : Type := mkComment {
  Id : Z;
  Version : Z;
  Text : string
}.

Record Line : Type := mkLine {
  Source : string;
  CommentIds : list Z;
  Comments : list Comment
}.

Record Segment : Type := mkSegment { Lines : list Line }.
Record Hunk : Type := mkHunk { Segments : list Segment }.

Record Diff : Type := mkDiff {
  Hunks : list Hunk;
  LineComments : list Comment
}.

Record Changeset : Type := mkChangeset {
  Path : string;
  Diffs : list Diff
}.

(** [Changeset.ForEachLine] with a callback that updates the line it is
    given: every line of every segment of every hunk of every diff, in
    order. *)
Definition ForEachLine (callback : Diff -> Line -> Line) (c : Changeset)
  : Changeset :=
  {| Path := Path c;
     Diffs :=
       map (fun d =>
         {| Hunks :=
              map (fun h =>
                {| Segments :=
                     map (fun s => {| Lines := map (callback d) (Lines s) |})
                         (Segments h) |})
                  (Hunks d);
            LineComments := LineComments d |})
         (Diffs c) |}.
End godiff.

(** [type Review struct { changeset godiff.Changeset }] *)
Record Review : Type := mkReview { changeset : godiff.Changeset }.

(** ** The collaborators of a session

    The remote service, the editor process and the functions of the
    review text format ([review.go], which renders, parses and compares
    reviews) are parameters of the session. *)
Record Collaborators : Type := mkCollaborators {
  (** the error, if any, the service answers a request with, given the
      requests it has served before *)
  serve : list Request -> Request -> option string;
  (** the body the service answers [GET diff/<path>] with *)
  serve_diff : list Request -> string -> godiff.Changeset;
  (** [PullRequest.GetActivities], which only reads from the service *)
  GetActivities : list Request -> Review + string;
  AddUsageComment : Review -> Review;
  AddVimModeline : Review -> Review;
  (** the text [WriteReview] writes *)
  WriteReview : Review -> string;
  (** [ReadReview] on the text of the file *)
  ReadReview : string -> call (Review + string);
  (** [Review.Compare] *)
  Compare : Review -> Review -> call (list ReviewChange);
  (** running [editor file]: the text the file holds afterwards and the
      error of [Cmd.Run] *)
  run_editor : string -> string -> string -> string * option string;
  (** the name [ioutil.TempFile] picks *)
  temp_name : string
}.

(** ** pull_request.go *)

Module PullRequest.
Section WithCollaborators.
Context (env : Collaborators).

(** [gopencils.Resource]: the path below the pull request and the
    query values set so far. *)
Record Resource : Type := mkResource {
  Url : list string;
  QueryValues : gmap string string
}.

(** [pr.Resource] *)
Definition root : Resource := {| Url := []; QueryValues := ∅ |}.

Definition Res (name : string) (r : Resource) : Resource :=
  {| Url := Url r ++ [name]; QueryValues := ∅ |}.

Definition Id (id : string) (r : Resource) : Resource :=
  {| Url := Url r ++ [id]; QueryValues := QueryValues r |}.

Definition SetQuery (q : gmap string string) (r : Resource) : Resource :=
  {| Url := Url r; QueryValues := q |}.

(** Sending a request: the service's answer is recorded with it. *)
Definition send (r : Request) : M (option string) := fun w =>
  let err := serve env (requests_of (trace w)) r in
  Done err (emit (EvRequest r err) w).

Definition Post (payload : ReviewChange) (r : Resource) : M (option string) :=
  send (mkRequest POST (Url r) (QueryValues r) (Some payload)).

Definition Put (payload : ReviewChange) (r : Resource) : M (option string) :=
  send (mkRequest PUT (Url r) (QueryValues r) (Some payload)).

Definition Delete (r : Resource) : M (option string) :=
  send (mkRequest DELETE (Url r) (QueryValues r) None).

Definition Get (r : Resource) : M (option string) :=
  send (mkRequest GET (Url r) (QueryValues r) None).

(** The comments of [diff] whose id is one of the line's [CommentIds],
    appended to the line's comments. *)
Definition attach_comments (diff : godiff.Diff) (line : godiff.Line)
  : godiff.Line :=
  {| godiff.Source := godiff.Source line;
     godiff.CommentIds := godiff.CommentIds line;
     godiff.Comments :=
       godiff.Comments line ++
       flat_map (fun id =>
          filter (fun c => godiff.Id c = id) (godiff.LineComments diff))
         (godiff.CommentIds line) |}.

Definition GetReview (path : string) : M (Review + string) :=
  fun w =>
    let body := serve_diff env (requests_of (trace w)) path in
    (err ← Get (Id path (Res "diff" root));
     match err with
     | Some e => mret (inr e)
     | None =>
         let linked := godiff.ForEachLine attach_comments body in
         mret (inl {| changeset :=
                        {| godiff.Path := path;
                           godiff.Diffs := godiff.Diffs linked |} |})
     end) w.

Definition addComment (change : ReviewChange) : M (option string) :=
  Post change (Res "comments" root).

Definition modifyComment (change : ReviewChange) : M (option string) :=
  let query : gmap string string :=
    {[ "version" := Sprint (index change "version") ]} in
  Put change
    (SetQuery query (Id (Sprint (index change "id")) (Res "comments" root))).

Definition removeComment (change : ReviewChange) : M (option string) :=
  let query : gmap string string :=
    {[ "version" := Sprint (index change "version") ]} in
  Delete
    (SetQuery query (Id (Sprint (index change "id")) (Res "comments" root))).

Definition ApplyChange (change : ReviewChange) : M (option string) :=
  if has_key change "id" then
    if has_key change "text" then modifyComment change
    else removeComment change
  else addComment change.

(** The request [ApplyChange] sends for a change. *)
Definition request_for (change : ReviewChange) : Request :=
  if has_key change "id" then
    let path := ["comments"; Sprint (index change "id")] in
    let query : gmap string string :=
      {[ "version" := Sprint (index change "version") ]} in
    if has_key change "text" then mkRequest PUT path query (Some change)
    else mkRequest DELETE path query None
  else mkRequest POST ["comments"] ∅ (Some change).

End WithCollaborators.
End PullRequest.

(** ** strings *)

Module strings.

(** [strings.Repeat(s, count)] *)
Fixpoint Repeat (s : string) (count : nat) : string :=
  match count with
  | O => ""
  | S count' => s +:+ Repeat s count'
  end.

(** [strings.Split(s, sep)] for a separator of one byte: the pieces of
    [s] between the separators, the empty ones too. *)
Fixpoint Split (s : string) (sep : ascii) : list string :=
  match s with
  | EmptyString => [""]
  | String c s' =>
      if Ascii.eqb c sep then "" :: Split s' sep
      else
        match Split s' sep with
        | piece :: pieces => String c piece :: pieces
        | [] => [String c ""]
        end
  end.

End strings.

(** ** strconv *)

Module strconv.

Inductive NumError : Type := ErrSyntax | ErrRange.

(** The value of a digit or letter as [ParseUint] reads it. *)
Definition digit_value (d : ascii) : option Z :=
  let n := Z.of_N (N_of_ascii d) in
  if (48 <=? n) && (n <=? 57) then Some (n - 48)
  else if (97 <=? n) && (n <=? 122) then Some (n - 97 + 10)
  else if (65 <=? n) && (n <=? 90) then Some (n - 65 + 10)
  else None.

Definition maxUint64 : Z := 2 ^ 64 - 1.

(** The loop of [ParseUint] over the bytes of the string; [n] is a
    [uint64] and wraps around. *)
Fixpoint parse_digits (base maxVal : Z) (n : Z) (s : string)
  : Z * option NumError :=
  match s with
  | EmptyString => (n, None)
  | String d s' =>
      match digit_value d with
      | None => (0, Some ErrSyntax)
      | Some v =>
          if base <=? v then (0, Some ErrSyntax)
          else if maxUint64 / base + 1 <=? n then (maxVal, Some ErrRange)
          else
            let n := (n * base) mod 2 ^ 64 in
            let n1 := (n + v) mod 2 ^ 64 in
            if (n1 <? n) || (maxVal <? n1) then (maxVal, Some ErrRange)
            else parse_digits base maxVal n1 s'
      end
  end.

(** [strconv.ParseUint(s, base, bitSize)] for [2 <= base <= 36] and
    [0 < bitSize <= 64]. *)
Definition ParseUint (s : string) (base bitSize : Z) : Z * option NumError :=
  match s with
  | EmptyString => (0, Some ErrSyntax)
  | _ => parse_digits base (2 ^ bitSize - 1) 0 s
  end.

(** [strconv.ParseInt(s, base, bitSize)]: a value out of range is
    replaced by the nearest one of [bitSize] bits, with [ErrRange]. *)
Definition ParseInt (s : string) (base bitSize : Z) : Z * option NumError :=
  match s with
  | EmptyString => (0, Some ErrSyntax)
  | String c s' =>
      let '(neg, digits) :=
        if Ascii.eqb c "+" then (false, s')
        else if Ascii.eqb c "-" then (true, s')
        else (false, s) in
      match ParseUint digits base bitSize with
      | (_, Some ErrSyntax) => (0, Some ErrSyntax)
      | (un, _) =>
          let cutoff := 2 ^ (bitSize - 1) in
          if negb neg && (cutoff <=? un) then (cutoff - 1, Some ErrRange)
          else if neg && (cutoff <? un) then (- cutoff, Some ErrRange)
          else (if neg then - un else un, None)
      end
  end.

(** A decimal digit, and the number a string of decimal digits writes. *)
Definition is_decimal (c : ascii) : bool :=
  let n := Z.of_N (N_of_ascii c) in (48 <=? n) && (n <=? 57).

Fixpoint all_decimal (s : string) : bool :=
  match s with
  | EmptyString => true
  | String c s' => is_decimal c && all_decimal s'
  end.

Fixpoint decimal (acc : Z) (s : string) : Z :=
  match s with
  | EmptyString => acc
  | String c s' => decimal (acc * 10 + (Z.of_N (N_of_ascii c) - 48)) s'
  end.

End strconv.

(** ** regexp

    The patterns of the program, with Go's matching: the leftmost match,
    and among the matches at one place the one a backtracking search
    finds first (alternatives left to right, repetitions greedy).  All
    the classes the patterns use are sets of ASCII bytes or complements
    of such sets, so that matching bytes and matching runes agree. *)

Module regexp.

Inductive item : Type :=
  | IChar (c : ascii)
  | IRange (lo hi : ascii)
  | ISpace                      (* \s *)
  | IDigit.                     (* \d *)

Inductive re : Type :=
  | Lit (s : string)
  | Dot                         (* . *)
  | Set_ (items : list item)    (* [...] and a lone \s or \d *)
  | NotSet (items : list item)  (* [^...] *)
  | Seq (a b : re)
  | Alt (a b : re)
  | Opt (a : re)                (* a? *)
  | Star (a : re)               (* a* *)
  | Plus (a : re)               (* a+ *)
  | Group (n : nat) (a : re).   (* the n-th parenthesis *)

Definition code (c : ascii) : N := N_of_ascii c.

(** [\s] is [\t\n\f\r ]. *)
Definition is_space (c : ascii) : bool :=
  let n := code c in
  (n =? 9)%N || (n =? 10)%N || (n =? 12)%N || (n =? 13)%N || (n =? 32)%N.

Definition is_digit (c : ascii) : bool :=
  let n := code c in (48 <=? n)%N && (n <=? 57)%N.

Definition item_matches (i : item) (c : ascii) : bool :=
  match i with
  | IChar x => Ascii.eqb x c
  | IRange lo hi => (code lo <=? code c)%N && (code c <=? code hi)%N
  | ISpace => is_space c
  | IDigit => is_digit c
  end.

Definition in_set (items : list item) (c : ascii) : bool :=
  existsb (fun i => item_matches i c) items.

(** The rest of [s] after the prefix [p], if [s] starts with [p]. *)
Fixpoint strip_prefix (p s : string) : option string :=
  match p with
  | EmptyString => Some s
  | String a p' =>
      match s with
      | EmptyString => None
      | String b s' => if Ascii.eqb a b then strip_prefix p' s' else None
      end
  end.

Fixpoint take (n : nat) (s : string) : string :=
  match n, s with
  | S n', String c s' => String c (take n' s')
  | _, _ => ""
  end.

(** What a match consumed of [s] when [rest] is left. *)
Definition consumed (s rest : string) : string :=
  take (String.length s - String.length rest) s.

Abbreviation Captures := (gmap nat string).

(** A successful search: what is left of the input, and the groups. *)
Abbreviation Result := (string * Captures)%type.

(** Greedy repetition of [step], which must consume input each time. *)
Fixpoint repeat_step
    (step : string -> Captures -> (string -> Captures -> option Result)
            -> option Result)
    (k : string -> Captures -> option Result)
    (fuel : nat) (s : string) (caps : Captures) : option Result :=
  match fuel with
  | O => k s caps
  | S fuel' =>
      match step s caps (fun s' caps' =>
              if (String.length s' <? String.length s)%nat
              then repeat_step step k fuel' s' caps'
              else None) with
      | Some x => Some x
      | None => k s caps
      end
  end.

(** Matching [r] at the start of [s], then [k] on the rest: the first
    success of the backtracking search. *)
Fixpoint exec (r : re) (s : string) (caps : Captures)
    (k : string -> Captures -> option Result) {struct r} : option Result :=
  match r with
  | Lit l =>
      match strip_prefix l s with
      | Some rest => k rest caps
      | None => None
      end
  | Dot =>
      match s with
      | String c rest => if Ascii.eqb c "010" then None else k rest caps
      | EmptyString => None
      end
  | Set_ items =>
      match s with
      | String c rest => if in_set items c then k rest caps else None
      | EmptyString => None
      end
  | NotSet items =>
      match s with
      | String c rest => if in_set items c then None else k rest caps
      | EmptyString => None
      end
  | Seq a b => exec a s caps (fun s' caps' => exec b s' caps' k)
  | Alt a b =>
      match exec a s caps k with
      | Some x => Some x
      | None => exec b s caps k
      end
  | Opt a =>
      match exec a s caps k with
      | Some x => Some x
      | None => k s caps
      end
  | Star a => repeat_step (exec a) k (String.length s) s caps
  | Plus a =>
      exec a s caps (fun s' caps' =>
        repeat_step (exec a) k (String.length s') s' caps')
  | Group n a =>
      exec a s caps (fun s' caps' => k s' (<[n := consumed s s']> caps'))
  end.

Definition accept (rest : string) (caps : Captures) : option Result :=
  Some (rest, caps).

(** [before ++ whole ++ after] is the input and [whole] the leftmost
    match. *)
Record Match : Type := mkMatch {
  before : string;
  whole : string;
  groups : Captures;
  after : string
}.

Fixpoint find (r : re) (s : string) : option Match :=
  match exec r s ∅ accept with
  | Some (rest, caps) => Some (mkMatch "" (consumed s rest) caps rest)
  | None =>
      match s with
      | EmptyString => None
      | String c s' =>
          match find r s' with
          | Some m =>
              Some (mkMatch (String c (before m)) (whole m) (groups m) (after m))
          | None => None
          end
      end
  end.

(** The number of parentheses of the pattern. *)
Fixpoint NumSubexp (r : re) : nat :=
  match r with
  | Lit _ | Dot | Set_ _ | NotSet _ => 0
  | Seq a b | Alt a b => Nat.max (NumSubexp a) (NumSubexp b)
  | Opt a | Star a | Plus a => NumSubexp a
  | Group n a => Nat.max n (NumSubexp a)
  end.

(** The text of group [n] of a match; group 0 is the whole match, and a
    group that did not take part is empty. *)
Definition group (whole : string) (caps : Captures) (n : nat) : string :=
  match n with
  | O => whole
  | S _ => default "" (caps !! n)
  end.

(** [re.FindStringSubmatch(s)]: [nil] without a match. *)
Definition FindStringSubmatch (r : re) (s : string) : list string :=
  match find r s with
  | None => []
  | Some m => map (group (whole m) (groups m)) (seq 0 (S (NumSubexp r)))
  end.

(** *** Templates *)

Definition is_word (c : ascii) : bool :=
  let n := code c in
  is_digit c || ((97 <=? n)%N && (n <=? 122)%N)
  || ((65 <=? n)%N && (n <=? 90)%N) || (n =? 95)%N.

Fixpoint word_prefix (s : string) : string :=
  match s with
  | String c s' => if is_word c then String c (word_prefix s') else ""
  | EmptyString => ""
  end.

Fixpoint drop (n : nat) (s : string) : string :=
  match n, s with
  | S n', String _ s' => drop n' s'
  | _, _ => s
  end.

(** The number a name denotes: none for a name with a byte that is no
    digit, with a leading zero, or too long. *)
Fixpoint digits_number (acc : N) (name : string) : option nat :=
  match name with
  | EmptyString => Some (N.to_nat acc)
  | String c name' =>
      if is_digit c && (acc <? 100000000)%N
      then digits_number (acc * 10 + (code c - 48))%N name'
      else None
  end.

Definition name_number (name : string) : option nat :=
  match name with
  | String "0" (String _ _) => None
  | _ => digits_number 0 name
  end.

(** [extract]: the name after a [$], written [name] or [{name}], and the
    number of bytes it takes in the template. *)
Definition extract (str : string) : option (string * nat) :=
  match str with
  | String "{" body =>
      let name := word_prefix body in
      match name, drop (String.length name) body with
      | String _ _, String "}" _ => Some (name, S (S (String.length name)))
      | _, _ => None
      end
  | _ =>
      match word_prefix str with
      | EmptyString => None
      | name => Some (name, String.length name)
      end
  end.

(** [Regexp.expand]: [$n] and [${n}] stand for group [n], [$$] for a
    dollar, a [$] that starts no name for itself; a name that is no
    number stands for a named group, of which the patterns have none.
    [skip] bytes of the template are passed over first. *)
Fixpoint expand (whole : string) (caps : Captures) (skip : nat)
    (template : string) : string :=
  match template with
  | EmptyString => ""
  | String c rest =>
      match skip with
      | S skip' => expand whole caps skip' rest
      | O =>
          if Ascii.eqb c "$" then
            match rest with
            | String "$" _ => String "$" (expand whole caps 1 rest)
            | _ =>
                match extract rest with
                | None => String "$" (expand whole caps 0 rest)
                | Some (name, width) =>
                    match name_number name with
                    | Some n => group whole caps n
                    | None => ""
                    end +:+ expand whole caps width rest
                end
            end
          else String c (expand whole caps 0 rest)
      end
  end.

(** [re.ReplaceAllString(src, repl)], from left to right: [skip] bytes
    of a match are still to pass over, and [blocked] tells that a match
    ended just here, where an empty match is not replaced again.  After
    an empty match the search moves on by one byte. *)
Fixpoint replace (r : re) (repl : string) (skip : nat) (blocked : bool)
    (s : string) : string :=
  match skip with
  | S skip' =>
      match s with
      | EmptyString => ""
      | String _ s' => replace r repl skip' true s'
      end
  | O =>
      match exec r s ∅ accept with
      | Some (rest, caps) =>
          match consumed s rest with
          | EmptyString =>
              (if blocked then "" else expand "" caps 0 repl) +:+
              match s with
              | EmptyString => ""
              | String c s' => String c (replace r repl 0 false s')
              end
          | String c0 w' =>
              expand (String c0 w') caps 0 repl +:+
              match s with
              | EmptyString => ""
              | String _ s' => replace r repl (String.length w') true s'
              end
          end
      | None =>
          match s with
          | EmptyString => ""
          | String c s' => String c (replace r repl 0 false s')
          end
      end
  end.

Definition ReplaceAllString (r : re) (src repl : string) : string :=
  replace r repl 0 false src.

End regexp.

(** ** go-logging *)

Module logging.
(** [logging.Redact(s)]: as many stars as [s] has bytes. *)
Definition Redact (s : string) : string := strings.Repeat "*" (String.length s).
End logging.

(** ** main.go: the review session *)

Module Main.
Section WithCollaborators.
Context (env : Collaborators).

(** [ioutil.TempFile(os.TempDir(), "review.diff.")]: a new, empty file. *)
Definition TempFile : M string := fun w =>
  let name := temp_name env in
  Done name (emit (EvTempFile name) (set_file name "" w)).

(** [WriteReview(review, file)] *)
Definition write_review (r : Review) (name : string) : M unit := fun w =>
  Done tt (emit (EvWriteReview name) (set_file name (WriteReview env r) w)).

(** [exec.Command(editor, name).Run()] on the terminal of the program. *)
Definition Run (editor name : string) : M (option string) := fun w =>
  let '(text, err) := run_editor env editor name (default "" (files w !! name)) in
  Done err (emit (EvEditor editor name err) (set_file name text w)).

(** [ReadReview(file)] *)
Definition read_review (name : string) : M (Review + string) := fun w =>
  run_call (ReadReview env (default "" (files w !! name)))
           (emit (EvReadReview name) w).

(** [original.Compare(edited)] *)
Definition compare (original edited : Review) : M (list ReviewChange) :=
  event EvCompare ;; run_call (Compare env original edited).

Definition Close (name : string) : M unit := event (EvClose name).

(** [os.Remove(name)] *)
Definition Remove (name : string) : M unit := fun w =>
  Done tt (emit (EvRemove name) (remove_file name w)).

Definition editReviewInEditor
    (editor : string) (reviewToEdit : Review) (fileToUse : string)
  : M (list ReviewChange + string) :=
  logger.Info "writing review to file: %s" [AStr fileToUse] ;;
  let reviewToEdit := AddVimModeline env (AddUsageComment env reviewToEdit) in
  write_review reviewToEdit fileToUse ;;
  logger.Debug "opening editor: %s %s" [AStr editor; AStr fileToUse] ;;
  err ← Run editor fileToUse ;
  match err with
  | Some e => logger.Fatal e
  | None => mret tt
  end ;;
  logger.Debug "reading modified review back" [] ;;
  read ← read_review fileToUse ;
  match read with
  | inr e => mret (inr e)
  | inl editedReview =>
      logger.Debug "comparing old and new reviews" [] ;;
      changes ← compare reviewToEdit editedReview ;
      mret (inl changes)
  end.

Definition printPanicMsg (r : string) (reviewFileName : string) : M unit :=
  Println [] ;;
  Println [AStr "PANIC:"; AStr r] ;;
  Println [] ;;
  Println [AStack] ;;
  Println [AStr "Well, program is crashed. This is a bug."] ;;
  Println [] ;;
  Printf "All data you've entered are kept in the file:\n\t%s"
         [AStr reviewFileName] ;;
  Println [] ;;
  Println [] ;;
  Printf "Feel free to open issue or PR on the:\n\t%s"
         [AStr "https://github.com/seletskiy/ash"] ;;
  Println [].

(** [for i, change := range changes { ... }] of [review], from index [i];
    [n] is [len(changes)] of the whole slice. *)
Fixpoint apply_changes (i n : Z) (changes : list ReviewChange) : M unit :=
  match changes with
  | [] => mret tt
  | change :: rest =>
      Printf "(%d/%d) applying changes\n" [AInt (i + 1); AInt n] ;;
      logger.Debug "change payload: %#v" [APayload change] ;;
      err ← PullRequest.ApplyChange env change ;
      match err with
      | Some e => logger.Critical "can not apply change: %s" [AStr e]
      | None => mret tt
      end ;;
      apply_changes (i + 1) n rest
  end.

(** [pr.GetActivities()]: the overview, read from the service. *)
Definition get_activities : M (Review + string) := fun w =>
  Done (GetActivities env (requests_of (trace w))) w.

(** The first statement of [review]: the overview or the review of one
    file, downloaded from the service. *)
Definition download (path : string) : M (Review + string) :=
  if decide (path = "") then
    (logger.Debug "downloading overview from Stash" [] ;;
     get_activities)
  else
    (logger.Debug "downloading review from Stash" [] ;;
     PullRequest.GetReview env path).

Definition review (editor : string) (path : string) : M unit :=
  downloaded ← download path ;
  match downloaded with
  | inr err => logger.Fatal err
  | inl review =>
      if decide (length (godiff.Diffs (changeset review)) = 0%nat) then
        Println [AStr "Specified file is not found in pull request."] ;;
        Exit 1
      else
        tmpFile ← TempFile ;
        with_recover
          (edited ← editReviewInEditor editor review tmpFile ;
           match edited with
           | inr err => logger.Fatal err
           | inl changes =>
               if decide (length changes = 0%nat) then
                 logger.Warning
                   "no changes detected in review file (maybe a bug)" [] ;;
                 Exit 2
               else
                 let n := Z.of_nat (length changes) in
                 logger.Debug "applying changes (%d)" [AInt n] ;;
                 apply_changes 0 n changes ;;
                 Close tmpFile ;;
                 Remove tmpFile ;;
                 logger.Debug "removed tmp file: %s" [AStr tmpFile]
           end)
          (fun r => printPanicMsg r tmpFile)
  end.

End WithCollaborators.

(** *** The command line *)

Definition startUrlExample : string :=
  "http[s]://<host>/(users|projects)/<project>/repos/<repo>/pull-requests/<id>".

(** [(https?://.*/)((users|projects)/([^/]+))/repos/([^/]+)/pull-requests/(\d+)] *)
Definition reStashURL : regexp.re :=
  regexp.Seq
    (regexp.Group 1
       (regexp.Seq (regexp.Lit "http")
          (regexp.Seq (regexp.Opt (regexp.Lit "s"))
             (regexp.Seq (regexp.Lit "://")
                (regexp.Seq (regexp.Star regexp.Dot) (regexp.Lit "/"))))))
    (regexp.Seq
       (regexp.Group 2
          (regexp.Seq
             (regexp.Group 3
                (regexp.Alt (regexp.Lit "users") (regexp.Lit "projects")))
             (regexp.Seq (regexp.Lit "/")
                (regexp.Group 4
                   (regexp.Plus (regexp.NotSet [regexp.IChar "/"]))))))
       (regexp.Seq (regexp.Lit "/repos/")
          (regexp.Seq
             (regexp.Group 5 (regexp.Plus (regexp.NotSet [regexp.IChar "/"])))
             (regexp.Seq (regexp.Lit "/pull-requests/")
                (regexp.Group 6 (regexp.Plus (regexp.Set_ [regexp.IDigit]))))))).

(** [v.(string)]: a panic when [v] holds no string. *)
Definition as_string (v : value) : M string :=
  match v with
  | VStr s => mret s
  | _ => panic "interface conversion: interface {} is not string"
  end.

Record Uri : Type := mkUri {
  host : string;
  project : string;
  repo : string;
  pr : Z
}.

Definition parseUri (args : gmap string value) : M Uri :=
  let pick (name : string) (should : Z) (state : string * string * Z)
    : M (string * string * Z) :=
    if is_nil (index args name) then mret state
    else uri ← as_string (index args name) ; mret (uri, name, should) in
  state ← pick "<project>/<repo>/<pr>" 3 ("", "", 0) ;
  state ← pick "<project>/<repo>" 2 state ;
  let '(uri, keyName, should) := state in
  let matches := regexp.FindStringSubmatch reStashURL uri in
  if negb (length matches =? 0)%nat then
    mret {| host := nth 1 matches "";
            project := nth 2 matches "";
            repo := nth 5 matches "";
            pr := fst (strconv.ParseInt (nth 6 matches "") 10 16) |}
  else
    (if is_nil (index args "--host") then
       Println [AStr "In case of shorthand syntax --host should be specified"] ;;
       Exit 1
     else mret tt) ;;
    let matches := strings.Split uri "/" in
    host ← as_string (index args "--host") ;
    let result := {| host := host; project := ""; repo := ""; pr := 0 |} in
    let result :=
      if (length matches =? 2)%nat && (should =? 3)
         && negb (is_nil (index args "--project"))
      then {| host := host; project := project result;
              repo := nth 0 matches "";
              pr := fst (strconv.ParseInt (nth 1 matches "") 10 16) |}
      else result in
    result ←
      (if negb (is_nil (index args "--project")) then
         p ← as_string (index args "--project") ;
         mret {| host := host; project := p;
                 repo := repo result; pr := pr result |}
       else mret result) ;
    let result :=
      if (length matches =? 2)%nat && (should =? 2)
      then {| host := host; project := nth 0 matches "";
              repo := nth 1 matches ""; pr := pr result |}
      else result in
    let result :=
      if (3 <=? length matches)%nat && (should =? 3)
      then {| host := host; project := nth 0 matches "";
              repo := nth 1 matches "";
              pr := fst (strconv.ParseInt (nth 2 matches "") 10 16) |}
      else result in
    let enough :=
      negb (String.eqb (project result) "")
      && negb (String.eqb (repo result) "")
      && (negb (pr result =? 0) || (should =? 2)) in
    (if negb enough then
       Println [AStr ("<pull-request> should be in either:\n" +:+
                      " - URL Format: " +:+ startUrlExample +:+ "\n" +:+
                      " - Shorthand format: " +:+ keyName)] ;;
       Exit 1
     else mret tt) ;;
    match project result with
    | EmptyString => panic "runtime error: index out of range"
    | String c rest =>
        if Ascii.eqb c "~" || Ascii.eqb c "%" then
          mret {| host := host; project := "users/" +:+ rest;
                  repo := repo result; pr := pr result |}
        else
          mret {| host := host; project := "projects/" +:+ project result;
                  repo := repo result; pr := pr result |}
    end.

(** *** Redacting the password in the log *)

(** [(\s(-p|--pass)[\s=])([^ ]+)] *)
Definition rePassFlag : regexp.re :=
  regexp.Seq
    (regexp.Group 1
       (regexp.Seq (regexp.Set_ [regexp.ISpace])
          (regexp.Seq
             (regexp.Group 2 (regexp.Alt (regexp.Lit "-p") (regexp.Lit "--pass")))
             (regexp.Set_ [regexp.ISpace; regexp.IChar "="]))))
    (regexp.Group 3 (regexp.Plus (regexp.NotSet [regexp.IChar " "]))).

(** [func (p CmdLineArgs) Redacted() interface{}]; the value returned
    is always a string. *)
Definition Redacted (p : string) : string :=
  let matches := regexp.FindStringSubmatch rePassFlag p in
  if (length matches =? 0)%nat then p
  else
    regexp.ReplaceAllString rePassFlag p
      ("$1" +:+ logging.Redact (nth 3 matches "")).

End Main.

(** ** Reading a trace *)

(** What was printed on standard output, oldest first. *)
Fixpoint printed (t : list Event) : list Output :=
  match t with
  | [] => []
  | EvPrint o :: t' => o :: printed t'
  | _ :: t' => printed t'
  end.

(** The progress lines of the apply loop for [count] changes from index
    [i] of [n]. *)
Definition progress_lines (i n : Z) (count : nat) : list Output :=
  map (fun k => Formatted "(%d/%d) applying changes\n"
                  [AInt (i + Z.of_nat k + 1); AInt n])
      (seq 0 count).

(** The event is a request that changes the remote review. *)
Definition applies (e : Event) : bool :=
  match e with EvRequest r _ => is_mutation r | _ => false end.

(** The event creates or writes the temporary file or runs the editor. *)
Definition edits (e : Event) : bool :=
  match e with
  | EvTempFile _ | EvWriteReview _ | EvEditor _ _ _ => true
  | _ => false
  end.

(** The event reads the edited file back or compares the reviews. *)
Definition reads_back (e : Event) : bool :=
  match e with EvReadReview _ | EvCompare => true | _ => false end.

Definition removes (e : Event) : bool :=
  match e with EvRemove _ => true | _ => false end.

(** The world after one turn of the apply loop on [change]. *)
Definition attempt (env : Collaborators) (i n : Z) (change : ReviewChange)
    (w : World) : World :=
  let w1 :=
    emit (EvLog DEBUG "change payload: %#v" [APayload change])
      (emit (EvPrint (Formatted "(%d/%d) applying changes\n"
                        [AInt (i + 1); AInt n])) w) in
  let r := PullRequest.request_for change in
  let err := serve env (requests_of (trace w1)) r in
  let w2 := emit (EvRequest r err) w1 in
  match err with
  | Some e => emit (EvLog CRITICAL "can not apply change: %s" [AStr e]) w2
  | None => w2
  end.


(** The errors the service answered with, oldest first. *)
Fixpoint failures (t : list Event) : list string :=
  match t with
  | [] => []
  | EvRequest _ (Some e) :: t' => e :: failures t'
  | _ :: t' => failures t'
  end.

(** The reading of "a failure halts further mutation application": at
    the first change whose request the service fails (the requests of
    the changes before it were all accepted), the loop stops, so that
    the requests of the whole loop are those up to and including that
    change and no later change is attempted. *)
Definition halts_on_failure (env : Collaborators)
    (changes : list ReviewChange) (w : World) : Prop :=
  let n := Z.of_nat (length changes) in
  forall pre c post w1 e w',
    changes = pre ++ c :: post ->
    Main.apply_changes env 0 n pre w = Done tt w1 ->
    failures (trace w1) = failures (trace w) ->
    serve env (requests_of (trace w1)) (PullRequest.request_for c) = Some e ->
    Main.apply_changes env 0 n changes w = Done tt w' ->
    requests_of (trace w')
    = requests_of (trace w) ++ map PullRequest.request_for (pre ++ [c]).

(** ** A concrete session *)

Module Demo.

Definition line : godiff.Line :=
  {| godiff.Source := "+func main() {}";
     godiff.CommentIds := [];
     godiff.Comments := [] |}.

Definition diff : godiff.Diff :=
  {| godiff.Hunks :=
       [ {| godiff.Segments := [ {| godiff.Lines := [line] |} ] |} ];
     godiff.LineComments := [] |}.

Definition fetched : godiff.Changeset :=
  {| godiff.Path := ""; godiff.Diffs := [diff] |}.

Definition empty_changeset : godiff.Changeset :=
  {| godiff.Path := ""; godiff.Diffs := [] |}.

(** A new comment, an edited comment and a removed comment. *)
Definition create : ReviewChange :=
  {[ "text" := VStr "looks good";
     "anchor" := VMap [("line", VInt 1); ("lineType", VStr "ADDED")] ]}.

Definition update : ReviewChange :=
  {[ "id" := VInt 7; "version" := VInt 2; "text" := VStr "nit" ]}.

Definition remove : ReviewChange :=
  {[ "id" := VInt 9; "version" := VInt 0 ]}.

(** A session whose service answers mutations with [answer], whose
    changeset is [body], whose editor ends with [editor_err], whose
    edited text parses to [parsed] and compares to [changes]. *)
Definition session (body : godiff.Changeset)
    (answer : Request -> option string) (editor_err : option string)
    (parsed : call (Review + string)) (changes : list ReviewChange)
  : Collaborators :=
  {| serve := fun _ r => if is_mutation r then answer r else None;
     serve_diff := fun _ _ => body;
     GetActivities := fun _ => inl {| changeset := body |};
     AddUsageComment := fun r => r;
     AddVimModeline := fun r => r;
     WriteReview := fun _ => "+func main() {}";
     ReadReview := fun _ => parsed;
     Compare := fun _ _ => Returns changes;
     run_editor := fun _ _ text => (text +:+ "# looks good", editor_err);
     temp_name := "/tmp/review.diff.1" |}.

Definition start : World := {| trace := []; files := ∅ |}.

(** The review of "main.go" as [GetReview] returns it, and the world
    after the download. *)
Definition downloaded (body : godiff.Changeset) : Review :=
  {| changeset :=
       {| godiff.Path := "main.go"; godiff.Diffs := godiff.Diffs body |} |}.

Definition after_download : World :=
  emit (EvRequest (mkRequest GET ["diff"; "main.go"] ∅ None) None)
    (emit (EvLog DEBUG "downloading review from Stash" []) start).

(** The text the editor leaves in the temporary file. *)
Definition edited_text : string := "+func main() {}# looks good".

Definition refuses : Request -> option string :=
  fun _ => Some "connection refused".

Definition accepts : Request -> option string := fun _ => None.

End Demo.

(** The world once the editor has returned with [err], leaving [text] in
    the temporary file, in a session that downloaded [downloaded] and
    reached [w]. *)
Definition after_editor (env : Collaborators) (editor : string)
    (downloaded : Review) (text : string) (err : option string) (w : World)
  : World :=
  let name := temp_name env in
  let original := AddVimModeline env (AddUsageComment env downloaded) in
  {| trace :=
       trace w ++
       [ EvTempFile name;
         EvLog INFO "writing review to file: %s" [AStr name];
         EvWriteReview name;
         EvLog DEBUG "opening editor: %s %s" [AStr editor; AStr name];
         EvEditor editor name err ];
     files :=
       <[name := text]>
         (<[name := WriteReview env original]> (<[name := ""]> (files w))) |}.

(** Nothing of the edit session happened in these events: no temporary
    file, no editor, no reading back, no mutation, no removal. *)
Definition only_fetches (added : list Event) : bool :=
  forallb (fun e => negb (applies e || edits e || reads_back e || removes e))
          added.

(** The world once the edited file has been read back. *)
Definition after_read_back (env : Collaborators) (editor : string)
    (downloaded : Review) (text : string) (w : World) : World :=
  emit (EvReadReview (temp_name env))
    (emit (EvLog DEBUG "reading modified review back" [])
       (after_editor env editor downloaded text None w)).

(** The world at the start of the apply loop for [n] changes. *)
Definition before_apply (env : Collaborators) (editor : string)
    (downloaded : Review) (text : string) (n : Z) (w : World) : World :=
  emit (EvLog DEBUG "applying changes (%d)" [AInt n])
    (emit EvCompare
       (emit (EvLog DEBUG "comparing old and new reviews" [])
          (after_read_back env editor downloaded text w))).

(** The world once the loop has ended in [w]: the temporary file is
    closed and removed. *)
Definition after_cleanup (env : Collaborators) (w : World) : World :=
  let name := temp_name env in
  emit (EvLog DEBUG "removed tmp file: %s" [AStr name])
    (emit (EvRemove name) (remove_file name (emit (EvClose name) w))).

Module DemoSessions.

Definition parsed : call (Review + string) :=
  Returns (inl {| changeset := Demo.fetched |}).

Definition malformed : call (Review + string) :=
  Returns (inr "malformed review: no hunks").

(** Only the update is refused, with a version conflict. *)
Definition conflicts : Request -> option string :=
  fun r =>
    match req_method r with
    | PUT => Some "409 Conflict: comment version mismatch"
    | _ => None
    end.

(** The service is unreachable while the changes are applied. *)
Definition unreachable : Collaborators :=
  Demo.session Demo.fetched Demo.refuses None parsed
    [Demo.create; Demo.remove].

(** The service refuses the update and accepts the rest. *)
Definition conflicting : Collaborators :=
  Demo.session Demo.fetched conflicts None parsed
    [Demo.create; Demo.update; Demo.remove].

(** The editor is killed. *)
Definition editor_killed : Collaborators :=
  Demo.session Demo.fetched Demo.accepts (Some "signal: killed") parsed
    [Demo.create].

(** The edited text does not parse. *)
Definition unparsable : Collaborators :=
  Demo.session Demo.fetched Demo.accepts None malformed [].

(** The path is not part of the pull request. *)
Definition absent : Collaborators :=
  Demo.session Demo.empty_changeset Demo.accepts None parsed [Demo.create].

End DemoSessions.

(** ** The words of the claim about [Redacted] *)

(** [flag] followed by white space or by '=' starts [s]. *)
Definition separated (flag s : string) : bool :=
  match regexp.strip_prefix flag s with
  | Some (String d _) => regexp.is_space d || Ascii.eqb "=" d
  | _ => false
  end.

(** A password flag starts [s]: white space, then "-p" or "--pass",
    then white space or '='. *)
Definition flag_at (s : string) : bool :=
  match s with
  | String c s' => regexp.is_space c && (separated "-p" s' || separated "--pass" s')
  | EmptyString => false
  end.

(** A password flag starts somewhere in [s]. *)
Fixpoint has_flag (s : string) : bool :=
  flag_at s ||
  match s with
  | String _ s' => has_flag s'
  | EmptyString => false
  end.

(** No password flag of [pre +:+ rest] starts within [pre]. *)
Fixpoint no_flag_starts_in (pre rest : string) : bool :=
  match pre with
  | EmptyString => true
  | String c pre' =>
      negb (flag_at (String c (pre' +:+ rest))) && no_flag_starts_in pre' rest
  end.

(** [s] has no space in it. *)
Fixpoint space_free (s : string) : bool :=
  match s with
  | EmptyString => true
  | String c s' => negb (Ascii.eqb " " c) && space_free s'
  end.

(** ** Concrete command lines *)

Module DemoArgs.

Definition url : string :=
  "https://stash.example.com/projects/ash/repos/ash/pull-requests/40000".

Definition by_url : gmap string value :=
  {[ "<project>/<repo>/<pr>" := VStr url;
     "--user" := VStr "reviewer";
     "--pass" := VStr "hunter2";
     "review" := VBool true ]}.

End DemoArgs.

(** The rendered arguments with a password flag and its password:
    [pre], white space [ws], the flag, the separator [sep], the password
    [pw] and [rest]. *)
Definition with_password (pre : string) (ws : ascii) (flag : string)
    (sep : ascii) (pw rest : string) : string :=
  pre +:+ String ws (flag +:+ String sep (pw +:+ rest)).

(** ** The arguments in the debug log *)

(** [fmt.Sprintf("%s", args)] for a slice of strings. *)
Fixpoint join_spaces (args : list string) : string :=
  match args with
  | [] => ""
  | [a] => a
  | a :: rest => a +:+ " " +:+ join_spaces rest
  end.

Definition Sprintf_strings (args : list string) : string :=
  "[" +:+ join_spaces args +:+ "]".

(** What [logger.Debug("cmd line args: %s", CmdLineArgs(...))] of [main]
    prints for the arguments: the logger calls [Redacted]. *)
Definition logged_args (args : list string) : string :=
  Main.Redacted (Sprintf_strings args).

(** [strings.Contains(s, substr)] *)
Fixpoint Contains (s substr : string) : bool :=
  match regexp.strip_prefix substr s with
  | Some _ => true
  | None =>
      match s with
      | EmptyString => false
      | String _ s' => Contains s' substr
      end
  end.

(** The reading of "the plaintext password never appears in the redacted
    debug output". *)
Definition never_shows_password (args : list string) (password : string)
  : Prop :=
  Contains (logged_args args) password = false.

Module DemoLog.

(** The password flag comes first, as when it is the first line of the
    configuration file. *)
Definition password_first : list string :=
  ["--pass=hunter2"; "--user=reviewer"; "ash/ash/1"; "review"].

Definition password_later : list string :=
  ["--user=reviewer"; "--pass=hunter2"; "ash/ash/1"; "review"].

End DemoLog.

(** * More of the program *)

(** ** strings.TrimSpace *)

Module Trim.

Definition bytes (codes : list N) : string :=
  fold_right (fun n s => String (ascii_of_N n) s) "" codes.

(** The UTF-8 encodings of the runes [unicode.IsSpace] accepts: the
    ASCII ones, U+0085, U+00A0, U+1680, U+2000 to U+200A, U+2028,
    U+2029, U+202F, U+205F and U+3000. *)
Definition spaces : list string :=
  map bytes
    [ [9]; [10]; [11]; [12]; [13]; [32];
      [194; 133]; [194; 160];
      [225; 154; 128];
      [226; 128; 128]; [226; 128; 129]; [226; 128; 130]; [226; 128; 131];
      [226; 128; 132]; [226; 128; 133]; [226; 128; 134]; [226; 128; 135];
      [226; 128; 136]; [226; 128; 137]; [226; 128; 138];
      [226; 128; 168]; [226; 128; 169]; [226; 128; 175];
      [226; 129; 159];
      [227; 128; 128] ]%N.

(** What is left of [s] after the first of [encodings] that starts it. *)
Fixpoint strip_one (encodings : list string) (s : string) : option string :=
  match encodings with
  | [] => None
  | e :: encodings' =>
      match regexp.strip_prefix e s with
      | Some rest => Some rest
      | None => strip_one encodings' s
      end
  end.

(** [s] without the [encodings] that start it, one after the other. *)
Fixpoint strip_all (fuel : nat) (encodings : list string) (s : string)
  : string :=
  match fuel with
  | O => s
  | S fuel' =>
      match strip_one encodings s with
      | Some rest => strip_all fuel' encodings rest
      | None => s
      end
  end.

Definition TrimLeft (s : string) : string :=
  strip_all (String.length s) spaces s.

(** From the right: the same on the reversed bytes. *)
Definition TrimRight (s : string) : string :=
  String.rev
    (strip_all (String.length s) (map String.rev spaces) (String.rev s)).

(** [strings.TrimSpace(s)] *)
Definition TrimSpace (s : string) : string := TrimRight (TrimLeft s).

End Trim.

(** ** main.go: before the session *)

Module Startup.

(** [ioutil.ReadFile(path)]: the contents, or the error for a file that
    is not there. *)
Definition ReadFile (path : string) : M (string + string) := fun w =>
  match files w !! path with
  | Some contents => Done (inl contents) w
  | None => Done (inr ("open " +:+ path +:+ ": no such file or directory")) w
  end.

(** [mergeArgsWithConfig(path)], with [os.Args] as [osArgs]. *)
Definition mergeArgsWithConfig (osArgs : list string) (path : string)
  : M (list string) :=
  conf ← ReadFile path ;
  match conf with
  | inr err =>
      logger.Warning "can not access config: %s" [AStr err] ;;
      mret []
  | inl conf =>
      let confLines := strings.Split conf "010" in
      let args :=
        fold_left
          (fun args line =>
             let line := Trim.TrimSpace line in
             if String.eqb line "" then args else args ++ [line])
          confLines [] in
      match osArgs with
      | [] => panic "runtime error: slice bounds out of range"
      | _ :: rest => mret (args ++ rest)
      end
  end.

(** What the [logging] package is configured with. *)
Record Logging : Type := mkLogging {
  Backend : option string;
  Formatter : option string;
  Levels : gmap string Level
}.

Definition logFormat : string :=
  "%{color}%{time:15:04:05.00} [%{level:.4s}] %{message}%{color:reset}".

(** [l[:high]] on a slice that fills its array. *)
Definition slice_to {A : Type} (l : list A) (high : Z) : call (list A) :=
  if (0 <=? high) && (high <=? Z.of_nat (length l))
  then Returns (take (Z.to_nat high) l)
  else Panics "runtime error: slice bounds out of range".

Definition logLevels : list Level := [WARNING; INFO; DEBUG].

(** [logging.SetLevel(lvl, module)] *)
Definition SetLevel (lvl : Level) (module : string) (l : Logging) : Logging :=
  {| Backend := Backend l; Formatter := Formatter l;
     Levels := <[module := lvl]> (Levels l) |}.

Definition setupLogger (args : gmap string value) (l : Logging)
  : call Logging :=
  let l := {| Backend := Some "os.Stderr"; Formatter := Formatter l;
              Levels := Levels l |} in
  let l := {| Backend := Backend l; Formatter := Some logFormat;
              Levels := Levels l |} in
  let requested : call Z :=
    if is_nil (index args "--debug") then Returns 0
    else
      match index args "--debug" with
      | VStr s => Returns (fst (strconv.ParseInt s 10 16))
      | _ => Panics "interface conversion: interface {} is not string"
      end in
  match requested with
  | Panics msg => Panics msg
  | Returns requestedLogLevel =>
      match slice_to logLevels (requestedLogLevel + 1) with
      | Panics msg => Panics msg
      | Returns levels =>
          Returns (fold_left (fun l lvl => SetLevel lvl "main" l) levels l)
      end
  end.

(** One file of a pull request, as [showFilesList] reads it. *)
Record File : Type := mkFile {
  DstPath : string;
  ChangeType : string;
  DstExec : bool;
  SrcExec : bool
}.

(** A pull request: the collaborators of its review session and its
    list of files ([PullRequest.GetFiles], which only reads from the
    service). *)
Record PullRequestHandle : Type := mkHandle {
  session : Collaborators;
  GetFiles : list Request -> list File * option string
}.

Definition execFlag (file : File) : string :=
  if negb (Bool.eqb (DstExec file) (SrcExec file)) then
    if DstExec file then "-x" else "+x"
  else "".

Definition showFilesList (pr : PullRequestHandle) : M unit :=
  logger.Debug "showing list of files in PR" [] ;;
  listed ← (fun w => Done (GetFiles pr (requests_of (trace w))) w) ;
  let '(files, err) := listed in
  match err with
  | Some e => event (EvLog ERROR "error accessing Stash: %s" [AStr e])
  | None => mret tt
  end ;;
  fold_left
    (fun done file =>
       done ;;
       Printf "%2s %7s %s\n"
         [AStr (execFlag file); AStr (ChangeType file); AStr (DstPath file)])
    files (mret tt).

(** [case v:] of a [switch] without a tag: [v] holds [true]. *)
Definition is_true (v : value) : bool :=
  match v with VBool true => true | _ => false end.

(** [reviewMode(args, repo, pr)]; [EDITOR] is [os.Getenv("EDITOR")] and
    [GetPullRequest] is [repo.GetPullRequest]. *)
Definition reviewMode (EDITOR : string) (args : gmap string value)
    (GetPullRequest : Z -> PullRequestHandle) (pr : Z) : M unit :=
  editor ← (if negb (is_nil (index args "-e"))
            then Main.as_string (index args "-e")
            else mret EDITOR) ;
  (if String.eqb editor "" then
     Println
       [AStr "Either -e or env var $EDITOR should specify edtitor to use."] ;;
     Exit 1
   else mret tt) ;;
  path ← (if negb (is_nil (index args "<file-name>"))
          then Main.as_string (index args "<file-name>")
          else mret "") ;
  let pullRequest := GetPullRequest pr in
  if is_true (index args "ls") then showFilesList pullRequest
  else if is_true (index args "review")
       then Main.review (session pullRequest) editor path
       else mret tt.

End Startup.

(** ** pull_request.go: the resource of a pull request *)

Module Client.

(** What [NewPullRequest] reads of a [Repo]. *)
Record Repo : Type := mkRepo {
  Host : string;
  ProjectName : string;
  Name : string
}.

(** The URL [NewPullRequest(repo, id)] gives the resource. *)
Definition NewPullRequest (repo : Repo) (id : Z) : string :=
  "http://" +:+ Host repo +:+ "/rest/api/1.0/" +:+ ProjectName repo
  +:+ "/repos/" +:+ Name repo +:+ "/pull-requests/" +:+ pretty id.

End Client.

(** ** Concrete start-ups *)

Module DemoStartup.

Definition rc : string := "/home/reviewer/.config/ash/ashrc".

(** A configuration file with Windows line ends, a blank line and a
    line of two words. *)
Definition conf : string :=
  "--host stash.example.com" +:+ String "013" (String "010"
    ("   " +:+ String "010"
       ("	-p hunter2 " +:+ String "010" ""))).

Definition configured : World :=
  {| trace := []; files := {[ rc := conf ]} |}.

Definition osArgs : list string := ["ash"; "ash/ash/1"; "review"].

Definition unset : Startup.Logging :=
  {| Startup.Backend := None; Startup.Formatter := None;
     Startup.Levels := ∅ |}.

End DemoStartup.

(** ** Reading a review and a trace *)

(** A line after [GetReview]: its text and ids are kept, and the
    comments of its diff that the ids name are put after the comments it
    had. *)
Definition linked (d : godiff.Diff) (l l' : godiff.Line) : Prop :=
  godiff.Source l' = godiff.Source l
  /\ godiff.CommentIds l' = godiff.CommentIds l
  /\ exists attached : list godiff.Comment,
       godiff.Comments l' = godiff.Comments l ++ attached
       /\ forall c : godiff.Comment,
            In c attached
            <-> In c (godiff.LineComments d)
                /\ In (godiff.Id c) (godiff.CommentIds l).

(** The errors logged as "can not apply change", oldest first. *)
Fixpoint reported (t : list Event) : list string :=
  match t with
  | [] => []
  | EvLog CRITICAL format [AStr e] :: t' =>
      if String.eqb format "can not apply change: %s"
      then e :: reported t' else reported t'
  | _ :: t' => reported t'
  end.

Module DemoMore.

(** The comparison of the reviews panics. *)
Definition comparison_panics : Collaborators :=
  {| serve := fun _ _ => None;
     serve_diff := fun _ _ => Demo.fetched;
     GetActivities := fun _ => inl {| changeset := Demo.fetched |};
     AddUsageComment := fun r => r;
     AddVimModeline := fun r => r;
     WriteReview := fun _ => "+func main() {}";
     ReadReview := fun _ => DemoSessions.parsed;
     Compare := fun _ _ => Panics "runtime error: index out of range";
     run_editor := fun _ _ text => (text +:+ "# looks good", None);
     temp_name := "/tmp/review.diff.1" |}.

(** The reviewer leaves the file as it is. *)
Definition nothing_changed : Collaborators :=
  Demo.session Demo.fetched Demo.accepts None DemoSessions.parsed [].

(** The service accepts every change. *)
Definition accepted : Collaborators :=
  Demo.session Demo.fetched Demo.accepts None DemoSessions.parsed
    [Demo.create; Demo.update; Demo.remove].

(** The service cannot be reached for the download. *)
Definition offline : Collaborators :=
  {| serve := fun _ _ => Some "connection refused";
     serve_diff := fun _ _ => Demo.empty_changeset;
     GetActivities := fun _ => inr "connection refused";
     AddUsageComment := fun r => r;
     AddVimModeline := fun r => r;
     WriteReview := fun _ => "";
     ReadReview := fun _ => DemoSessions.parsed;
     Compare := fun _ _ => Returns [];
     run_editor := fun _ _ text => (text, None);
     temp_name := "/tmp/review.diff.1" |}.

(** A diff with two comments, and a line that names the second of them
    and an id that no comment has. *)
Definition first_comment : godiff.Comment :=
  {| godiff.Id := 7; godiff.Version := 2; godiff.Text := "nit" |}.

Definition second_comment : godiff.Comment :=
  {| godiff.Id := 9; godiff.Version := 0; godiff.Text := "why?" |}.

Definition commented_line : godiff.Line :=
  {| godiff.Source := "+func main() {}";
     godiff.CommentIds := [9; 11];
     godiff.Comments := [] |}.

Definition commented : godiff.Changeset :=
  {| godiff.Path := "";
     godiff.Diffs :=
       [ {| godiff.Hunks :=
              [ {| godiff.Segments :=
                     [ {| godiff.Lines := [commented_line] |} ] |} ];
            godiff.LineComments := [first_comment; second_comment] |} ] |}.

Definition with_comments : Collaborators :=
  Demo.session commented Demo.accepts None DemoSessions.parsed [].

End DemoMore.

Module DemoLinked.

(** The review [GetReview] makes of [DemoMore.commented]. *)
Definition review : Review :=
  {| changeset :=
       {| godiff.Path := "main.go";
          godiff.Diffs :=
            [ {| godiff.Hunks :=
                   [ {| godiff.Segments :=
                          [ {| godiff.Lines :=
                                 [ {| godiff.Source := "+func main() {}";
                                      godiff.CommentIds := [9; 11];
                                      godiff.Comments :=
                                        [DemoMore.second_comment] |} ] |} ] |} ];
                 godiff.LineComments :=
                   [DemoMore.first_comment; DemoMore.second_comment] |} ] |} |}.

Definition downloaded : World :=
  emit (EvRequest (mkRequest GET ["diff"; "main.go"] ∅ None) None) Demo.start.

(** An update that lost its version. *)
Definition unversioned : ReviewChange :=
  {[ "id" := VInt 7; "text" := VStr "nit" ]}.

End DemoLinked.

(** ** Concrete shorthand arguments and a pull request to list *)

Module DemoShorthand.

(** A pull request of a user's repository, with the host given. *)
Definition personal : gmap string value :=
  {[ "<project>/<repo>/<pr>" := VStr "~alice/dotfiles/12";
     "--host" := VStr "stash.example.com";
     "ls" := VBool true ]}.

(** The shorthand form without [--host]. *)
Definition no_host : gmap string value :=
  {[ "<project>/<repo>/<pr>" := VStr "ash/ash/1";
     "review" := VBool true ]}.

Definition changed_files : list Startup.File :=
  [ {| Startup.DstPath := "main.go"; Startup.ChangeType := "MODIFY";
       Startup.DstExec := false; Startup.SrcExec := false |};
    {| Startup.DstPath := "build.sh"; Startup.ChangeType := "ADD";
       Startup.DstExec := true; Startup.SrcExec := false |} ].

(** The service lists two files and reports an error with them. *)
Definition listing (id : Z) : Startup.PullRequestHandle :=
  {| Startup.session := DemoMore.accepted;
     Startup.GetFiles := fun _ => (changed_files, Some "unexpected EOF") |}.

Definition dotfiles : Client.Repo :=
  {| Client.Host := "stash.example.com"; Client.ProjectName := "users/alice";
     Client.Name := "dotfiles" |}.

End DemoShorthand.

(** The line [showFilesList] prints for a file. *)
Definition file_line (file : Startup.File) : Output :=
  Formatted "%2s %7s %s\n"
    [AStr (Startup.execFlag file); AStr (Startup.ChangeType file);
     AStr (Startup.DstPath file)].

(** ** What a match of a pattern is *)

(** [R] holds of consecutive pieces of the text, the groups threaded
    through them. *)
Inductive iterated (R : string -> regexp.Captures -> regexp.Captures -> Prop)
  : string -> regexp.Captures -> regexp.Captures -> Prop :=
  | iterated_nil (caps : regexp.Captures) : iterated R "" caps caps
  | iterated_cons (m1 m2 : string) (caps caps1 caps2 : regexp.Captures) :
      R m1 caps caps1 -> iterated R m2 caps1 caps2 ->
      iterated R (m1 +:+ m2) caps caps2.

(** The text [m] matches the pattern [r], and the groups [caps] are
    [caps'] after it. *)
Fixpoint derives (r : regexp.re) (m : string)
    (caps caps' : regexp.Captures) : Prop :=
  match r with
  | regexp.Lit l => m = l /\ caps' = caps
  | regexp.Dot =>
      exists c : ascii,
        m = String c "" /\ Ascii.eqb c "010" = false /\ caps' = caps
  | regexp.Set_ items =>
      exists c : ascii,
        m = String c "" /\ regexp.in_set items c = true /\ caps' = caps
  | regexp.NotSet items =>
      exists c : ascii,
        m = String c "" /\ regexp.in_set items c = false /\ caps' = caps
  | regexp.Seq a b =>
      exists (m1 m2 : string) (caps1 : regexp.Captures),
        m = m1 +:+ m2 /\ derives a m1 caps caps1 /\ derives b m2 caps1 caps'
  | regexp.Alt a b => derives a m caps caps' \/ derives b m caps caps'
  | regexp.Opt a => (m = "" /\ caps' = caps) \/ derives a m caps caps'
  | regexp.Star a => iterated (derives a) m caps caps'
  | regexp.Plus a =>
      exists (m1 m2 : string) (caps1 : regexp.Captures),
        m = m1 +:+ m2 /\ derives a m1 caps caps1
        /\ iterated (derives a) m2 caps1 caps'
  | regexp.Group n a =>
      exists caps1 : regexp.Captures,
        derives a m caps caps1 /\ caps' = <[n := m]> caps1
  end.

(** [s] has no '/' in it. *)
Fixpoint slash_free (s : string) : bool :=
  match s with
  | EmptyString => true
  | String c s' => negb (Ascii.eqb "/" c) && slash_free s'
  end.

(** * Properties *)

(** ** The trace *)

Lemma requests_of_app (t1 t2 : list Event) :
  requests_of (t1 ++ t2) = requests_of t1 ++ requests_of t2.
Proof.
  induction t1 as [|e t1 IH]; [reflexivity|].
  destruct e; simpl; rewrite IH; reflexivity.
Qed.

Lemma has_key_true (m : gmap string value) (k : string) :
  has_key m k = true <-> is_Some (m !! k).
Proof. unfold has_key. apply bool_decide_eq_true. Qed.

Lemma has_key_false (m : gmap string value) (k : string) :
  has_key m k = false <-> m !! k = None.
Proof.
  unfold has_key. rewrite bool_decide_eq_false, eq_None_not_Some. tauto.
Qed.

(** ** The Mutation Applier *)

Section ApplyChange.
Context (env : Collaborators).

(** [ApplyChange] sends exactly one request, the one [request_for]
    describes, and returns the service's answer. *)
Lemma ApplyChange_sends (change : ReviewChange) :
  PullRequest.ApplyChange env change
  = PullRequest.send env (PullRequest.request_for change).
Proof.
  unfold PullRequest.ApplyChange, PullRequest.request_for.
  destruct (has_key change "id"); [destruct (has_key change "text")|];
    reflexivity.
Qed.

(** C1. [ApplyChange] issues exactly one request, never anything else:
    a POST to the comments resource exactly when the change has no "id"
    key, a PUT exactly when it has both an "id" and a "text" key, and a
    DELETE exactly when it has an "id" but no "text" key. *)
Theorem ApplyChange_selects_by_identity (change : ReviewChange) (w : World) :
  exists r : Request,
    let answer := serve env (requests_of (trace w)) r in
    PullRequest.ApplyChange env change w
      = Done answer (emit (EvRequest r answer) w)
    /\ head (req_path r) = Some "comments"
    /\ (req_method r = POST <-> change !! "id" = None)
    /\ (req_method r = POST -> req_path r = ["comments"])
    /\ (req_method r = PUT
        <-> is_Some (change !! "id") /\ is_Some (change !! "text"))
    /\ (req_method r = DELETE
        <-> is_Some (change !! "id") /\ change !! "text" = None)
    /\ req_method r <> GET.
Proof.
  exists (PullRequest.request_for change). cbv zeta.
  rewrite ApplyChange_sends. split; [reflexivity|].
  unfold PullRequest.request_for.
  destruct (has_key change "id") eqn:Hid;
    [destruct (has_key change "text") eqn:Htext|]; simpl;
    repeat match goal with
    | H : has_key _ _ = true |- _ => apply has_key_true in H
    | H : has_key _ _ = false |- _ => apply has_key_false in H
    end;
    repeat split; try congruence; try discriminate; intros;
    repeat match goal with
    | H : _ /\ _ |- _ => destruct H
    | H : is_Some ?x, H' : ?x = None |- _ =>
        rewrite H' in H; destruct H; discriminate
    end; try assumption; try discriminate.
Qed.

(** C4. Every update (PUT) and every delete (DELETE) is addressed to the
    change's "id" and carries the change's "version" as the "version"
    query parameter, and nothing else in the query; a create (POST)
    carries an empty query. *)
Theorem version_token_sent (change : ReviewChange) (w : World) :
  exists r : Request,
    let answer := serve env (requests_of (trace w)) r in
    PullRequest.ApplyChange env change w
      = Done answer (emit (EvRequest r answer) w)
    /\ (forall id version : value,
          change !! "id" = Some id -> change !! "version" = Some version ->
          (req_method r = PUT \/ req_method r = DELETE)
          /\ req_path r = ["comments"; Sprint id]
          /\ req_query r = {[ "version" := Sprint version ]})
    /\ (req_method r = PUT \/ req_method r = DELETE ->
          req_path r = ["comments"; Sprint (index change "id")]
          /\ req_query r !! "version" = Some (Sprint (index change "version")))
    /\ (req_method r = POST -> req_query r = ∅).
Proof.
  exists (PullRequest.request_for change). cbv zeta.
  rewrite ApplyChange_sends. split; [reflexivity|].
  unfold PullRequest.request_for, index.
  destruct (has_key change "id") eqn:Hid;
    [destruct (has_key change "text") eqn:Htext|]; simpl;
    try apply has_key_false in Hid;
    repeat split; intros;
    repeat match goal with
    | H : _ \/ _ |- _ => destruct H
    | H : change !! _ = Some _ |- _ => rewrite H
    end; simpl; auto; try congruence; try apply lookup_singleton_eq.
Qed.

End ApplyChange.

(** Unfolds the monad and the printing and logging calls. *)
Ltac run_session :=
  cbv [mbind M_bind mret M_ret event Exit panic run_call Println Printf
       logger.Debug logger.Info logger.Warning logger.Critical logger.Fatal
       Main.TempFile Main.write_review Main.Run Main.read_review Main.compare
       Main.Close Main.Remove Main.get_activities
       PullRequest.Get PullRequest.send].

(** ** The review session *)

Section Session.
Context (env : Collaborators).

Lemma bind_done {A B} (m : M A) (f : A -> M B) (w w' : World) (a : A) :
  m w = Done a w' -> (m ≫= f) w = f a w'.
Proof. intros H. unfold mbind, M_bind. rewrite H. reflexivity. Qed.

Lemma trace_emit (e : Event) (w : World) : trace (emit e w) = trace w ++ [e].
Proof. reflexivity. Qed.

Lemma files_emit (e : Event) (w : World) : files (emit e w) = files w.
Proof. reflexivity. Qed.

Lemma printed_app (t1 t2 : list Event) :
  printed (t1 ++ t2) = printed t1 ++ printed t2.
Proof.
  induction t1 as [|e t1 IH]; [reflexivity|].
  destruct e; simpl; rewrite IH; reflexivity.
Qed.

(** *** The apply loop *)

Lemma apply_changes_cons (i n : Z) (c : ReviewChange)
    (rest : list ReviewChange) (w : World) :
  Main.apply_changes env i n (c :: rest) w
  = Main.apply_changes env (i + 1) n rest (attempt env i n c w).
Proof.
  simpl. unfold attempt, mbind, M_bind, Printf, logger.Debug, event.
  rewrite ApplyChange_sends. unfold PullRequest.send. cbv zeta.
  destruct (serve env _ _); reflexivity.
Qed.

Lemma attempt_files (i n : Z) (c : ReviewChange) (w : World) :
  files (attempt env i n c w) = files w.
Proof. unfold attempt. cbv zeta. destruct (serve env _ _); reflexivity. Qed.

Lemma attempt_requests (i n : Z) (c : ReviewChange) (w : World) :
  requests_of (trace (attempt env i n c w))
  = requests_of (trace w) ++ [PullRequest.request_for c].
Proof.
  unfold attempt. cbv zeta.
  destruct (serve env _ _); rewrite ?trace_emit, ?requests_of_app; simpl;
    rewrite ?app_nil_r; reflexivity.
Qed.

Lemma attempt_printed (i n : Z) (c : ReviewChange) (w : World) :
  printed (trace (attempt env i n c w))
  = printed (trace w)
    ++ [Formatted "(%d/%d) applying changes\n" [AInt (i + 1); AInt n]].
Proof.
  unfold attempt. cbv zeta.
  destruct (serve env _ _); rewrite ?trace_emit, ?printed_app; simpl;
    rewrite ?app_nil_r; reflexivity.
Qed.

Lemma progress_lines_cons (i n : Z) (count : nat) :
  progress_lines i n (S count)
  = Formatted "(%d/%d) applying changes\n" [AInt (i + 1); AInt n]
    :: progress_lines (i + 1) n count.
Proof.
  unfold progress_lines. cbn [seq map].
  replace (i + Z.of_nat 0 + 1) with (i + 1) by lia. f_equal.
  rewrite <- seq_shift, map_map. apply map_ext. intros k.
  replace (i + Z.of_nat (S k) + 1) with (i + 1 + Z.of_nat k + 1) by lia.
  reflexivity.
Qed.

(** The loop never stops early: it returns after one turn per change. *)
Lemma apply_changes_runs (changes : list ReviewChange) :
  forall (i n : Z) (w : World),
  exists w' : World,
    Main.apply_changes env i n changes w = Done tt w'
    /\ files w' = files w
    /\ requests_of (trace w')
       = requests_of (trace w) ++ map PullRequest.request_for changes
    /\ printed (trace w')
       = printed (trace w) ++ progress_lines i n (length changes).
Proof.
  induction changes as [|c rest IH]; intros i n w.
  - exists w. simpl. rewrite !app_nil_r. auto.
  - destruct (IH (i + 1) n (attempt env i n c w)) as (w' & Hrun & Hf & Hr & Hp).
    exists w'. rewrite apply_changes_cons. split; [exact Hrun|].
    rewrite Hf, Hr, Hp, attempt_files, attempt_requests, attempt_printed.
    cbn [length map]. rewrite progress_lines_cons, <- !app_assoc.
    auto.
Qed.

Lemma apply_changes_app (pre post : list ReviewChange) :
  forall (i n : Z) (w w1 : World),
    Main.apply_changes env i n pre w = Done tt w1 ->
    Main.apply_changes env i n (pre ++ post) w
    = Main.apply_changes env (i + Z.of_nat (length pre)) n post w1.
Proof.
  induction pre as [|c pre IH]; intros i n w w1 H.
  - simpl in H. inversion H; subst. cbn [length app Z.of_nat].
    rewrite Z.add_0_r. reflexivity.
  - rewrite <- app_comm_cons, apply_changes_cons.
    rewrite apply_changes_cons in H.
    rewrite (IH _ _ _ _ H).
    replace (i + 1 + Z.of_nat (length pre))
      with (i + Z.of_nat (length (c :: pre))) by (cbn [length]; lia).
    reflexivity.
Qed.


(** *** Downloading *)

Lemma download_fetches (path : string) (w w1 : World) (r : Review + string) :
  Main.download env path w = Done r w1 ->
  files w1 = files w
  /\ exists added : list Event,
       trace w1 = trace w ++ added /\ only_fetches added = true.
Proof.
  unfold Main.download. destruct (decide (path = "")) as [_|_].
  - run_session. intros H. inversion H; subst. split; [reflexivity|].
    eexists. split; reflexivity.
  - unfold PullRequest.GetReview. run_session.
    destruct (serve env _ _); intros H; inversion H; subst;
      (split; [reflexivity|]);
      eexists; (split; [simpl; rewrite <- app_assoc; reflexivity
                       |reflexivity]).
Qed.

(** *** The paths of [review] *)

Lemma World_eq (w1 w2 : World) :
  trace w1 = trace w2 -> files w1 = files w2 -> w1 = w2.
Proof. destruct w1, w2; simpl; intros -> ->; reflexivity. Qed.

Lemma review_not_found (editor path : string) (w w1 : World) (rv : Review) :
  Main.download env path w = Done (inl rv) w1 ->
  godiff.Diffs (changeset rv) = [] ->
  Main.review env editor path w
  = Exited 1
      (emit (EvPrint (Line
               [AStr "Specified file is not found in pull request."])) w1).
Proof.
  intros Hd Hz. unfold Main.review. rewrite (bind_done _ _ _ _ _ Hd).
  rewrite Hz. destruct (decide _) as [_|Hne]; [reflexivity|].
  exfalso. apply Hne. reflexivity.
Qed.

(** Runs [review] up to the return of the editor. *)
Ltac enter_editor Hd Hne Hrun :=
  unfold Main.review; rewrite (bind_done _ _ _ _ _ Hd);
  destruct (decide _) as [Hz|_];
  [ destruct (godiff.Diffs (changeset _)); [congruence|discriminate] |];
  unfold with_recover, Main.editReviewInEditor; run_session;
  cbn [files trace emit set_file];
  rewrite lookup_insert_eq; cbn [from_option id]; rewrite Hrun.

Lemma review_editor_failed (editor path : string) (w w1 : World)
    (rv : Review) (text e : string) :
  Main.download env path w = Done (inl rv) w1 ->
  godiff.Diffs (changeset rv) <> [] ->
  run_editor env editor (temp_name env)
    (WriteReview env (AddVimModeline env (AddUsageComment env rv)))
  = (text, Some e) ->
  Main.review env editor path w
  = Exited 1
      (emit (EvLog CRITICAL "%s" [AStr e])
         (after_editor env editor rv text (Some e) w1)).
Proof.
  intros Hd Hne Hrun. enter_editor Hd Hne Hrun.
  f_equal. apply World_eq; cbn [trace files emit set_file after_editor];
    rewrite <- ?app_assoc; reflexivity.
Qed.

Lemma review_parse_failed (editor path : string) (w w1 : World)
    (rv : Review) (text e : string) :
  Main.download env path w = Done (inl rv) w1 ->
  godiff.Diffs (changeset rv) <> [] ->
  run_editor env editor (temp_name env)
    (WriteReview env (AddVimModeline env (AddUsageComment env rv)))
  = (text, None) ->
  ReadReview env text = Returns (inr e) ->
  Main.review env editor path w
  = Exited 1
      (emit (EvLog CRITICAL "%s" [AStr e])
         (after_read_back env editor rv text w1)).
Proof.
  intros Hd Hne Hrun Hread. enter_editor Hd Hne Hrun.
  cbn [files trace emit set_file].
  rewrite lookup_insert_eq. cbn [from_option id]. rewrite Hread.
  f_equal. apply World_eq;
    cbn [trace files emit set_file after_editor after_read_back];
    rewrite <- ?app_assoc; reflexivity.
Qed.

Lemma review_applies (editor path : string) (w w1 w3 : World)
    (rv edited : Review) (text : string) (changes : list ReviewChange) :
  let n := Z.of_nat (length changes) in
  Main.download env path w = Done (inl rv) w1 ->
  godiff.Diffs (changeset rv) <> [] ->
  run_editor env editor (temp_name env)
    (WriteReview env (AddVimModeline env (AddUsageComment env rv)))
  = (text, None) ->
  ReadReview env text = Returns (inl edited) ->
  Compare env (AddVimModeline env (AddUsageComment env rv)) edited
  = Returns changes ->
  changes <> [] ->
  Main.apply_changes env 0 n changes (before_apply env editor rv text n w1)
  = Done tt w3 ->
  Main.review env editor path w = Done tt (after_cleanup env w3).
Proof.
  intros n Hd Hne Hrun Hread Hcmp Hch Hloop. enter_editor Hd Hne Hrun.
  cbn [files trace emit set_file].
  rewrite lookup_insert_eq. cbn [from_option id]. rewrite Hread, Hcmp.
  destruct (decide _) as [Hz|_].
  { destruct changes; [congruence|discriminate]. }
  match goal with
  | |- context [Main.apply_changes env 0 _ changes ?w0] =>
      replace w0 with (before_apply env editor rv text n w1)
  end.
  - fold n. rewrite Hloop. reflexivity.
  - apply World_eq;
      cbn [trace files emit set_file after_editor after_read_back
           before_apply];
      rewrite <- ?app_assoc; reflexivity.
Qed.

(** X13. A panic while the reviews are compared is recovered: [review] prints
    the panic message with the name of the temporary file and returns;
    the file is not removed and still holds the edited text. *)
Lemma review_panic_keeps_the_file (editor path : string) (w w1 : World)
    (rv edited : Review) (text msg : string) :
  Main.download env path w = Done (inl rv) w1 ->
  godiff.Diffs (changeset rv) <> [] ->
  run_editor env editor (temp_name env)
    (WriteReview env (AddVimModeline env (AddUsageComment env rv)))
  = (text, None) ->
  ReadReview env text = Returns (inl edited) ->
  Compare env (AddVimModeline env (AddUsageComment env rv)) edited
  = Panics msg ->
  exists w' : World,
    Main.review env editor path w = Done tt w'
    /\ files w' !! temp_name env = Some text
    /\ In (Formatted "All data you've entered are kept in the file:\n\t%s"
             [AStr (temp_name env)]) (printed (trace w'))
    /\ requests_of (trace w') = requests_of (trace w1).
Proof.
  intros Hd Hne Hrun Hread Hcmp. enter_editor Hd Hne Hrun.
  cbn [files trace emit set_file].
  rewrite lookup_insert_eq. cbn [from_option id]. rewrite Hread, Hcmp.
  unfold Main.printPanicMsg. run_session.
  eexists. split; [reflexivity|]. cbn [files trace emit set_file].
  split; [apply lookup_insert_eq|]. split.
  - rewrite !printed_app. cbn [printed]. rewrite !app_nil_r.
    rewrite !in_app_iff. cbn [In]. intuition.
  - rewrite !requests_of_app. cbn [requests_of]. rewrite !app_nil_r.
    reflexivity.
Qed.

(** *** The claims about the session *)

Lemma only_fetches_app (a b : list Event) :
  only_fetches (a ++ b) = only_fetches a && only_fetches b.
Proof. apply forallb_app. Qed.

(** C8. When the downloaded review has no diffs, [review] prints that
    the file is not found and exits with status 1; since the download
    nothing else happened: no temporary file, no editor, no mutation, and
    the files are as they were. *)
Theorem no_diffs_is_fatal (editor path : string) (w w1 : World) (rv : Review) :
  Main.download env path w = Done (inl rv) w1 ->
  godiff.Diffs (changeset rv) = [] ->
  exists w' : World,
    Main.review env editor path w = Exited 1 w'
    /\ trace w'
       = trace w1 ++
         [EvPrint (Line
            [AStr "Specified file is not found in pull request."])]
    /\ files w' = files w
    /\ exists added : list Event,
         trace w' = trace w ++ added /\ only_fetches added = true.
Proof.
  intros Hd Hz. eexists. split; [apply (review_not_found _ _ _ _ _ Hd Hz)|].
  destruct (download_fetches _ _ _ _ Hd) as (Hf & added & Ht & Hq).
  split; [reflexivity|]. split; [exact Hf|].
  exists (added ++
          [EvPrint (Line
             [AStr "Specified file is not found in pull request."])]).
  split.
  - rewrite trace_emit, Ht, app_assoc. reflexivity.
  - rewrite only_fetches_app, Hq. reflexivity.
Qed.

(** C7. When the editor's run returns an error, [review] logs it and
    exits with status 1 right after the editor: the file is not read
    back, the reviews are not compared and no mutation is sent. *)
Theorem editor_failure_aborts (editor path : string) (w w1 : World)
    (rv : Review) (text e : string) :
  Main.download env path w = Done (inl rv) w1 ->
  godiff.Diffs (changeset rv) <> [] ->
  run_editor env editor (temp_name env)
    (WriteReview env (AddVimModeline env (AddUsageComment env rv)))
  = (text, Some e) ->
  exists w' : World,
    Main.review env editor path w = Exited 1 w'
    /\ trace w'
       = trace w1 ++
         [ EvTempFile (temp_name env);
           EvLog INFO "writing review to file: %s" [AStr (temp_name env)];
           EvWriteReview (temp_name env);
           EvLog DEBUG "opening editor: %s %s"
             [AStr editor; AStr (temp_name env)];
           EvEditor editor (temp_name env) (Some e);
           EvLog CRITICAL "%s" [AStr e] ]
    /\ exists added : list Event,
         trace w' = trace w ++ added
         /\ forallb (fun ev => negb (reads_back ev || applies ev)) added = true.
Proof.
  intros Hd Hne Hrun. eexists.
  split; [apply (review_editor_failed _ _ _ _ _ _ _ Hd Hne Hrun)|].
  destruct (download_fetches _ _ _ _ Hd) as (_ & added & Ht & Hq).
  split.
  - cbn [trace emit after_editor]. rewrite <- app_assoc. reflexivity.
  - eexists. split.
    + cbn [trace emit after_editor]. rewrite Ht, <- !app_assoc. reflexivity.
    + rewrite forallb_app. apply andb_true_intro. split; [|reflexivity].
      unfold only_fetches in Hq. rewrite forallb_forall in Hq |- *.
      intros ev Hev. specialize (Hq ev Hev).
      destruct (applies ev), (edits ev), (reads_back ev), (removes ev);
        simpl in *; congruence.
Qed.

(** C6. When the edited file does not parse, [review] logs the error and
    exits with status 1: no mutation is sent, nothing is removed, and
    the temporary file still holds the edited text. *)
Theorem malformed_document_is_fatal (editor path : string) (w w1 : World)
    (rv : Review) (text e : string) :
  Main.download env path w = Done (inl rv) w1 ->
  godiff.Diffs (changeset rv) <> [] ->
  run_editor env editor (temp_name env)
    (WriteReview env (AddVimModeline env (AddUsageComment env rv)))
  = (text, None) ->
  ReadReview env text = Returns (inr e) ->
  exists w' : World,
    Main.review env editor path w = Exited 1 w'
    /\ trace w'
       = trace w1 ++
         [ EvTempFile (temp_name env);
           EvLog INFO "writing review to file: %s" [AStr (temp_name env)];
           EvWriteReview (temp_name env);
           EvLog DEBUG "opening editor: %s %s"
             [AStr editor; AStr (temp_name env)];
           EvEditor editor (temp_name env) None;
           EvLog DEBUG "reading modified review back" [];
           EvReadReview (temp_name env);
           EvLog CRITICAL "%s" [AStr e] ]
    /\ files w' !! temp_name env = Some text
    /\ exists added : list Event,
         trace w' = trace w ++ added
         /\ forallb (fun ev => negb (applies ev || removes ev)) added = true.
Proof.
  intros Hd Hne Hrun Hread. eexists.
  split; [apply (review_parse_failed _ _ _ _ _ _ _ Hd Hne Hrun Hread)|].
  destruct (download_fetches _ _ _ _ Hd) as (_ & added & Ht & Hq).
  split; [|split].
  - cbn [trace emit after_editor after_read_back].
    rewrite <- !app_assoc. reflexivity.
  - cbn [files emit after_editor after_read_back].
    apply lookup_insert_eq.
  - eexists. split.
    + cbn [trace emit after_editor after_read_back].
      rewrite Ht, <- !app_assoc. reflexivity.
    + rewrite forallb_app. apply andb_true_intro. split; [|reflexivity].
      unfold only_fetches in Hq. rewrite forallb_forall in Hq |- *.
      intros ev Hev. specialize (Hq ev Hev).
      destruct (applies ev), (edits ev), (reads_back ev), (removes ev);
        simpl in *; congruence.
Qed.

Lemma attempt_history (i n : Z) (c : ReviewChange) (w : World) (e : string) :
  serve env (requests_of (trace w)) (PullRequest.request_for c) = Some e ->
  trace (attempt env i n c w)
  = trace w ++
    [ EvPrint (Formatted "(%d/%d) applying changes\n"
                 [AInt (i + 1); AInt n]);
      EvLog DEBUG "change payload: %#v" [APayload c];
      EvRequest (PullRequest.request_for c) (Some e);
      EvLog CRITICAL "can not apply change: %s" [AStr e] ].
Proof.
  intros H. unfold attempt. cbv zeta. cbn [trace emit].
  rewrite !requests_of_app. cbn [requests_of]. rewrite !app_nil_r, H.
  cbn [trace emit]. rewrite <- !app_assoc. reflexivity.
Qed.

(** C5. When the service fails the request of a change (a version
    conflict or any other error), the loop logs "can not apply change"
    with that error right after the request and goes on with the changes
    that follow; the requests of the whole loop are those of the changes,
    one each, in the order of the list. *)
Theorem failure_is_reported_and_the_loop_continues
    (pre post : list ReviewChange) (c : ReviewChange) (e : string)
    (i n : Z) (w w1 : World) :
  Main.apply_changes env i n pre w = Done tt w1 ->
  serve env (requests_of (trace w1)) (PullRequest.request_for c) = Some e ->
  exists w2 w' : World,
    Main.apply_changes env i n (pre ++ c :: post) w = Done tt w'
    /\ trace w2
       = trace w1 ++
         [ EvPrint (Formatted "(%d/%d) applying changes\n"
                      [AInt (i + Z.of_nat (length pre) + 1); AInt n]);
           EvLog DEBUG "change payload: %#v" [APayload c];
           EvRequest (PullRequest.request_for c) (Some e);
           EvLog CRITICAL "can not apply change: %s" [AStr e] ]
    /\ Main.apply_changes env (i + Z.of_nat (length pre) + 1) n post w2
       = Done tt w'
    /\ requests_of (trace w')
       = requests_of (trace w) ++
         map PullRequest.request_for pre ++
         PullRequest.request_for c :: map PullRequest.request_for post.
Proof.
  intros Hpre Hfail.
  set (j := i + Z.of_nat (length pre)).
  destruct (apply_changes_runs post (j + 1) n (attempt env j n c w1))
    as (w' & Hpost & _ & _ & _).
  destruct (apply_changes_runs (pre ++ c :: post) i n w)
    as (w'' & Hall & _ & Hreq & _).
  assert (w'' = w') as ->.
  { rewrite (apply_changes_app _ _ _ _ _ _ Hpre), apply_changes_cons in Hall.
    fold j in Hall. congruence. }
  exists (attempt env j n c w1), w'. split; [exact Hall|].
  split; [apply attempt_history; exact Hfail|].
  split; [exact Hpost|].
  rewrite Hreq, map_app. reflexivity.
Qed.


(** X12. Once the loop is reached, [review] returns with the temporary file
    removed, whatever the service answered. *)
Lemma review_removes_the_file (editor path : string) (w w1 : World)
    (rv edited : Review) (text : string) (changes : list ReviewChange) :
  Main.download env path w = Done (inl rv) w1 ->
  godiff.Diffs (changeset rv) <> [] ->
  run_editor env editor (temp_name env)
    (WriteReview env (AddVimModeline env (AddUsageComment env rv)))
  = (text, None) ->
  ReadReview env text = Returns (inl edited) ->
  Compare env (AddVimModeline env (AddUsageComment env rv)) edited
  = Returns changes ->
  changes <> [] ->
  exists w' : World,
    Main.review env editor path w = Done tt w'
    /\ files w' !! temp_name env = None
    /\ requests_of (trace w')
       = requests_of (trace w1) ++ map PullRequest.request_for changes.
Proof.
  intros Hd Hne Hrun Hread Hcmp Hch.
  destruct (apply_changes_runs changes 0 (Z.of_nat (length changes))
              (before_apply env editor rv text
                 (Z.of_nat (length changes)) w1))
    as (w3 & Hloop & Hf & Hreq & _).
  exists (after_cleanup env w3).
  split; [apply (review_applies _ _ _ _ _ _ _ _ _ Hd Hne Hrun Hread Hcmp Hch
                   Hloop)|].
  split.
  - cbn [after_cleanup files emit remove_file]. apply lookup_delete_eq.
  - cbn [after_cleanup trace emit remove_file].
    rewrite !requests_of_app, Hreq. cbn [requests_of].
    rewrite !app_nil_r.
    cbn [before_apply after_read_back after_editor trace emit].
    rewrite !requests_of_app. cbn [requests_of]. rewrite !app_nil_r.
    reflexivity.
Qed.

End Session.

(** *** The session on concrete inputs *)

Lemma no_diffs_is_fatal_witness :
  Main.download DemoSessions.absent "main.go" Demo.start
  = Done (inl (Demo.downloaded Demo.empty_changeset)) Demo.after_download
  /\ godiff.Diffs (changeset (Demo.downloaded Demo.empty_changeset)) = []
  /\ exists w' : World,
       Main.review DemoSessions.absent "vi" "main.go" Demo.start = Exited 1 w'
       /\ trace w'
          = trace Demo.after_download ++
            [EvPrint (Line
            [AStr "Specified file is not found in pull request."])]
       /\ files w' = files Demo.start
       /\ exists added : list Event,
            trace w' = trace Demo.start ++ added /\ only_fetches added = true.
Proof.
  split; [vm_compute; reflexivity|]. split; [reflexivity|].
  apply (no_diffs_is_fatal DemoSessions.absent "vi" "main.go" Demo.start
           Demo.after_download (Demo.downloaded Demo.empty_changeset)).
  - vm_compute; reflexivity.
  - reflexivity.
Defined.

Lemma editor_failure_aborts_witness :
  Main.download DemoSessions.editor_killed "main.go" Demo.start
  = Done (inl (Demo.downloaded Demo.fetched)) Demo.after_download
  /\ godiff.Diffs (changeset (Demo.downloaded Demo.fetched)) <> []
  /\ run_editor DemoSessions.editor_killed "vi" "/tmp/review.diff.1"
       "+func main() {}"
     = (Demo.edited_text, Some "signal: killed")
  /\ exists w' : World,
       Main.review DemoSessions.editor_killed "vi" "main.go" Demo.start
       = Exited 1 w'
       /\ trace w'
          = trace Demo.after_download ++
            [ EvTempFile "/tmp/review.diff.1";
              EvLog INFO "writing review to file: %s"
                [AStr "/tmp/review.diff.1"];
              EvWriteReview "/tmp/review.diff.1";
              EvLog DEBUG "opening editor: %s %s"
                [AStr "vi"; AStr "/tmp/review.diff.1"];
              EvEditor "vi" "/tmp/review.diff.1" (Some "signal: killed");
              EvLog CRITICAL "%s" [AStr "signal: killed"] ]
       /\ exists added : list Event,
            trace w' = trace Demo.start ++ added
            /\ forallb (fun ev => negb (reads_back ev || applies ev)) added
               = true.
Proof.
  split; [vm_compute; reflexivity|]. split; [discriminate|].
  split; [reflexivity|].
  apply (editor_failure_aborts DemoSessions.editor_killed "vi" "main.go"
           Demo.start Demo.after_download (Demo.downloaded Demo.fetched)
           Demo.edited_text "signal: killed").
  - vm_compute; reflexivity.
  - discriminate.
  - reflexivity.
Defined.

Lemma malformed_document_is_fatal_witness :
  Main.download DemoSessions.unparsable "main.go" Demo.start
  = Done (inl (Demo.downloaded Demo.fetched)) Demo.after_download
  /\ godiff.Diffs (changeset (Demo.downloaded Demo.fetched)) <> []
  /\ run_editor DemoSessions.unparsable "vi" "/tmp/review.diff.1"
       "+func main() {}"
     = (Demo.edited_text, None)
  /\ ReadReview DemoSessions.unparsable Demo.edited_text
     = Returns (inr "malformed review: no hunks")
  /\ exists w' : World,
       Main.review DemoSessions.unparsable "vi" "main.go" Demo.start
       = Exited 1 w'
       /\ trace w'
          = trace Demo.after_download ++
            [ EvTempFile "/tmp/review.diff.1";
              EvLog INFO "writing review to file: %s"
                [AStr "/tmp/review.diff.1"];
              EvWriteReview "/tmp/review.diff.1";
              EvLog DEBUG "opening editor: %s %s"
                [AStr "vi"; AStr "/tmp/review.diff.1"];
              EvEditor "vi" "/tmp/review.diff.1" None;
              EvLog DEBUG "reading modified review back" [];
              EvReadReview "/tmp/review.diff.1";
              EvLog CRITICAL "%s" [AStr "malformed review: no hunks"] ]
       /\ files w' !! "/tmp/review.diff.1" = Some Demo.edited_text
       /\ exists added : list Event,
            trace w' = trace Demo.start ++ added
            /\ forallb (fun ev => negb (applies ev || removes ev)) added
               = true.
Proof.
  split; [vm_compute; reflexivity|]. split; [discriminate|].
  split; [reflexivity|]. split; [reflexivity|].
  apply (malformed_document_is_fatal DemoSessions.unparsable "vi" "main.go"
           Demo.start Demo.after_download (Demo.downloaded Demo.fetched)
           Demo.edited_text "malformed review: no hunks").
  - vm_compute; reflexivity.
  - discriminate.
  - reflexivity.
  - reflexivity.
Defined.

Lemma failure_is_reported_and_the_loop_continues_witness :
  Main.apply_changes DemoSessions.conflicting 0 3 [Demo.create] Demo.start
  = Done tt (attempt DemoSessions.conflicting 0 3 Demo.create Demo.start)
  /\ serve DemoSessions.conflicting
       (requests_of
          (trace (attempt DemoSessions.conflicting 0 3 Demo.create
                    Demo.start)))
       (PullRequest.request_for Demo.update)
     = Some "409 Conflict: comment version mismatch"
  /\ exists w2 w' : World,
       Main.apply_changes DemoSessions.conflicting 0 3
         [Demo.create; Demo.update; Demo.remove] Demo.start
       = Done tt w'
       /\ trace w2
          = trace (attempt DemoSessions.conflicting 0 3 Demo.create
                    Demo.start) ++
            [ EvPrint (Formatted "(%d/%d) applying changes\n" [AInt 2; AInt 3]);
              EvLog DEBUG "change payload: %#v" [APayload Demo.update];
              EvRequest (PullRequest.request_for Demo.update)
                (Some "409 Conflict: comment version mismatch");
              EvLog CRITICAL "can not apply change: %s"
                [AStr "409 Conflict: comment version mismatch"] ]
       /\ Main.apply_changes DemoSessions.conflicting 2 3 [Demo.remove] w2
          = Done tt w'
       /\ requests_of (trace w')
          = [ PullRequest.request_for Demo.create;
              PullRequest.request_for Demo.update;
              PullRequest.request_for Demo.remove ].
Proof.
  split; [vm_compute; reflexivity|].
  split; [vm_compute; reflexivity|].
  apply (failure_is_reported_and_the_loop_continues DemoSessions.conflicting
           [Demo.create] [Demo.remove] Demo.update
           "409 Conflict: comment version mismatch" 0 3 Demo.start
           (attempt DemoSessions.conflicting 0 3 Demo.create Demo.start)).
  - vm_compute; reflexivity.
  - vm_compute; reflexivity.
Defined.

(** The reading of "halts" can hold of the loop: when the only request
    that fails is the one of the last change, nothing is attempted after
    the failure. *)
Lemma a_last_failure_ends_the_loop :
  halts_on_failure DemoSessions.conflicting [Demo.create; Demo.update]
    Demo.start.
Proof.
  unfold halts_on_failure. cbv zeta.
  intros pre c post w1 e w' Hsplit Hpre _ Hfail Hrun.
  destruct (apply_changes_runs DemoSessions.conflicting
              [Demo.create; Demo.update] 0 2 Demo.start)
    as (w'' & Hrun' & _ & Hreq & _).
  change (Main.apply_changes DemoSessions.conflicting 0 2
            [Demo.create; Demo.update] Demo.start = Done tt w') in Hrun.
  assert (w'' = w') as -> by congruence.
  destruct pre as [|a [|b pre]]; cbn [app] in Hsplit; inversion Hsplit;
    subst.
  - cbn [Main.apply_changes] in Hpre. inversion Hpre; subst w1.
    vm_compute in Hfail. discriminate Hfail.
  - exact Hreq.
  - destruct pre; discriminate.
Qed.


(** C3 on a concrete session. The service is unreachable, both requests
    fail and are logged, and [review] still returns with the temporary
    file, which holds the reviewer's edits, removed. *)
Theorem failed_changes_lose_the_edited_file :
  exists w' : World,
    Main.review DemoSessions.unreachable "vi" "main.go" Demo.start
    = Done tt w'
    /\ In (EvRequest (PullRequest.request_for Demo.create)
             (Some "connection refused")) (trace w')
    /\ In (EvLog CRITICAL "can not apply change: %s"
             [AStr "connection refused"]) (trace w')
    /\ In (EvRemove "/tmp/review.diff.1") (trace w')
    /\ files w' !! "/tmp/review.diff.1" = None.
Proof.
  eexists. split; [vm_compute; reflexivity|].
  cbn [trace files].
  repeat split;
    try (repeat first [left; vm_compute; reflexivity | right]);
    vm_compute; reflexivity.
Qed.

(** ** strconv.ParseInt *)

Section ParseInt.
Import strconv.

Lemma is_decimal_value (c : ascii) :
  is_decimal c = true ->
  digit_value c = Some (Z.of_N (N_of_ascii c) - 48)
  /\ 0 <= Z.of_N (N_of_ascii c) - 48 <= 9.
Proof.
  unfold is_decimal, digit_value. cbv zeta. intros H. rewrite H.
  apply andb_true_iff in H. destruct H as [H1 H2].
  apply Z.leb_le in H1, H2. split; [reflexivity|lia].
Qed.

Lemma decimal_ge (s : string) :
  forall acc : Z, 0 <= acc -> all_decimal s = true -> acc <= decimal acc s.
Proof.
  induction s as [|c s IH]; intros acc Hacc Hall; simpl in *; [lia|].
  apply andb_true_iff in Hall. destruct Hall as [Hc Hs].
  destruct (is_decimal_value c Hc) as [_ Hv].
  specialize (IH (acc * 10 + (Z.of_N (N_of_ascii c) - 48)) ltac:(lia) Hs).
  lia.
Qed.

(** On decimal digits the loop of [ParseUint] computes the number they
    write, or stops at the first prefix beyond 16 bits. *)
Lemma parse_digits_decimal (s : string) :
  forall n : Z,
    0 <= n <= 65535 -> all_decimal s = true ->
    parse_digits 10 65535 n s
    = if decimal n s <=? 65535 then (decimal n s, None)
      else (65535, Some ErrRange).
Proof.
  induction s as [|c s IH]; intros n Hn Hall.
  - simpl. destruct (Z.leb_spec n 65535); [reflexivity|lia].
  - simpl in Hall. apply andb_true_iff in Hall. destruct Hall as [Hc Hs].
    destruct (is_decimal_value c Hc) as [Hv Hr].
    cbn [parse_digits decimal]. rewrite Hv.
    set (v := Z.of_N (N_of_ascii c) - 48) in *.
    destruct (Z.leb_spec 10 v); [lia|].
    assert (maxUint64 / 10 + 1 = 1844674407370955162) as -> by reflexivity.
    destruct (Z.leb_spec 1844674407370955162 n); [lia|].
    cbv zeta.
    rewrite (Z.mod_small (n * 10)) by lia.
    rewrite (Z.mod_small (n * 10 + v)) by lia.
    destruct (Z.ltb_spec (n * 10 + v) (n * 10)); [lia|].
    destruct (Z.ltb_spec 65535 (n * 10 + v)) as [Hbig|Hsmall]; cbn [orb].
    + pose proof (decimal_ge s (n * 10 + v) ltac:(lia) Hs).
      destruct (Z.leb_spec (decimal (n * 10 + v) s) 65535); [lia|reflexivity].
    + apply IH; [lia|exact Hs].
Qed.

Lemma is_decimal_no_sign (c : ascii) :
  is_decimal c = true -> Ascii.eqb c "+" = false /\ Ascii.eqb c "-" = false.
Proof.
  destruct c as [[] [] [] [] [] [] [] []]; intros H;
    try discriminate H; split; reflexivity.
Qed.

(** A string of decimal digits that writes a number above 32767 is
    parsed, with 16 bits, as 32767. *)
Lemma ParseInt_clamps (digits : string) :
  digits <> "" -> all_decimal digits = true -> 32767 < decimal 0 digits ->
  ParseInt digits 10 16 = (32767, Some ErrRange).
Proof.
  intros Hne Hall Hbig. destruct digits as [|c s]; [congruence|].
  pose proof Hall as Hall'. simpl in Hall'.
  apply andb_true_iff in Hall'. destruct Hall' as [Hc _].
  destruct (is_decimal_no_sign c Hc) as [Hplus Hminus].
  unfold ParseInt. rewrite Hplus, Hminus. unfold ParseUint.
  change (2 ^ 16 - 1) with 65535.
  rewrite (parse_digits_decimal (String c s) 0 ltac:(lia) Hall).
  change (2 ^ (16 - 1)) with 32768.
  destruct (Z.leb_spec (decimal 0 (String c s)) 65535) as [Hfit|Hover].
  - cbn [negb andb]. destruct (Z.leb_spec 32768 (decimal 0 (String c s)));
      [reflexivity|lia].
  - reflexivity.
Qed.

End ParseInt.

(** ** parseUri *)

(** C9. The pull-request number is parsed with 16 bits and the error is
    dropped: when the argument names, in the URL form or in either
    shorthand form, a pull request by decimal digits that write a number
    above 32767, [parseUri] returns, without printing or exiting, a
    result whose [pr] is 32767. *)
Theorem pull_request_number_is_clamped
    (args : gmap string value) (uri digits : string) (w : World) :
  index args "<project>/<repo>/<pr>" = VStr uri ->
  is_nil (index args "<project>/<repo>") = true ->
  digits <> "" ->
  strconv.all_decimal digits = true ->
  32767 < strconv.decimal 0 digits ->
  (regexp.FindStringSubmatch Main.reStashURL uri <> []
   /\ nth 6 (regexp.FindStringSubmatch Main.reStashURL uri) "" = digits)
  \/ (regexp.FindStringSubmatch Main.reStashURL uri = []
      /\ (exists h : string, index args "--host" = VStr h)
      /\ (is_nil (index args "--project") = true
          \/ exists p : string, index args "--project" = VStr p)
      /\ exists proj repo rest,
           strings.Split uri "/" = proj :: repo :: digits :: rest
           /\ proj <> "" /\ repo <> "")
  \/ (regexp.FindStringSubmatch Main.reStashURL uri = []
      /\ (exists h : string, index args "--host" = VStr h)
      /\ (exists p : string, index args "--project" = VStr p /\ p <> "")
      /\ exists repo,
           strings.Split uri "/" = [repo; digits] /\ repo <> "") ->
  exists r : Main.Uri,
    Main.parseUri args w = Done r w /\ Main.pr r = 32767.
Proof.
  intros Hkey Hnil Hne Hall Hbig Hform.
  pose proof (ParseInt_clamps digits Hne Hall Hbig) as Hparse.
  unfold Main.parseUri. rewrite Hkey, Hnil.
  cbn [is_nil Main.as_string]. run_session.
  destruct Hform as [[Hm H6]|[(Hm & [h Hh] & Hp & proj & repo & rest & Hs & Hpr & Hre)
                            |(Hm & [h Hh] & (p & Hp & Hpne) & repo & Hs & Hre)]].
  - destruct (regexp.FindStringSubmatch Main.reStashURL uri) as [|m ms] eqn:E;
      [congruence|].
    cbn [length Nat.eqb negb]. eexists. split; [reflexivity|].
    cbn [Main.pr]. rewrite H6, Hparse. reflexivity.
  - rewrite Hm, Hh, Hs. cbn [length Nat.eqb negb is_nil Main.as_string].
    cbn [Nat.leb andb Z.eqb Pos.eqb nth].
    assert (String.eqb proj "" = false) as Ep by (apply String.eqb_neq; exact Hpr).
    assert (String.eqb repo "" = false) as Er by (apply String.eqb_neq; exact Hre).
    destruct Hp as [Hp|[p Hp]]; rewrite Hp;
      cbn [is_nil negb andb Main.as_string]; run_session;
      cbn [Main.project Main.repo Main.pr Main.host];
      rewrite Hparse, Ep, Er; cbn [fst negb andb orb Z.eqb];
      (destruct proj as [|c proj']; [congruence|]);
      destruct (Ascii.eqb c "~" || Ascii.eqb c "%");
      eexists; (split; [reflexivity|reflexivity]).
  - rewrite Hm, Hh, Hs, Hp.
    cbn [length Nat.eqb negb is_nil Main.as_string].
    cbn [Nat.leb andb Z.eqb Pos.eqb nth]. run_session.
    cbn [Main.project Main.repo Main.pr Main.host].
    assert (String.eqb p "" = false) as Ep by (apply String.eqb_neq; exact Hpne).
    assert (String.eqb repo "" = false) as Er by (apply String.eqb_neq; exact Hre).
    rewrite Hparse, Ep, Er. cbn [fst negb andb orb Z.eqb].
    destruct p as [|c p']; [congruence|].
    destruct (Ascii.eqb c "~" || Ascii.eqb c "%");
      eexists; (split; [reflexivity|reflexivity]).
Qed.

Lemma pull_request_number_is_clamped_witness :
  index DemoArgs.by_url "<project>/<repo>/<pr>" = VStr DemoArgs.url
  /\ is_nil (index DemoArgs.by_url "<project>/<repo>") = true
  /\ strconv.all_decimal "40000" = true
  /\ 32767 < strconv.decimal 0 "40000"
  /\ nth 6 (regexp.FindStringSubmatch Main.reStashURL DemoArgs.url) ""
     = "40000"
  /\ exists r : Main.Uri,
       Main.parseUri DemoArgs.by_url Demo.start = Done r Demo.start
       /\ Main.pr r = 32767.
Proof.
  split; [vm_compute; reflexivity|]. split; [vm_compute; reflexivity|].
  split; [reflexivity|]. split; [reflexivity|].
  split; [vm_compute; reflexivity|].
  apply (pull_request_number_is_clamped DemoArgs.by_url DemoArgs.url "40000"
           Demo.start).
  - vm_compute; reflexivity.
  - vm_compute; reflexivity.
  - discriminate.
  - reflexivity.
  - reflexivity.
  - left. split; [vm_compute; discriminate|vm_compute; reflexivity].
Defined.

(** ** regexp *)

Section Regexp.
Import regexp.

Lemma append_cons (x : ascii) (a b : string) :
  String x a +:+ b = String x (a +:+ b).
Proof. reflexivity. Qed.

Lemma append_nil_l (a : string) : "" +:+ a = a.
Proof. reflexivity. Qed.

Lemma length_append (a b : string) :
  String.length (a +:+ b) = (String.length a + String.length b)%nat.
Proof.
  induction a as [|c a IH]; [reflexivity|].
  rewrite append_cons. cbn [String.length]. rewrite IH. reflexivity.
Qed.

Lemma append_assoc (a b c : string) : (a +:+ b) +:+ c = a +:+ (b +:+ c).
Proof.
  induction a as [|x a IH]; [reflexivity|].
  rewrite !append_cons, IH. reflexivity.
Qed.

Lemma append_nil_r (a : string) : a +:+ "" = a.
Proof.
  induction a as [|x a IH]; [reflexivity|]. rewrite append_cons, IH.
  reflexivity.
Qed.

Lemma take_append (a b : string) : take (String.length a) (a +:+ b) = a.
Proof.
  induction a as [|c a IH]; [destruct b; reflexivity|].
  rewrite append_cons. cbn [String.length take]. rewrite IH. reflexivity.
Qed.

Lemma consumed_append (a b : string) : consumed (a +:+ b) b = a.
Proof.
  unfold consumed. rewrite length_append.
  replace (String.length a + String.length b - String.length b)%nat
    with (String.length a) by lia.
  apply take_append.
Qed.

Lemma consumed_shorter (s rest : string) :
  (String.length rest < String.length s)%nat ->
  exists c w, consumed s rest = String c w.
Proof.
  intros H. unfold consumed.
  destruct (String.length s - String.length rest)%nat as [|n] eqn:E; [lia|].
  destruct s as [|c s]; [simpl in H; lia|].
  simpl. eauto.
Qed.

Lemma strip_prefix_length (p s rest : string) :
  strip_prefix p s = Some rest ->
  String.length s = (String.length p + String.length rest)%nat.
Proof.
  revert s. induction p as [|a p IH]; intros s H; simpl in H.
  - inversion H. reflexivity.
  - destruct s as [|b s]; [discriminate|].
    destruct (Ascii.eqb a b); [|discriminate].
    simpl. rewrite (IH _ H). reflexivity.
Qed.

Lemma strip_prefix_append (p s : string) : strip_prefix p (p +:+ s) = Some s.
Proof.
  induction p as [|a p IH]; [reflexivity|].
  rewrite append_cons. cbn [strip_prefix]. rewrite Ascii.eqb_refl. exact IH.
Qed.

(** *** A match leaves a suffix of the input *)

Lemma repeat_step_suffix
    (step : string -> Captures -> (string -> Captures -> option Result)
            -> option Result) :
  (forall s caps k x,
      step s caps k = Some x ->
      exists s' caps', k s' caps' = Some x
                       /\ (String.length s' <= String.length s)%nat) ->
  forall fuel s caps k x,
    repeat_step step k fuel s caps = Some x ->
    exists s' caps', k s' caps' = Some x
                     /\ (String.length s' <= String.length s)%nat.
Proof.
  intros Hstep fuel. induction fuel as [|fuel IH]; intros s caps k x H.
  - simpl in H. eauto.
  - simpl in H.
    destruct (step s caps _) as [y|] eqn:E.
    + inversion H; subst y.
      apply Hstep in E. destruct E as (s1 & caps1 & E & Hlen).
      destruct (String.length s1 <? String.length s)%nat; [|discriminate].
      apply IH in E. destruct E as (s2 & caps2 & E & Hlen2).
      exists s2, caps2. split; [exact E|lia].
    + eauto.
Qed.

Lemma exec_suffix (r : re) :
  forall s caps k x,
    exec r s caps k = Some x ->
    exists s' caps', k s' caps' = Some x
                     /\ (String.length s' <= String.length s)%nat.
Proof.
  induction r as [l| |items|items|a IHa b IHb|a IHa b IHb|a IHa|a IHa|a IHa
                 |n a IHa]; intros s caps k x H; cbn [exec] in H.
  - destruct (strip_prefix l s) as [rest|] eqn:E; [|discriminate].
    apply strip_prefix_length in E. exists rest, caps. split; [exact H|lia].
  - destruct s as [|c rest]; [discriminate|].
    destruct (Ascii.eqb c "010"); [discriminate|].
    exists rest, caps. split; [exact H|simpl; lia].
  - destruct s as [|c rest]; [discriminate|].
    destruct (in_set items c); [|discriminate].
    exists rest, caps. split; [exact H|simpl; lia].
  - destruct s as [|c rest]; [discriminate|].
    destruct (in_set items c); [discriminate|].
    exists rest, caps. split; [exact H|simpl; lia].
  - apply IHa in H. destruct H as (s1 & caps1 & H & Hlen).
    apply IHb in H. destruct H as (s2 & caps2 & H & Hlen2).
    exists s2, caps2. split; [exact H|lia].
  - destruct (exec a s caps k) as [y|] eqn:E.
    + inversion H; subst y. apply IHa in E. exact E.
    + apply IHb in H. exact H.
  - destruct (exec a s caps k) as [y|] eqn:E.
    + inversion H; subst y. apply IHa in E. exact E.
    + eauto.
  - apply (repeat_step_suffix (exec a) IHa) in H. exact H.
  - apply IHa in H. destruct H as (s1 & caps1 & H & Hlen).
    apply (repeat_step_suffix (exec a) IHa) in H.
    destruct H as (s2 & caps2 & H & Hlen2).
    exists s2, caps2. split; [exact H|lia].
  - apply IHa in H. destruct H as (s1 & caps1 & H & Hlen).
    eauto.
Qed.


(** *** The password pattern *)

Lemma in_set_space (c : ascii) : in_set [ISpace] c = is_space c.
Proof. unfold in_set. simpl. apply orb_false_r. Qed.

Lemma in_set_separator (c : ascii) :
  in_set [ISpace; IChar "="] c = is_space c || Ascii.eqb "=" c.
Proof. unfold in_set. simpl. rewrite orb_false_r. reflexivity. Qed.

Lemma in_set_blank (c : ascii) : in_set [IChar " "] c = Ascii.eqb " " c.
Proof. unfold in_set. simpl. apply orb_false_r. Qed.

(** A match of the pattern starts with a password flag and is not
    empty. *)
Lemma exec_rePassFlag_sound (s rest : string) (caps : Captures) :
  exec Main.rePassFlag s ∅ accept = Some (rest, caps) ->
  flag_at s = true /\ (String.length rest < String.length s)%nat.
Proof.
  intros H. destruct s as [|c0 s1]; [discriminate H|].
  unfold Main.rePassFlag in H. cbn [exec] in H.
  rewrite in_set_space in H.
  unfold flag_at, separated.
  destruct (is_space c0); [|discriminate H]. cbn [andb].
  assert (forall flag,
    match strip_prefix flag s1 with
    | Some (String c rest0 as rest1) =>
        if in_set [ISpace; IChar "="] c
        then
          match rest0 with
          | "" => None
          | String c1 rest2 =>
              if in_set [IChar " "] c1 then None
              else
                repeat_step (exec (NotSet [IChar " "]))
                  (fun s' caps' => accept s' (<[3%nat:=consumed rest0 s']> caps'))
                  (String.length rest2) rest2
                  (<[1%nat:=consumed (String c0 s1) rest0]>
                     (<[2%nat:=consumed s1 rest1]> ∅))
          end
        else None
    | _ => None
    end = Some (rest, caps) ->
    match strip_prefix flag s1 with
    | Some (String d _) => is_space d || Ascii.eqb "=" d
    | _ => false
    end = true
    /\ (String.length rest < String.length (String c0 s1))%nat) as Hone.
  { intros flag Hf.
    destruct (strip_prefix flag s1) as [[|c r0]|] eqn:E; try discriminate Hf.
    rewrite in_set_separator in Hf.
    destruct (is_space c || Ascii.eqb "=" c); [|discriminate Hf].
    split; [reflexivity|].
    destruct r0 as [|c1 r2]; [discriminate Hf|].
    destruct (in_set [IChar " "] c1); [discriminate Hf|].
    apply (repeat_step_suffix _ (exec_suffix (NotSet [IChar " "]))) in Hf.
    destruct Hf as (s' & caps' & Hacc & Hlen).
    inversion Hacc; subst.
    apply strip_prefix_length in E. cbn [String.length] in *. lia. }
  match type of H with
  | match ?first with Some _ => _ | None => ?second end = _ =>
      destruct first as [y|] eqn:E1
  end.
  - inversion H; subst y.
    destruct (Hone "-p" E1) as [Hsep Hlen]. rewrite Hsep. split; [reflexivity|exact Hlen].
  - destruct (Hone "--pass" H) as [Hsep Hlen]. rewrite Hsep, orb_true_r.
    split; [reflexivity|exact Hlen].
Qed.

Lemma exec_NotSet_cons (items : list item) (c : ascii) (s : string)
    (caps : Captures) (k : string -> Captures -> option Result) :
  exec (NotSet items) (String c s) caps k
  = if in_set items c then None else k s caps.
Proof. reflexivity. Qed.

Lemma exec_NotSet_nil (items : list item) (caps : Captures)
    (k : string -> Captures -> option Result) :
  exec (NotSet items) "" caps k = None.
Proof. reflexivity. Qed.

(** The greedy run of bytes that are no space takes all of [pw] when
    the input ends or a space comes after it. *)
Lemma repeat_not_space (pw : string) :
  forall (rest : string) (fuel : nat) (caps : Captures)
         (k : string -> Captures -> option Result) (x : Result),
    space_free pw = true ->
    rest = "" \/ (exists rest', rest = String " " rest') ->
    (String.length pw <= fuel)%nat ->
    k rest caps = Some x ->
    repeat_step (exec (NotSet [IChar " "])) k fuel (pw +:+ rest) caps = Some x.
Proof.
  induction pw as [|c pw IH]; intros rest fuel caps k x Hfree Hrest Hfuel Hk.
  - rewrite append_nil_l. destruct fuel as [|fuel]; [exact Hk|].
    cbn [repeat_step].
    destruct Hrest as [->|[rest' ->]].
    + rewrite exec_NotSet_nil. exact Hk.
    + rewrite exec_NotSet_cons, in_set_blank.
      cbn [Ascii.eqb Bool.eqb andb]. exact Hk.
  - cbn [space_free] in Hfree. apply andb_true_iff in Hfree.
    destruct Hfree as [Hc Hfree]. apply negb_true_iff in Hc.
    destruct fuel as [|fuel]; [cbn [String.length] in Hfuel; lia|].
    rewrite append_cons. cbn [repeat_step].
    rewrite exec_NotSet_cons, in_set_blank, Hc. cbn [String.length].
    destruct (Nat.ltb_spec (String.length (pw +:+ rest))
                (S (String.length (pw +:+ rest)))) as [_|Hbad]; [|lia].
    rewrite (IH rest fuel caps k x Hfree Hrest); [reflexivity| |exact Hk].
    cbn [String.length] in Hfuel. lia.
Qed.

(** Runs the greedy loop of the pattern over the password [pw]. *)
Ltac run_password :=
  match goal with
  | Hpw : space_free ?pw = true,
    Hrest : ?rest = "" \/ _
    |- context [repeat_step ?st ?k ?f (?pw +:+ ?rest) ?cp] =>
      let E := fresh "E" in
      assert (repeat_step st k f (pw +:+ rest) cp = k rest cp) as E
        by (apply (repeat_not_space pw rest f cp k);
            [exact Hpw|exact Hrest|rewrite length_append; lia|reflexivity]);
      rewrite E; clear E; cbv beta
  end.

(** The pattern matches a password flag followed by a password: group 1
    is the flag with its separator, group 3 the password. *)
Lemma exec_rePassFlag_complete (flag pw rest : string) (ws sep : ascii) :
  is_space ws = true ->
  flag = "-p" \/ flag = "--pass" ->
  is_space sep = true \/ sep = "="%char ->
  pw <> "" ->
  space_free pw = true ->
  rest = "" \/ (exists rest', rest = String " " rest') ->
  exists caps : Captures,
    exec Main.rePassFlag (String ws (flag +:+ String sep (pw +:+ rest))) ∅ accept
    = Some (rest, caps)
    /\ caps !! 1%nat = Some (String ws (flag +:+ String sep ""))
    /\ caps !! 3%nat = Some pw.
Proof.
  intros Hws Hflag Hsep Hne Hfree Hrest.
  destruct pw as [|c pw]; [congruence|].
  pose proof Hfree as Hfree'. cbn [space_free] in Hfree'.
  apply andb_true_iff in Hfree'. destruct Hfree' as [Hc Hpw].
  apply negb_true_iff in Hc.
  assert (in_set [ISpace; IChar "="] sep = true) as Hsep'.
  { rewrite in_set_separator. destruct Hsep as [->| ->]; [reflexivity|].
    apply orb_true_r. }
  destruct Hflag as [->| ->]; eexists.
  - split.
    + unfold Main.rePassFlag. cbn [exec]. rewrite in_set_space, Hws.
      change ("-p" +:+ String sep (String c pw +:+ rest))
        with (String "-" (String "p" (String sep (String c (pw +:+ rest))))).
      cbn [strip_prefix Ascii.eqb Bool.eqb andb]. rewrite Hsep'.
      rewrite in_set_blank, Hc. run_password.
      reflexivity.
    + split.
      * rewrite lookup_insert_ne by discriminate. rewrite lookup_insert_eq.
        change (String ws (String "-" (String "p" (String sep
                  (String c (pw +:+ rest))))))
          with (String ws ("-p" +:+ String sep "") +:+ String c (pw +:+ rest)).
        rewrite consumed_append. reflexivity.
      * rewrite lookup_insert_eq.
        change (String c (pw +:+ rest)) with (String c pw +:+ rest).
        rewrite consumed_append. reflexivity.
  - split.
    + unfold Main.rePassFlag. cbn [exec]. rewrite in_set_space, Hws.
      change ("--pass" +:+ String sep (String c pw +:+ rest))
        with (String "-" (String "-" (String "p" (String "a" (String "s"
               (String "s" (String sep (String c (pw +:+ rest))))))))).
      cbn [strip_prefix Ascii.eqb Bool.eqb andb]. rewrite Hsep'.
      rewrite in_set_blank, Hc. run_password.
      reflexivity.
    + split.
      * rewrite lookup_insert_ne by discriminate. rewrite lookup_insert_eq.
        change (String ws (String "-" (String "-" (String "p" (String "a"
                  (String "s" (String "s" (String sep
                     (String c (pw +:+ rest))))))))))
          with (String ws ("--pass" +:+ String sep "")
                +:+ String c (pw +:+ rest)).
        rewrite consumed_append. reflexivity.
      * rewrite lookup_insert_eq.
        change (String c (pw +:+ rest)) with (String c pw +:+ rest).
        rewrite consumed_append. reflexivity.
Qed.


(** *** Searching for the password pattern *)

Lemma exec_rePassFlag_no_flag (s : string) :
  flag_at s = false -> exec Main.rePassFlag s ∅ accept = None.
Proof.
  intros Hno. destruct (exec Main.rePassFlag s ∅ accept) as [[rest caps]|] eqn:E;
    [|reflexivity].
  apply exec_rePassFlag_sound in E. destruct E as [E _]. congruence.
Qed.

Lemma find_rePassFlag_none (s : string) :
  has_flag s = false -> find Main.rePassFlag s = None.
Proof.
  induction s as [|c s IH]; intros H; cbn [has_flag] in H;
    apply orb_false_iff in H; destruct H as [Hat Hrest]; cbn [find];
    rewrite (exec_rePassFlag_no_flag _ Hat); [reflexivity|].
  rewrite (IH Hrest). reflexivity.
Qed.

Lemma find_rePassFlag_skip (pre tail rest : string) (caps : Captures) :
  no_flag_starts_in pre tail = true ->
  exec Main.rePassFlag tail ∅ accept = Some (rest, caps) ->
  find Main.rePassFlag (pre +:+ tail)
  = Some (mkMatch pre (consumed tail rest) caps rest).
Proof.
  intros Hpre Hexec. induction pre as [|c pre IH].
  - rewrite append_nil_l. destruct tail; cbn [find]; rewrite Hexec; reflexivity.
  - cbn [no_flag_starts_in] in Hpre. apply andb_true_iff in Hpre.
    destruct Hpre as [Hat Hpre]. apply negb_true_iff in Hat.
    rewrite append_cons. cbn [find].
    rewrite (exec_rePassFlag_no_flag _ Hat), (IH Hpre). reflexivity.
Qed.

(** *** Replacing *)

Lemma replace_skip (r : re) (repl x rest : string) :
  replace r repl (String.length x) true (x +:+ rest)
  = replace r repl 0 true rest.
Proof.
  induction x as [|c x IH]; [reflexivity|].
  rewrite append_cons. cbn [String.length replace]. exact IH.
Qed.

Lemma replace_rePassFlag_blocked (repl s : string) (b : bool) :
  replace Main.rePassFlag repl 0 b s = replace Main.rePassFlag repl 0 false s.
Proof.
  destruct s as [|c s]; cbn [replace].
  - rewrite (exec_rePassFlag_no_flag "" eq_refl). reflexivity.
  - destruct (exec Main.rePassFlag (String c s) ∅ accept) as [[rest caps]|]
      eqn:E; [|reflexivity].
    apply exec_rePassFlag_sound in E. destruct E as [_ Hlen].
    destruct (consumed_shorter _ _ Hlen) as (c0 & w & ->). reflexivity.
Qed.

Lemma replace_rePassFlag_none (repl s : string) (b : bool) :
  has_flag s = false -> replace Main.rePassFlag repl 0 b s = s.
Proof.
  revert b. induction s as [|c s IH]; intros b H; cbn [has_flag] in H;
    apply orb_false_iff in H; destruct H as [Hat Hrest]; cbn [replace];
    rewrite (exec_rePassFlag_no_flag _ Hat); [reflexivity|].
  rewrite (IH false Hrest). reflexivity.
Qed.

Lemma replace_rePassFlag_prefix (repl pre tail : string) (b : bool) :
  no_flag_starts_in pre tail = true ->
  replace Main.rePassFlag repl 0 b (pre +:+ tail)
  = pre +:+ replace Main.rePassFlag repl 0 false tail.
Proof.
  revert b. induction pre as [|c pre IH]; intros b Hpre.
  - rewrite !append_nil_l. apply replace_rePassFlag_blocked.
  - cbn [no_flag_starts_in] in Hpre. apply andb_true_iff in Hpre.
    destruct Hpre as [Hat Hpre]. apply negb_true_iff in Hat.
    rewrite !append_cons. cbn [replace].
    rewrite (exec_rePassFlag_no_flag _ Hat), (IH false Hpre). reflexivity.
Qed.

Lemma replace_rePassFlag_match (repl m rest : string) (c : ascii)
    (caps : Captures) (b : bool) :
  exec Main.rePassFlag (String c (m +:+ rest)) ∅ accept = Some (rest, caps) ->
  replace Main.rePassFlag repl 0 b (String c (m +:+ rest))
  = expand (String c m) caps 0 repl
    +:+ replace Main.rePassFlag repl 0 false rest.
Proof.
  intros Hexec. cbn [replace]. rewrite Hexec.
  change (String c (m +:+ rest)) with (String c m +:+ rest).
  rewrite consumed_append.
  rewrite replace_skip, replace_rePassFlag_blocked. reflexivity.
Qed.

(** *** The template *)

Lemma expand_stars (whole : string) (caps : Captures) (n : nat) :
  expand whole caps 0 (strings.Repeat "*" n) = strings.Repeat "*" n.
Proof.
  induction n as [|n IH]; [reflexivity|].
  cbn [strings.Repeat]. rewrite append_cons, append_nil_l.
  cbn [expand Ascii.eqb Bool.eqb andb]. rewrite IH. reflexivity.
Qed.

Lemma expand_redaction (whole : string) (caps : Captures) (n : nat) :
  expand whole caps 0 ("$1" +:+ strings.Repeat "*" n)
  = default "" (caps !! 1%nat) +:+ strings.Repeat "*" n.
Proof.
  change ("$1" +:+ strings.Repeat "*" n)
    with (String "$" (String "1" (strings.Repeat "*" n))).
  assert (word_prefix (strings.Repeat "*" n) = "") as Hword.
  { destruct n; reflexivity. }
  cbn [expand Ascii.eqb Bool.eqb andb extract word_prefix].
  change (is_word "1") with true. cbn iota. rewrite Hword.
  cbn [String.length name_number digits_number].
  change (is_digit "1" && (0 <? 100000000)%N) with true. cbn iota.
  change (N.to_nat (0 * 10 + (code "1" - 48))) with 1%nat.
  cbn [group]. rewrite expand_stars. reflexivity.
Qed.

(** *** Redacted *)

Lemma Redacted_without_flag (p : string) :
  has_flag p = false -> Main.Redacted p = p.
Proof.
  intros H. unfold Main.Redacted, FindStringSubmatch.
  rewrite (find_rePassFlag_none p H). reflexivity.
Qed.


(** Where the pattern applies.  In a string with a password flag (white
    space, "-p" or "--pass", then white space or '=') followed by a
    password (the bytes up to the next space or the end), where no flag
    starts earlier, [Redacted] puts as many stars as the password has
    bytes in its place, keeps what is before it, and goes on in the same
    way with the rest; when the rest has no flag it is kept too.  A
    string without any password flag is returned as it is. *)
Theorem Redacted_hides_the_password
    (pre flag pw rest : string) (ws sep : ascii) :
  no_flag_starts_in pre (String ws (flag +:+ String sep (pw +:+ rest))) = true ->
  is_space ws = true ->
  flag = "-p" \/ flag = "--pass" ->
  is_space sep = true \/ sep = "="%char ->
  pw <> "" ->
  space_free pw = true ->
  rest = "" \/ (exists rest', rest = String " " rest') ->
  let stars := strings.Repeat "*" (String.length pw) in
  Main.Redacted (with_password pre ws flag sep pw rest)
  = with_password pre ws flag sep stars
      (ReplaceAllString Main.rePassFlag rest ("$1" +:+ stars))
  /\ (has_flag rest = false ->
      Main.Redacted (with_password pre ws flag sep pw rest)
      = with_password pre ws flag sep stars rest)
  /\ forall q : string, has_flag q = false -> Main.Redacted q = q.
Proof.
  intros Hpre Hws Hflag Hsep Hne Hfree Hrest stars. subst stars.
  destruct (exec_rePassFlag_complete flag pw rest ws sep Hws Hflag Hsep Hne
              Hfree Hrest) as (caps & Hexec & H1 & H3).
  assert (Main.Redacted (with_password pre ws flag sep pw rest)
          = with_password pre ws flag sep
              (strings.Repeat "*" (String.length pw))
              (ReplaceAllString Main.rePassFlag rest
                 ("$1" +:+ strings.Repeat "*" (String.length pw))))
    as Hmain.
  { unfold Main.Redacted, FindStringSubmatch, with_password.
    rewrite (find_rePassFlag_skip _ _ _ _ Hpre Hexec).
    cbn [whole groups]. change (NumSubexp Main.rePassFlag) with 3%nat.
    cbn [seq map length Nat.eqb nth group]. rewrite H3. cbn [from_option id].
    unfold logging.Redact, ReplaceAllString.
    rewrite (replace_rePassFlag_prefix _ _ _ _ Hpre).
    assert (flag +:+ String sep (pw +:+ rest)
            = (flag +:+ String sep pw) +:+ rest) as Hshape
      by (rewrite append_assoc, append_cons; reflexivity).
    rewrite Hshape in Hexec |- *.
    rewrite (replace_rePassFlag_match _ _ _ _ _ _ Hexec).
    rewrite expand_redaction, H1. cbn [from_option id].
    rewrite append_cons, !append_assoc, !append_cons, append_nil_l,
      !append_assoc.
    reflexivity. }
  split; [exact Hmain|]. split.
  - intros Hnone. rewrite Hmain. unfold ReplaceAllString.
    rewrite (replace_rePassFlag_none _ _ _ Hnone). reflexivity.
  - exact Redacted_without_flag.
Qed.

End Regexp.

Lemma Redacted_hides_the_password_witness :
  no_flag_starts_in "[--user=reviewer"
    (String " " ("--pass" +:+ String "=" ("hunter2" +:+ " ash/ash/1 review]")))
  = true
  /\ regexp.is_space " " = true
  /\ space_free "hunter2" = true
  /\ Sprintf_strings DemoLog.password_later
     = with_password "[--user=reviewer" " " "--pass" "=" "hunter2"
         " ash/ash/1 review]"
  /\ Main.Redacted (Sprintf_strings DemoLog.password_later)
     = "[--user=reviewer --pass=******* ash/ash/1 review]".
Proof.
  split; [reflexivity|]. split; [reflexivity|]. split; [reflexivity|].
  split; [reflexivity|].
  destruct (Redacted_hides_the_password "[--user=reviewer" "--pass" "hunter2"
              " ash/ash/1 review]" " " "=") as (_ & Hrest & _).
  - reflexivity.
  - reflexivity.
  - right; reflexivity.
  - right; reflexivity.
  - discriminate.
  - reflexivity.
  - right. eexists. reflexivity.
  - exact (Hrest eq_refl).
Defined.

(** C10 on a concrete command line.  The password flag is the first
    argument, as when it is the first line of the configuration file:
    in the rendered string it follows '[' and not white space, the
    pattern does not match, and [Redacted] hands the string to the log
    as it is, password included.  The same flag in second place is
    replaced by stars. *)
Theorem first_password_flag_is_logged :
  Sprintf_strings DemoLog.password_first
  = "[--pass=hunter2 --user=reviewer ash/ash/1 review]"
  /\ logged_args DemoLog.password_first
     = "[--pass=hunter2 --user=reviewer ash/ash/1 review]"
  /\ ~ never_shows_password DemoLog.password_first "hunter2"
  /\ logged_args DemoLog.password_later
     = "[--user=reviewer --pass=******* ash/ash/1 review]"
  /\ never_shows_password DemoLog.password_later "hunter2".
Proof.
  split; [reflexivity|]. split; [vm_compute; reflexivity|].
  split; [unfold never_shows_password; vm_compute; discriminate|].
  split; [vm_compute; reflexivity|].
  unfold never_shows_password. vm_compute. reflexivity.
Qed.

(** * More properties *)

(** ** Reversing a string *)

Section Reverse.

Lemma rev_app_append (s acc : string) :
  String.rev_app s acc = String.rev_app s "" +:+ acc.
Proof.
  revert acc. induction s as [|c s IH]; intros acc; [reflexivity|].
  cbn [String.rev_app]. rewrite (IH (String c acc)), (IH (String c "")).
  rewrite append_assoc. reflexivity.
Qed.

Lemma rev_cons (c : ascii) (s : string) :
  String.rev (String c s) = String.rev s +:+ String c "".
Proof. unfold String.rev. cbn [String.rev_app]. apply rev_app_append. Qed.

Lemma rev_append (a b : string) :
  String.rev (a +:+ b) = String.rev b +:+ String.rev a.
Proof.
  induction a as [|c a IH].
  - rewrite append_nil_l, append_nil_r. reflexivity.
  - rewrite append_cons, !rev_cons, IH, append_assoc. reflexivity.
Qed.

Lemma rev_involutive (s : string) : String.rev (String.rev s) = s.
Proof.
  induction s as [|c s IH]; [reflexivity|].
  rewrite rev_cons, rev_append, IH. reflexivity.
Qed.

Lemma rev_length (s : string) :
  String.length (String.rev s) = String.length s.
Proof.
  induction s as [|c s IH]; [reflexivity|].
  rewrite rev_cons, length_append, IH. cbn [String.length]. lia.
Qed.

End Reverse.

(** ** strings.TrimSpace *)

Section TrimSpace.
Import Trim.

Lemma strip_prefix_split (p s rest : string) :
  regexp.strip_prefix p s = Some rest -> s = p +:+ rest.
Proof.
  revert s. induction p as [|a p IH]; intros s H; cbn [regexp.strip_prefix] in H.
  - inversion H. reflexivity.
  - destruct s as [|b s]; [discriminate|].
    destruct (Ascii.eqb_spec a b) as [->|]; [|discriminate].
    rewrite append_cons, (IH _ H). reflexivity.
Qed.

Lemma strip_one_some (encodings : list string) (s rest : string) :
  strip_one encodings s = Some rest ->
  exists e, In e encodings /\ s = e +:+ rest.
Proof.
  induction encodings as [|e encodings IH]; [discriminate|].
  cbn [strip_one]. destruct (regexp.strip_prefix e s) as [r|] eqn:E.
  - intros H. inversion H; subst r. exists e. split; [left; reflexivity|].
    apply strip_prefix_split. exact E.
  - intros H. destruct (IH H) as (e' & Hin & Hs). exists e'.
    split; [right; exact Hin|exact Hs].
Qed.

Lemma strip_one_none (encodings : list string) (s : string) :
  strip_one encodings s = None ->
  Forall (fun e => regexp.strip_prefix e s = None) encodings.
Proof.
  induction encodings as [|e encodings IH]; intros H; [constructor|].
  cbn [strip_one] in H. destruct (regexp.strip_prefix e s) eqn:E; [discriminate|].
  constructor; [exact E|exact (IH H)].
Qed.

(** With fuel for every byte, nothing of [encodings] starts the result,
    and the result is what is left of [s] after some prefix. *)
Lemma strip_all_done (encodings : list string) :
  Forall (fun e => e <> "") encodings ->
  forall (fuel : nat) (s : string),
    (String.length s <= fuel)%nat ->
    strip_one encodings (strip_all fuel encodings s) = None
    /\ exists stripped, s = stripped +:+ strip_all fuel encodings s.
Proof.
  intros Hne fuel. induction fuel as [|fuel IH]; intros s Hlen.
  - destruct s; [|cbn [String.length] in Hlen; lia]. cbn [strip_all].
    split; [|exists ""; reflexivity].
    destruct (strip_one encodings "") as [rest|] eqn:E; [|reflexivity].
    apply strip_one_some in E. destruct E as (e & Hin & Hs).
    rewrite List.Forall_forall in Hne. specialize (Hne e Hin).
    destruct e; [congruence|discriminate].
  - cbn [strip_all]. destruct (strip_one encodings s) as [rest|] eqn:E.
    + apply strip_one_some in E. destruct E as (e & Hin & ->).
      rewrite List.Forall_forall in Hne. pose proof (Hne e Hin) as He.
      destruct (IH rest) as [Hnone [stripped Hs]].
      { rewrite length_append in Hlen. destruct e; [congruence|].
        cbn [String.length] in Hlen. lia. }
      split; [exact Hnone|]. exists (e +:+ stripped).
      rewrite append_assoc, <- Hs. reflexivity.
    + split; [exact E|]. exists "". reflexivity.
Qed.

Lemma spaces_not_empty : Forall (fun e => e <> "") spaces.
Proof. repeat constructor; discriminate. Qed.

Lemma reversed_spaces_not_empty :
  Forall (fun e => e <> "") (map String.rev spaces).
Proof. repeat constructor; discriminate. Qed.

(** A prefix of a string that no encoding starts is started by none,
    unless it is empty. *)
Lemma strip_prefix_of_prefix (e a b : string) :
  regexp.strip_prefix e (a +:+ b) = None -> a <> "" -> e <> "" ->
  (String.length e <= String.length a)%nat ->
  regexp.strip_prefix e a = None.
Proof.
  revert a. induction e as [|x e IH]; intros a H Ha He Hlen; [congruence|].
  destruct a as [|y a]; [congruence|].
  rewrite append_cons in H. cbn [regexp.strip_prefix] in H |- *.
  destruct (Ascii.eqb x y); [|reflexivity].
  destruct e as [|x' e]; [discriminate H|].
  destruct a as [|y' a]; [reflexivity|].
  apply IH; [exact H|discriminate|discriminate|].
  cbn [String.length] in Hlen |- *. lia.
Qed.

Lemma strip_prefix_too_long (e a : string) :
  (String.length a < String.length e)%nat -> regexp.strip_prefix e a = None.
Proof.
  revert a. induction e as [|x e IH]; intros a H;
    [cbn [String.length] in H; lia|].
  destruct a as [|y a]; [reflexivity|]. cbn [regexp.strip_prefix].
  destruct (Ascii.eqb x y); [|reflexivity].
  apply IH. cbn [String.length] in H. lia.
Qed.

(** White space neither starts nor ends what [TrimSpace] returns. *)
Lemma TrimSpace_trimmed (s : string) :
  Forall (fun e =>
            regexp.strip_prefix e (TrimSpace s) = None
            /\ regexp.strip_prefix (String.rev e) (String.rev (TrimSpace s))
               = None)
         spaces.
Proof.
  unfold TrimSpace.
  destruct (strip_all_done spaces spaces_not_empty (String.length s) s
              (Nat.le_refl _)) as [Hleft _].
  fold (TrimLeft s) in Hleft. set (t := TrimLeft s) in *.
  destruct (strip_all_done (map String.rev spaces) reversed_spaces_not_empty
              (String.length t) (String.rev t))
    as [Hright [stripped Hsplit]]; [rewrite rev_length; lia|].
  unfold TrimRight. set (r := strip_all _ _ (String.rev t)) in *.
  apply strip_one_none in Hleft, Hright.
  rewrite List.Forall_forall in Hleft, Hright |- *. intros e He. split.
  - assert (t = String.rev r +:+ String.rev stripped) as Ht.
    { rewrite <- rev_append, <- Hsplit, rev_involutive. reflexivity. }
    specialize (Hleft e He). rewrite Ht in Hleft.
    destruct (String.rev r) as [|c r'] eqn:Er.
    { pose proof spaces_not_empty as Hne. rewrite List.Forall_forall in Hne.
      specialize (Hne e He). destruct e; [congruence|reflexivity]. }
    destruct (Nat.le_gt_cases (String.length e) (String.length (String c r')))
      as [Hle|Hgt].
    + pose proof spaces_not_empty as Hne. rewrite List.Forall_forall in Hne.
      apply (strip_prefix_of_prefix _ _ _ Hleft); [discriminate|auto|exact Hle].
    + apply strip_prefix_too_long. exact Hgt.
  - rewrite rev_involutive. apply Hright. apply in_map. exact He.
Qed.

End TrimSpace.

(** ** mergeArgsWithConfig *)

Section MergeArgs.

Lemma collect_lines (lines acc : list string) :
  fold_left
    (fun args line =>
       let line := Trim.TrimSpace line in
       if String.eqb line "" then args else args ++ [line])
    lines acc
  = acc ++ List.filter (fun a => negb (String.eqb a ""))
             (map Trim.TrimSpace lines).
Proof.
  revert acc. induction lines as [|line lines IH]; intros acc.
  - cbn [fold_left map List.filter]. rewrite app_nil_r. reflexivity.
  - cbn [fold_left map List.filter]. rewrite IH.
    destruct (String.eqb (Trim.TrimSpace line) ""); cbn [negb];
      [reflexivity|]. rewrite <- app_assoc. reflexivity.
Qed.

(** X1. When the configuration file cannot be read,
    [mergeArgsWithConfig] logs a warning and returns no argument at all:
    the arguments of the command line are dropped with it. *)
Theorem unreadable_config_drops_the_command_line
    (osArgs : list string) (path : string) (w : World) :
  files w !! path = None ->
  Startup.mergeArgsWithConfig osArgs path w
  = Done []
      (emit (EvLog WARNING "can not access config: %s"
               [AStr ("open " +:+ path +:+ ": no such file or directory")])
         w).
Proof.
  intros H. unfold Startup.mergeArgsWithConfig, Startup.ReadFile.
  run_session. rewrite H. reflexivity.
Qed.

(** X2. With a readable configuration file the arguments are its lines,
    each trimmed and taken as one argument, the blank ones left out, in
    the order of the file, followed by the arguments of the command
    line; no argument from the file is empty or starts or ends with
    white space, and nothing is logged. *)
Theorem config_lines_become_arguments
    (prog : string) (cmdline : list string) (path conf : string) (w : World) :
  files w !! path = Some conf ->
  let fromConfig :=
    List.filter (fun a => negb (String.eqb a ""))
      (map Trim.TrimSpace (strings.Split conf "010")) in
  Startup.mergeArgsWithConfig (prog :: cmdline) path w
  = Done (fromConfig ++ cmdline) w
  /\ Forall (fun a =>
       a <> ""
       /\ Forall (fun e =>
            regexp.strip_prefix e a = None
            /\ regexp.strip_prefix (String.rev e) (String.rev a) = None)
          Trim.spaces)
     fromConfig.
Proof.
  intros H fromConfig. split.
  - unfold Startup.mergeArgsWithConfig, Startup.ReadFile. run_session.
    rewrite H. cbv zeta. rewrite collect_lines. reflexivity.
  - subst fromConfig. rewrite List.Forall_forall. intros a Ha.
    apply List.filter_In in Ha. destruct Ha as [Hin Hne].
    apply negb_true_iff, String.eqb_neq in Hne. split; [exact Hne|].
    apply List.in_map_iff in Hin. destruct Hin as (line & <- & _).
    apply TrimSpace_trimmed.
Qed.

End MergeArgs.

Lemma unreadable_config_drops_the_command_line_witness :
  files Demo.start !! DemoStartup.rc = None
  /\ Startup.mergeArgsWithConfig DemoStartup.osArgs DemoStartup.rc Demo.start
     = Done []
         (emit (EvLog WARNING "can not access config: %s"
                  [AStr "open /home/reviewer/.config/ash/ashrc: no such file or directory"])
            Demo.start).
Proof.
  split; [reflexivity|].
  apply (unreadable_config_drops_the_command_line DemoStartup.osArgs
           DemoStartup.rc Demo.start).
  reflexivity.
Defined.

Lemma config_lines_become_arguments_witness :
  files DemoStartup.configured !! DemoStartup.rc = Some DemoStartup.conf
  /\ Startup.mergeArgsWithConfig DemoStartup.osArgs DemoStartup.rc
       DemoStartup.configured
     = Done ["--host stash.example.com"; "-p hunter2"; "ash/ash/1"; "review"]
         DemoStartup.configured.
Proof.
  split; [vm_compute; reflexivity|].
  destruct (config_lines_become_arguments "ash" ["ash/ash/1"; "review"]
              DemoStartup.rc DemoStartup.conf DemoStartup.configured)
    as [Hrun _].
  - vm_compute; reflexivity.
  - exact Hrun.
Defined.

(** ** setupLogger *)

Section SetupLogger.
Import strconv.

(** Decimal digits that write a number of 15 bits are parsed as it. *)
Lemma ParseInt_exact (digits : string) :
  digits <> "" -> all_decimal digits = true -> decimal 0 digits <= 32767 ->
  ParseInt digits 10 16 = (decimal 0 digits, None).
Proof.
  intros Hne Hall Hfit. destruct digits as [|c s]; [congruence|].
  pose proof Hall as Hall'. cbn [all_decimal] in Hall'.
  apply andb_true_iff in Hall'. destruct Hall' as [Hc _].
  destruct (is_decimal_no_sign c Hc) as [Hplus Hminus].
  unfold ParseInt. rewrite Hplus, Hminus. unfold ParseUint.
  change (2 ^ 16 - 1) with 65535.
  rewrite (parse_digits_decimal (String c s) 0 ltac:(lia) Hall).
  change (2 ^ (16 - 1)) with 32768.
  destruct (Z.leb_spec (decimal 0 (String c s)) 65535); [|lia].
  cbn [negb andb].
  destruct (Z.leb_spec 32768 (decimal 0 (String c s))); [lia|reflexivity].
Qed.

(** A string that is no number is parsed as 0. *)
Lemma ParseInt_syntax (s : string) (base bitSize : Z) :
  snd (ParseInt s base bitSize) = Some ErrSyntax ->
  fst (ParseInt s base bitSize) = 0.
Proof.
  unfold ParseInt. destruct s as [|c s]; [reflexivity|].
  destruct (if Ascii.eqb c "+" then _ else _) as [neg digits].
  destruct (ParseUint digits base bitSize) as [un [[]|]]; cbn [fst snd];
    try reflexivity;
    repeat match goal with
    | |- context [if ?b then _ else _] => destruct b
    end; cbn [fst snd]; congruence.
Qed.

Lemma setupLogger_level (args : gmap string value) (l : Startup.Logging)
    (s : string) (n : Z) :
  index args "--debug" = VStr s ->
  fst (ParseInt s 10 16) = n ->
  Startup.setupLogger args l
  = match Startup.slice_to Startup.logLevels (n + 1) with
    | Panics msg => Panics msg
    | Returns levels =>
        Returns
          (fold_left (fun l lvl => Startup.SetLevel lvl "main" l) levels
             {| Startup.Backend := Some "os.Stderr";
                Startup.Formatter := Some Startup.logFormat;
                Startup.Levels := Startup.Levels l |})
    end.
Proof.
  intros Hd Hn. unfold Startup.setupLogger. rewrite Hd. cbn [is_nil].
  rewrite Hn. reflexivity.
Qed.

(** X3. [--debug] 0, 1 or 2, written in decimal digits, sets the level
    of the module "main" to WARNING, INFO or DEBUG; the backend and the
    format are set, and the levels of other modules are kept. *)
Theorem debug_flag_sets_the_level (args : gmap string value)
    (l : Startup.Logging) (digits : string) :
  index args "--debug" = VStr digits ->
  digits <> "" -> all_decimal digits = true -> decimal 0 digits <= 2 ->
  exists l' : Startup.Logging,
    Startup.setupLogger args l = Returns l'
    /\ Startup.Levels l' !! "main"
       = [WARNING; INFO; DEBUG] !! Z.to_nat (decimal 0 digits)
    /\ Startup.Backend l' = Some "os.Stderr"
    /\ Startup.Formatter l' = Some Startup.logFormat
    /\ forall module : string,
         module <> "main" ->
         Startup.Levels l' !! module = Startup.Levels l !! module.
Proof.
  intros Hd Hne Hall Hsmall.
  pose proof (decimal_ge digits 0 ltac:(lia) Hall) as Hpos.
  rewrite (setupLogger_level args l digits (decimal 0 digits) Hd)
    by (rewrite ParseInt_exact by (auto; lia); reflexivity).
  assert (decimal 0 digits = 0 \/ decimal 0 digits = 1 \/ decimal 0 digits = 2)
    as [-> | [-> | ->]] by lia.
  - change (Startup.slice_to Startup.logLevels (0 + 1))
      with (Returns (A := list Level) [WARNING]).
    eexists; split; [reflexivity|]. cbn [fold_left].
    split; [apply lookup_insert_eq|]. repeat split.
    intros module Hm. cbn [Startup.Levels Startup.SetLevel].
    rewrite ?lookup_insert_ne by congruence. reflexivity.
  - change (Startup.slice_to Startup.logLevels (1 + 1))
      with (Returns (A := list Level) [WARNING; INFO]).
    eexists; split; [reflexivity|]. cbn [fold_left].
    split; [apply lookup_insert_eq|]. repeat split.
    intros module Hm. cbn [Startup.Levels Startup.SetLevel].
    rewrite ?lookup_insert_ne by congruence. reflexivity.
  - change (Startup.slice_to Startup.logLevels (2 + 1))
      with (Returns (A := list Level) [WARNING; INFO; DEBUG]).
    eexists; split; [reflexivity|]. cbn [fold_left].
    split; [apply lookup_insert_eq|]. repeat split.
    intros module Hm. cbn [Startup.Levels Startup.SetLevel].
    rewrite ?lookup_insert_ne by congruence. reflexivity.
Qed.

(** X4. [--debug] 3 or more makes [setupLogger] panic: the slice of the
    three levels is cut beyond its end. *)
Theorem debug_flag_beyond_the_levels_panics (args : gmap string value)
    (l : Startup.Logging) (digits : string) :
  index args "--debug" = VStr digits ->
  digits <> "" -> all_decimal digits = true -> 3 <= decimal 0 digits ->
  Startup.setupLogger args l
  = Panics "runtime error: slice bounds out of range".
Proof.
  intros Hd Hne Hall Hbig.
  assert (3 <= fst (ParseInt digits 10 16) <= 32767) as Hn.
  { destruct (Z.le_gt_cases (decimal 0 digits) 32767).
    - rewrite ParseInt_exact by auto. cbn [fst]. lia.
    - rewrite ParseInt_clamps by (auto; lia). cbn [fst]. lia. }
  rewrite (setupLogger_level args l digits _ Hd eq_refl).
  unfold Startup.slice_to. cbn [length Startup.logLevels].
  destruct (Z.leb_spec (fst (ParseInt digits 10 16) + 1) (Z.of_nat 3));
    [cbn in *; lia|].
  rewrite andb_false_r. reflexivity.
Qed.

(** X5. Without [--debug], or with a value that is no number,
    [setupLogger] sets the level of "main" to WARNING, as for 0. *)
Theorem debug_flag_unreadable_means_warning (args : gmap string value)
    (l : Startup.Logging) :
  is_nil (index args "--debug") = true
  \/ (exists s : string,
        index args "--debug" = VStr s
        /\ snd (ParseInt s 10 16) = Some ErrSyntax) ->
  exists l' : Startup.Logging,
    Startup.setupLogger args l = Returns l'
    /\ Startup.Levels l' !! "main" = Some WARNING.
Proof.
  intros [Hnil|(s & Hd & Hsyn)].
  - unfold Startup.setupLogger. rewrite Hnil.
    change (Startup.slice_to Startup.logLevels (0 + 1))
      with (Returns (A := list Level) [WARNING]).
    eexists. split; [reflexivity|]. apply lookup_insert_eq.
  - rewrite (setupLogger_level args l s 0 Hd (ParseInt_syntax _ _ _ Hsyn)).
    change (Startup.slice_to Startup.logLevels (0 + 1))
      with (Returns (A := list Level) [WARNING]).
    eexists. split; [reflexivity|]. apply lookup_insert_eq.
Qed.

End SetupLogger.

Lemma debug_flag_sets_the_level_witness :
  index {[ "--debug" := VStr "1" ]} "--debug" = VStr "1"
  /\ exists l' : Startup.Logging,
       Startup.setupLogger {[ "--debug" := VStr "1" ]} DemoStartup.unset
       = Returns l'
       /\ Startup.Levels l' !! "main" = Some INFO.
Proof.
  split; [vm_compute; reflexivity|].
  destruct (debug_flag_sets_the_level {[ "--debug" := VStr "1" ]}
              DemoStartup.unset "1") as (l' & Hrun & Hlevel & _).
  - vm_compute; reflexivity.
  - discriminate.
  - reflexivity.
  - vm_compute; discriminate.
  - exists l'. split; [exact Hrun|exact Hlevel].
Defined.

Lemma debug_flag_beyond_the_levels_panics_witness :
  index {[ "--debug" := VStr "3" ]} "--debug" = VStr "3"
  /\ Startup.setupLogger {[ "--debug" := VStr "3" ]} DemoStartup.unset
     = Panics "runtime error: slice bounds out of range".
Proof.
  split; [vm_compute; reflexivity|].
  apply (debug_flag_beyond_the_levels_panics {[ "--debug" := VStr "3" ]}
           DemoStartup.unset "3").
  - vm_compute; reflexivity.
  - discriminate.
  - reflexivity.
  - vm_compute; discriminate.
Defined.

Lemma debug_flag_unreadable_means_warning_witness :
  snd (strconv.ParseInt "verbose" 10 16) = Some strconv.ErrSyntax
  /\ exists l' : Startup.Logging,
       Startup.setupLogger {[ "--debug" := VStr "verbose" ]} DemoStartup.unset
       = Returns l'
       /\ Startup.Levels l' !! "main" = Some WARNING.
Proof.
  split; [reflexivity|].
  apply (debug_flag_unreadable_means_warning
           {[ "--debug" := VStr "verbose" ]} DemoStartup.unset).
  right. exists "verbose". split; [vm_compute; reflexivity|reflexivity].
Defined.

(** ** GetReview *)

Section GetReview.
Context (env : Collaborators).

Lemma attach_comments_linked (d : godiff.Diff) (l : godiff.Line) :
  linked d l (PullRequest.attach_comments d l).
Proof.
  unfold linked, PullRequest.attach_comments. cbn.
  split; [reflexivity|]. split; [reflexivity|].
  eexists. split; [reflexivity|]. intros c.
  rewrite in_flat_map. split.
  - intros (id & Hid & Hc). apply list_elem_of_In in Hc.
    apply list_elem_of_filter in Hc. destruct Hc as [<- Hc].
    split; [apply list_elem_of_In; exact Hc|exact Hid].
  - intros [Hc Hid]. exists (godiff.Id c). split; [exact Hid|].
    apply list_elem_of_In, list_elem_of_filter.
    split; [reflexivity|apply list_elem_of_In; exact Hc].
Qed.

Lemma Forall2_map_same {A B : Type} (R : A -> B -> Prop) (f : A -> B)
    (l : list A) :
  (forall x, R x (f x)) -> Forall2 R l (map f l).
Proof. intros H. induction l; constructor; auto. Qed.

(** X6. A review that [GetReview] returns has the path asked for and
    the diffs, hunks, segments and lines of the changeset the service
    sent, in the same order; each line keeps its text, its ids and the
    comments it had, followed by exactly the line comments of its diff
    whose id the line lists.  An id that no comment of the diff has
    attaches nothing. *)
Theorem GetReview_links_the_comments (path : string) (w w' : World)
    (rv : Review) :
  PullRequest.GetReview env path w = Done (inl rv) w' ->
  godiff.Path (changeset rv) = path
  /\ Forall2
       (fun d d' =>
          godiff.LineComments d' = godiff.LineComments d
          /\ Forall2
               (fun h h' =>
                  Forall2
                    (fun s s' =>
                       Forall2 (linked d) (godiff.Lines s) (godiff.Lines s'))
                    (godiff.Segments h) (godiff.Segments h'))
               (godiff.Hunks d) (godiff.Hunks d'))
       (godiff.Diffs (serve_diff env (requests_of (trace w)) path))
       (godiff.Diffs (changeset rv)).
Proof.
  unfold PullRequest.GetReview. run_session.
  destruct (serve env _ _); intros H; inversion H; subst; clear H.
  cbn [changeset godiff.Path godiff.Diffs godiff.ForEachLine].
  split; [reflexivity|].
  apply Forall2_map_same. intros d.
  cbn [godiff.LineComments godiff.Hunks]. split; [reflexivity|].
  apply Forall2_map_same. intros h. cbn [godiff.Segments].
  apply Forall2_map_same. intros s. cbn [godiff.Lines].
  apply Forall2_map_same. intros l. apply attach_comments_linked.
Qed.

(** *** The download in [review] *)

Lemma requests_of_log (t : list Event) (lvl : Level) (format : string)
    (args : list Arg) :
  requests_of (t ++ [EvLog lvl format args]) = requests_of t.
Proof. rewrite requests_of_app. cbn. apply app_nil_r. Qed.

(** X7. When the service fails the download of the diff, [review] logs
    the error and exits with status 1: nothing but the one GET request
    was sent, and no file was touched. *)
Theorem failed_download_is_fatal (editor path e : string) (w : World) :
  path <> "" ->
  serve env (requests_of (trace w)) (mkRequest GET ["diff"; path] ∅ None)
  = Some e ->
  exists w' : World,
    Main.review env editor path w = Exited 1 w'
    /\ trace w'
       = trace w ++
         [ EvLog DEBUG "downloading review from Stash" [];
           EvRequest (mkRequest GET ["diff"; path] ∅ None) (Some e);
           EvLog CRITICAL "%s" [AStr e] ]
    /\ files w' = files w.
Proof.
  intros Hpath Hserve. unfold Main.review, Main.download.
  destruct (decide (path = "")) as [|_]; [congruence|].
  unfold PullRequest.GetReview. run_session.
  cbn [trace emit PullRequest.Url PullRequest.QueryValues PullRequest.Id
       PullRequest.Res PullRequest.root app].
  rewrite requests_of_log, Hserve.
  eexists. split; [reflexivity|]. cbn [trace files emit].
  rewrite <- !app_assoc. split; reflexivity.
Qed.

(** X8. When the service answers the download with a changeset without
    diffs, [review] prints that the file is not found and exits with
    status 1, having done nothing but the one GET request. *)
Theorem empty_changeset_is_not_found (editor path : string) (w : World) :
  path <> "" ->
  serve env (requests_of (trace w)) (mkRequest GET ["diff"; path] ∅ None)
  = None ->
  godiff.Diffs (serve_diff env (requests_of (trace w)) path) = [] ->
  exists w' : World,
    Main.review env editor path w = Exited 1 w'
    /\ trace w'
       = trace w ++
         [ EvLog DEBUG "downloading review from Stash" [];
           EvRequest (mkRequest GET ["diff"; path] ∅ None) None;
           EvPrint (Line
             [AStr "Specified file is not found in pull request."]) ]
    /\ files w' = files w.
Proof.
  intros Hpath Hserve Hempty. unfold Main.review, Main.download.
  destruct (decide (path = "")) as [|_]; [congruence|].
  unfold PullRequest.GetReview. run_session.
  cbn [trace emit PullRequest.Url PullRequest.QueryValues PullRequest.Id
       PullRequest.Res PullRequest.root app].
  rewrite !requests_of_log, Hserve.
  cbn [changeset godiff.Diffs godiff.ForEachLine]. rewrite Hempty.
  cbn [map length]. destruct (decide _) as [_|Hne]; [|congruence].
  eexists. split; [reflexivity|]. cbn [trace files emit].
  rewrite <- !app_assoc. split; reflexivity.
Qed.

End GetReview.

(** ** More paths of the session *)

Section MoreSession.
Context (env : Collaborators).

(** Runs [review] up to the comparison of the reviews. *)
Ltac enter_comparison Hd Hne Hrun Hread :=
  unfold Main.review; rewrite (bind_done _ _ _ _ _ Hd);
  destruct (decide _) as [Hz|_];
  [ destruct (godiff.Diffs (changeset _)); [congruence|discriminate] |];
  unfold with_recover, Main.editReviewInEditor; run_session;
  cbn [files trace emit set_file];
  rewrite lookup_insert_eq; cbn [from_option id]; rewrite Hrun;
  cbn [files trace emit set_file];
  rewrite lookup_insert_eq; cbn [from_option id]; rewrite Hread.

(** X9. When the reviews compare equal (no change), [review] logs a
    warning and exits with status 2: no request is sent, and the
    temporary file is left behind with the edited text. *)
Theorem no_changes_exit_with_status_2 (editor path : string) (w w1 : World)
    (rv edited : Review) (text : string) :
  Main.download env path w = Done (inl rv) w1 ->
  godiff.Diffs (changeset rv) <> [] ->
  run_editor env editor (temp_name env)
    (WriteReview env (AddVimModeline env (AddUsageComment env rv)))
  = (text, None) ->
  ReadReview env text = Returns (inl edited) ->
  Compare env (AddVimModeline env (AddUsageComment env rv)) edited
  = Returns [] ->
  exists w' : World,
    Main.review env editor path w = Exited 2 w'
    /\ trace w'
       = trace w1 ++
         [ EvTempFile (temp_name env);
           EvLog INFO "writing review to file: %s" [AStr (temp_name env)];
           EvWriteReview (temp_name env);
           EvLog DEBUG "opening editor: %s %s"
             [AStr editor; AStr (temp_name env)];
           EvEditor editor (temp_name env) None;
           EvLog DEBUG "reading modified review back" [];
           EvReadReview (temp_name env);
           EvLog DEBUG "comparing old and new reviews" [];
           EvCompare;
           EvLog WARNING "no changes detected in review file (maybe a bug)"
             [] ]
    /\ files w' !! temp_name env = Some text.
Proof.
  intros Hd Hne Hrun Hread Hcmp. enter_comparison Hd Hne Hrun Hread.
  rewrite Hcmp. cbn [length]. destruct (decide _) as [_|Hbad]; [|congruence].
  eexists. split; [reflexivity|]. cbn [files trace emit set_file].
  split; [rewrite <- !app_assoc; reflexivity|apply lookup_insert_eq].
Qed.

(** *** Failures and their reports *)

Lemma failures_app (t1 t2 : list Event) :
  failures (t1 ++ t2) = failures t1 ++ failures t2.
Proof.
  induction t1 as [|e t1 IH]; [reflexivity|].
  destruct e as [| |r [err|]| | | | | | |]; cbn [failures app];
    rewrite IH; reflexivity.
Qed.

Lemma reported_app (t1 t2 : list Event) :
  reported (t1 ++ t2) = reported t1 ++ reported t2.
Proof.
  induction t1 as [|e t1 IH]; [reflexivity|].
  destruct e as [lvl format args| | | | | | | | |]; cbn [reported app];
    try (rewrite IH; reflexivity).
  destruct lvl; try (rewrite IH; reflexivity).
  destruct args as [|[] [|]]; try (rewrite IH; reflexivity).
  destruct (String.eqb format _); rewrite IH; reflexivity.
Qed.

(** X10. The apply loop reports every failure and nothing else: the
    errors it logs as "can not apply change" are the errors the service
    answered with, one for one and in the same order. *)
Theorem every_failure_is_reported (changes : list ReviewChange) :
  forall (i n : Z) (w : World),
  exists (w' : World) (added : list Event),
    Main.apply_changes env i n changes w = Done tt w'
    /\ trace w' = trace w ++ added
    /\ reported added = failures added
    /\ length (requests_of added) = length changes.
Proof.
  induction changes as [|c rest IH]; intros i n w.
  - exists w, []. cbn. rewrite app_nil_r. auto.
  - rewrite apply_changes_cons.
    destruct (IH (i + 1) n (attempt env i n c w)) as (w' & added & Hrun & Ht & Hr & Hl).
    assert (exists first,
              trace (attempt env i n c w) = trace w ++ first
              /\ reported first = failures first
              /\ length (requests_of first) = 1%nat) as (first & Hf & Hrf & Hlf).
    { unfold attempt. cbv zeta.
      destruct (serve env _ _) as [e|]; cbn [trace emit];
        rewrite <- !app_assoc; eexists; (split; [reflexivity|]);
        split; reflexivity. }
    exists w', (first ++ added). split; [exact Hrun|].
    rewrite Ht, Hf, <- app_assoc, reported_app, failures_app, Hrf, Hr,
      requests_of_app, length_app, Hlf, Hl.
    auto.
Qed.

(** X11. A change with an "id" but no "version" key is sent with the
    query [version=<nil>]: the missing key is read as [nil] and
    printed. *)
Theorem missing_version_is_sent_as_nil (change : ReviewChange)
    (identity : value) (w : World) :
  change !! "id" = Some identity ->
  change !! "version" = None ->
  exists r : Request,
    let answer := serve env (requests_of (trace w)) r in
    PullRequest.ApplyChange env change w
    = Done answer (emit (EvRequest r answer) w)
    /\ req_path r = ["comments"; Sprint identity]
    /\ req_query r = {[ "version" := "<nil>" ]}.
Proof.
  intros Hid Hversion. exists (PullRequest.request_for change). cbv zeta.
  rewrite ApplyChange_sends. split; [reflexivity|].
  unfold PullRequest.request_for, index, has_key.
  rewrite Hid, Hversion. cbn [from_option id].
  rewrite bool_decide_eq_true_2 by eauto.
  destruct (bool_decide _); split; reflexivity.
Qed.

End MoreSession.

(** *** On concrete sessions *)

Lemma GetReview_links_the_comments_witness :
  PullRequest.GetReview DemoMore.with_comments "main.go" Demo.start
  = Done (inl DemoLinked.review) DemoLinked.downloaded
  /\ godiff.Path (changeset DemoLinked.review) = "main.go"
  /\ Forall2
       (fun d d' =>
          godiff.LineComments d' = godiff.LineComments d
          /\ Forall2
               (fun h h' =>
                  Forall2
                    (fun s s' =>
                       Forall2 (linked d) (godiff.Lines s) (godiff.Lines s'))
                    (godiff.Segments h) (godiff.Segments h'))
               (godiff.Hunks d) (godiff.Hunks d'))
       (godiff.Diffs DemoMore.commented)
       (godiff.Diffs (changeset DemoLinked.review)).
Proof.
  split; [vm_compute; reflexivity|].
  apply (GetReview_links_the_comments DemoMore.with_comments "main.go"
           Demo.start DemoLinked.downloaded DemoLinked.review).
  vm_compute; reflexivity.
Defined.

Lemma failed_download_is_fatal_witness :
  serve DemoMore.offline (requests_of (trace Demo.start))
    (mkRequest GET ["diff"; "main.go"] ∅ None)
  = Some "connection refused"
  /\ exists w' : World,
       Main.review DemoMore.offline "vi" "main.go" Demo.start = Exited 1 w'
       /\ trace w'
          = trace Demo.start ++
            [ EvLog DEBUG "downloading review from Stash" [];
              EvRequest (mkRequest GET ["diff"; "main.go"] ∅ None)
                (Some "connection refused");
              EvLog CRITICAL "%s" [AStr "connection refused"] ]
       /\ files w' = files Demo.start.
Proof.
  split; [reflexivity|].
  apply (failed_download_is_fatal DemoMore.offline "vi" "main.go"
           "connection refused" Demo.start).
  - discriminate.
  - reflexivity.
Defined.

Lemma empty_changeset_is_not_found_witness :
  serve DemoSessions.absent (requests_of (trace Demo.start))
    (mkRequest GET ["diff"; "main.go"] ∅ None)
  = None
  /\ godiff.Diffs
       (serve_diff DemoSessions.absent (requests_of (trace Demo.start))
          "main.go")
     = []
  /\ exists w' : World,
       Main.review DemoSessions.absent "vi" "main.go" Demo.start = Exited 1 w'
       /\ trace w'
          = trace Demo.start ++
            [ EvLog DEBUG "downloading review from Stash" [];
              EvRequest (mkRequest GET ["diff"; "main.go"] ∅ None) None;
              EvPrint (Line
                [AStr "Specified file is not found in pull request."]) ]
       /\ files w' = files Demo.start.
Proof.
  split; [reflexivity|]. split; [reflexivity|].
  apply (empty_changeset_is_not_found DemoSessions.absent "vi" "main.go"
           Demo.start).
  - discriminate.
  - reflexivity.
  - reflexivity.
Defined.

Lemma no_changes_exit_with_status_2_witness :
  Main.download DemoMore.nothing_changed "main.go" Demo.start
  = Done (inl (Demo.downloaded Demo.fetched)) Demo.after_download
  /\ Compare DemoMore.nothing_changed (Demo.downloaded Demo.fetched)
       {| changeset := Demo.fetched |}
     = Returns []
  /\ exists w' : World,
       Main.review DemoMore.nothing_changed "vi" "main.go" Demo.start
       = Exited 2 w'
       /\ files w' !! "/tmp/review.diff.1" = Some Demo.edited_text.
Proof.
  split; [vm_compute; reflexivity|]. split; [reflexivity|].
  destruct (no_changes_exit_with_status_2 DemoMore.nothing_changed "vi"
              "main.go" Demo.start Demo.after_download
              (Demo.downloaded Demo.fetched) {| changeset := Demo.fetched |}
              Demo.edited_text) as (w' & Hrun & _ & Hfile).
  - vm_compute; reflexivity.
  - discriminate.
  - reflexivity.
  - reflexivity.
  - reflexivity.
  - exists w'. split; [exact Hrun|exact Hfile].
Defined.

Lemma missing_version_is_sent_as_nil_witness :
  DemoLinked.unversioned !! "id" = Some (VInt 7)
  /\ DemoLinked.unversioned !! "version" = None
  /\ exists r : Request,
       let answer :=
         serve DemoMore.accepted (requests_of (trace Demo.start)) r in
       PullRequest.ApplyChange DemoMore.accepted DemoLinked.unversioned
         Demo.start
       = Done answer (emit (EvRequest r answer) Demo.start)
       /\ req_path r = ["comments"; "7"]
       /\ req_query r = {[ "version" := "<nil>" ]}.
Proof.
  split; [vm_compute; reflexivity|]. split; [vm_compute; reflexivity|].
  apply (missing_version_is_sent_as_nil DemoMore.accepted
           DemoLinked.unversioned (VInt 7) Demo.start).
  - vm_compute; reflexivity.
  - vm_compute; reflexivity.
Defined.

Lemma review_removes_the_file_witness :
  Main.download DemoMore.accepted "main.go" Demo.start
  = Done (inl (Demo.downloaded Demo.fetched)) Demo.after_download
  /\ Compare DemoMore.accepted (Demo.downloaded Demo.fetched)
       {| changeset := Demo.fetched |}
     = Returns [Demo.create; Demo.update; Demo.remove]
  /\ exists w' : World,
       Main.review DemoMore.accepted "vi" "main.go" Demo.start = Done tt w'
       /\ files w' !! "/tmp/review.diff.1" = None
       /\ requests_of (trace w')
          = requests_of (trace Demo.after_download) ++
            map PullRequest.request_for
              [Demo.create; Demo.update; Demo.remove].
Proof.
  split; [vm_compute; reflexivity|]. split; [reflexivity|].
  apply (review_removes_the_file DemoMore.accepted "vi" "main.go" Demo.start
           Demo.after_download (Demo.downloaded Demo.fetched)
           {| changeset := Demo.fetched |} Demo.edited_text
           [Demo.create; Demo.update; Demo.remove]).
  - vm_compute; reflexivity.
  - discriminate.
  - reflexivity.
  - reflexivity.
  - reflexivity.
  - discriminate.
Defined.

Lemma review_panic_keeps_the_file_witness :
  Main.download DemoMore.comparison_panics "main.go" Demo.start
  = Done (inl (Demo.downloaded Demo.fetched)) Demo.after_download
  /\ Compare DemoMore.comparison_panics (Demo.downloaded Demo.fetched)
       {| changeset := Demo.fetched |}
     = Panics "runtime error: index out of range"
  /\ exists w' : World,
       Main.review DemoMore.comparison_panics "vi" "main.go" Demo.start
       = Done tt w'
       /\ files w' !! "/tmp/review.diff.1" = Some Demo.edited_text
       /\ In (Formatted "All data you've entered are kept in the file:\n\t%s"
                [AStr "/tmp/review.diff.1"]) (printed (trace w'))
       /\ requests_of (trace w') = requests_of (trace Demo.after_download).
Proof.
  split; [vm_compute; reflexivity|]. split; [reflexivity|].
  apply (review_panic_keeps_the_file DemoMore.comparison_panics "vi" "main.go"
           Demo.start Demo.after_download (Demo.downloaded Demo.fetched)
           {| changeset := Demo.fetched |} Demo.edited_text
           "runtime error: index out of range").
  - vm_compute; reflexivity.
  - discriminate.
  - reflexivity.
  - reflexivity.
  - reflexivity.
Defined.

(** ** parseUri: every way out *)

Section ParseUri.
Import strconv.

Lemma parse_digits_range (base maxVal : Z) (s : string) :
  forall n : Z,
    0 <= n <= maxVal ->
    0 <= fst (parse_digits base maxVal n s) <= maxVal.
Proof.
  induction s as [|d s IH]; intros n Hn; cbn [parse_digits fst]; [exact Hn|].
  destruct (digit_value d) as [v|]; [|cbn [fst]; lia].
  destruct (base <=? v); [cbn [fst]; lia|].
  destruct (maxUint64 / base + 1 <=? n); [cbn [fst]; lia|].
  cbv zeta.
  destruct (Z.ltb_spec (((n * base) mod 2 ^ 64 + v) mod 2 ^ 64)
              ((n * base) mod 2 ^ 64)) as [|Hge];
    cbn [orb]; [cbn [fst]; lia|].
  destruct (Z.ltb_spec maxVal (((n * base) mod 2 ^ 64 + v) mod 2 ^ 64))
    as [|Hfit]; [cbn [fst]; lia|].
  apply IH. split; [|exact Hfit].
  apply Z.mod_pos_bound. lia.
Qed.

(** With 16 bits [ParseInt] gives a number of 16 bits, whatever the
    string is. *)
Lemma ParseInt_range (s : string) :
  -32768 <= fst (ParseInt s 10 16) <= 32767.
Proof.
  unfold ParseInt. destruct s as [|c s]; [cbn [fst]; lia|].
  destruct (if Ascii.eqb c "+" then _ else _) as [neg digits].
  assert (0 <= fst (ParseUint digits 10 16) <= 65535) as Hun.
  { unfold ParseUint. destruct digits as [|d ds]; [cbn [fst]; lia|].
    apply (parse_digits_range 10 (2 ^ 16 - 1)). lia. }
  destruct (ParseUint digits 10 16) as [un err]. cbn [fst] in Hun.
  change (2 ^ (16 - 1)) with 32768.
  destruct err as [[]|]; cbn [fst]; try lia;
    destruct neg; cbn [negb andb];
    repeat match goal with
    | |- context [Z.leb ?a ?b] => destruct (Z.leb_spec a b)
    | |- context [Z.ltb ?a ?b] => destruct (Z.ltb_spec a b)
    end; cbn [fst]; lia.
Qed.

(** What [parseUri] can tell of an argument: it is [nil], or a string,
    or the conversion to a string panics. *)
Lemma value_cases (v : value) :
  v = VNil
  \/ (exists s : string, v = VStr s)
  \/ (is_nil v = false
      /\ Main.as_string v
         = panic "interface conversion: interface {} is not string").
Proof.
  destruct v; [left; reflexivity|right; right; split; reflexivity ..
              |right; left; eexists; reflexivity
              |right; right; split; reflexivity].
Qed.

Ltac way_out H :=
  repeat
    (cbn [is_nil Main.as_string negb] in H; cbv [panic mret M_ret] in H;
     match type of H with
     | Panicked _ _ = Done _ _ => discriminate H
     | Exited _ _ = Done _ _ => discriminate H
     | Done _ _ = Done _ _ => injection H as <- <-
     | context [index ?a ?k] =>
         let E := fresh "E" in
         let E' := fresh "E" in
         destruct (value_cases (index a k)) as [E|[[? E]|[E E']]];
         [rewrite E in H|rewrite E in H|rewrite ?E, ?E' in H]
     | context [match ?x with _ => _ end] =>
         lazymatch x with
         | context [match _ with _ => _ end] => fail
         | _ => destruct x eqn:?
         end
     end).

(** X14. [parseUri] returns only a pull-request number of 16 bits, and
    when it returns it has printed nothing. *)
Theorem parseUri_gives_a_16_bit_number
    (args : gmap string value) (w w' : World) (u : Main.Uri) :
  Main.parseUri args w = Done u w' ->
  w' = w /\ -32768 <= Main.pr u <= 32767.
Proof.
  unfold Main.parseUri. run_session. intros H.
  way_out H.
  all: split; [reflexivity|]; cbn [Main.pr];
    try apply ParseInt_range; try lia.
Qed.

(** X15. What [parseUri] returns is either read off a URL that the
    pattern matches, or complete: the host is the [--host] argument, the
    repository is not empty, the project is under "users/" or
    "projects/", and the pull-request number is not 0 unless the
    argument names a repository. *)
Theorem parseUri_result_is_complete
    (args : gmap string value) (w w' : World) (u : Main.Uri) :
  Main.parseUri args w = Done u w' ->
  (exists uri : string,
     (index args "<project>/<repo>" = VStr uri
      \/ index args "<project>/<repo>/<pr>" = VStr uri)
     /\ regexp.FindStringSubmatch Main.reStashURL uri <> []
     /\ Main.host u = nth 1 (regexp.FindStringSubmatch Main.reStashURL uri) "")
  \/ (index args "--host" = VStr (Main.host u)
      /\ Main.repo u <> ""
      /\ ((exists p : string, Main.project u = "users/" +:+ p)
          \/ (exists p : string,
                p <> "" /\ Main.project u = "projects/" +:+ p))
      /\ (Main.pr u <> 0 \/ index args "<project>/<repo>" <> VNil)).
Proof.
  unfold Main.parseUri. run_session. intros H.
  way_out H.
  all: cbn [Main.host Main.repo Main.project Main.pr] in *.
  all: try (left; eexists;
            first [split; [left; eassumption|]; split; [|reflexivity];
                   match goal with
                   | Hm : negb (length ?m =? 0)%nat = true |- ?m <> [] =>
                       intros Hnil; rewrite Hnil in Hm; discriminate Hm
                   end
                  |split; [right; eassumption|]; split; [|reflexivity];
                   match goal with
                   | Hm : negb (length ?m =? 0)%nat = true |- ?m <> [] =>
                       intros Hnil; rewrite Hnil in Hm; discriminate Hm
                   end]).
  all: right.
  all: repeat match goal with
       | Hb : negb _ = false |- _ => apply negb_false_iff in Hb
       | Hb : negb _ = true |- _ => apply negb_true_iff in Hb
       | Hb : _ && _ = true |- _ =>
           apply andb_true_iff in Hb; destruct Hb
       | Hb : _ || _ = true |- _ =>
           apply orb_true_iff in Hb
       | Hb : (_ =? _)%string = false |- _ => apply String.eqb_neq in Hb
       | Hb : (_ =? _) = false |- _ => apply Z.eqb_neq in Hb
       end.
  all: try discriminate; try congruence.
  all: split; [try assumption|]; [..|split; [try assumption|]; [..|split]].
  all: try assumption.
  all: try (left; eexists; reflexivity).
  all: try (right; eexists; split; [|reflexivity]; discriminate).
  all: try match goal with
       | Hor : negb _ = true \/ _ |- _ =>
           destruct Hor as [Hp|Hs];
           [left; apply negb_true_iff, Z.eqb_neq in Hp; exact Hp
           |first [discriminate Hs
                  |right;
                   match goal with
                   | Ek : index _ "<project>/<repo>" = VStr _ |- _ =>
                       rewrite Ek; discriminate
                   end]]
       end.
Qed.

(** X16. Without [--host] only a URL is accepted: [parseUri] returns
    what the pattern found in the argument, or prints that [--host]
    should be specified and exits with status 1, or panics on an
    argument that holds no string; it never reads the shorthand form. *)
Theorem shorthand_needs_a_host (args : gmap string value) (w : World) :
  is_nil (index args "--host") = true ->
  match Main.parseUri args w with
  | Done u w' =>
      w' = w
      /\ exists uri : string,
           (index args "<project>/<repo>" = VStr uri
            \/ index args "<project>/<repo>/<pr>" = VStr uri)
           /\ regexp.FindStringSubmatch Main.reStashURL uri <> []
  | Exited code w' =>
      code = 1
      /\ w' = emit (EvPrint (Line
                 [AStr "In case of shorthand syntax --host should be specified"]))
               w
  | Panicked _ w' => w' = w
  end.
Proof.
  intros Hhost. unfold Main.parseUri. run_session.
  destruct (value_cases (index args "<project>/<repo>/<pr>"))
    as [E|[[x E]|[E E']]]; rewrite ?E, ?E';
    cbn [is_nil Main.as_string]; cbv [panic mret M_ret]; try reflexivity;
    (destruct (value_cases (index args "<project>/<repo>"))
       as [F|[[y F]|[F F']]]; rewrite ?F, ?F';
     cbn [is_nil Main.as_string]; cbv [panic mret M_ret]; try reflexivity);
    try rewrite Hhost.
  all: match goal with
       | |- context [regexp.FindStringSubmatch Main.reStashURL ?uri] =>
           destruct (regexp.FindStringSubmatch Main.reStashURL uri) eqn:EF
       end; cbn [length Nat.eqb negb].
  all: try (split; reflexivity).
  all: try match type of EF with
       | regexp.FindStringSubmatch _ EmptyString = _ :: _ =>
           vm_compute in EF; discriminate EF
       end.
  all: split; [reflexivity|]; eexists;
    first [split; [left; reflexivity|]; rewrite EF; discriminate
          |split; [right; reflexivity|]; rewrite EF; discriminate].
Qed.

End ParseUri.

Lemma parseUri_gives_a_16_bit_number_witness :
  Main.parseUri DemoShorthand.personal Demo.start
  = Done {| Main.host := "stash.example.com"; Main.project := "users/alice";
            Main.repo := "dotfiles"; Main.pr := 12 |} Demo.start
  /\ Demo.start = Demo.start
  /\ -32768 <= 12 <= 32767.
Proof.
  split; [vm_compute; reflexivity|].
  apply (parseUri_gives_a_16_bit_number DemoShorthand.personal Demo.start
           Demo.start
           {| Main.host := "stash.example.com"; Main.project := "users/alice";
              Main.repo := "dotfiles"; Main.pr := 12 |}).
  vm_compute; reflexivity.
Defined.

Lemma parseUri_result_is_complete_witness :
  Main.parseUri DemoShorthand.personal Demo.start
  = Done {| Main.host := "stash.example.com"; Main.project := "users/alice";
            Main.repo := "dotfiles"; Main.pr := 12 |} Demo.start
  /\ ((exists uri : string,
         (index DemoShorthand.personal "<project>/<repo>" = VStr uri
          \/ index DemoShorthand.personal "<project>/<repo>/<pr>" = VStr uri)
         /\ regexp.FindStringSubmatch Main.reStashURL uri <> []
         /\ "stash.example.com"
            = nth 1 (regexp.FindStringSubmatch Main.reStashURL uri) "")
      \/ (index DemoShorthand.personal "--host" = VStr "stash.example.com"
          /\ "dotfiles" <> ""
          /\ ((exists p : string, "users/alice" = "users/" +:+ p)
              \/ (exists p : string,
                    p <> "" /\ "users/alice" = "projects/" +:+ p))
          /\ (12 <> 0
              \/ index DemoShorthand.personal "<project>/<repo>" <> VNil))).
Proof.
  split; [vm_compute; reflexivity|].
  apply (parseUri_result_is_complete DemoShorthand.personal Demo.start
           Demo.start
           {| Main.host := "stash.example.com"; Main.project := "users/alice";
              Main.repo := "dotfiles"; Main.pr := 12 |}).
  vm_compute; reflexivity.
Defined.

Lemma shorthand_needs_a_host_witness :
  is_nil (index DemoShorthand.no_host "--host") = true
  /\ match Main.parseUri DemoShorthand.no_host Demo.start with
     | Done u w' =>
         w' = Demo.start
         /\ exists uri : string,
              (index DemoShorthand.no_host "<project>/<repo>" = VStr uri
               \/ index DemoShorthand.no_host "<project>/<repo>/<pr>"
                  = VStr uri)
              /\ regexp.FindStringSubmatch Main.reStashURL uri <> []
     | Exited code w' =>
         code = 1
         /\ w' = emit (EvPrint (Line
                    [AStr "In case of shorthand syntax --host should be specified"]))
                  Demo.start
     | Panicked _ w' => w' = Demo.start
     end.
Proof.
  split; [vm_compute; reflexivity|].
  apply (shorthand_needs_a_host DemoShorthand.no_host Demo.start).
  vm_compute; reflexivity.
Defined.

(** ** reviewMode and showFilesList *)

Section ReviewMode.
Context (EDITOR : string) (GetPullRequest : Z -> Startup.PullRequestHandle).

Lemma print_files (fs : list Startup.File) :
  forall (done : M unit) (w w1 : World),
    done w = Done tt w1 ->
    fold_left
      (fun done file =>
         done ;;
         Printf "%2s %7s %s\n"
           [AStr (Startup.execFlag file); AStr (Startup.ChangeType file);
            AStr (Startup.DstPath file)])
      fs done w
    = Done tt
        {| trace := trace w1 ++ map (fun f => EvPrint (file_line f)) fs;
           files := files w1 |}.
Proof.
  induction fs as [|f fs IH]; intros done w w1 Hdone; cbn [fold_left map].
  - rewrite Hdone, app_nil_r. destruct w1; reflexivity.
  - erewrite IH; [|run_session; rewrite Hdone; reflexivity].
    cbn [trace files emit]. rewrite <- app_assoc. reflexivity.
Qed.

Lemma printed_lines (fs : list Startup.File) :
  printed (map (fun f => EvPrint (file_line f)) fs) = map file_line fs.
Proof. induction fs as [|f fs IH]; [reflexivity|]. cbn. rewrite IH. reflexivity. Qed.

(** X17. The files of a pull request are listed one line a file, in the
    order the service gave them, also when the service reported an error
    with them: the error is logged and the files that came with it are
    still printed, and the command returns. *)
Theorem ls_prints_a_line_for_each_file
    (args : gmap string value) (pr : Z) (editor : string)
    (fs : list Startup.File) (err : option string) (w : World) :
  (index args "-e" = VStr editor
   \/ (is_nil (index args "-e") = true /\ EDITOR = editor)) ->
  editor <> "" ->
  (is_nil (index args "<file-name>") = true
   \/ exists path : string, index args "<file-name>" = VStr path) ->
  index args "ls" = VBool true ->
  Startup.GetFiles (GetPullRequest pr) (requests_of (trace w)) = (fs, err) ->
  exists w' : World,
    Startup.reviewMode EDITOR args GetPullRequest pr w = Done tt w'
    /\ trace w'
       = trace w
         ++ EvLog DEBUG "showing list of files in PR" []
            :: match err with
               | Some e => [EvLog ERROR "error accessing Stash: %s" [AStr e]]
               | None => []
               end
         ++ map (fun f => EvPrint (file_line f)) fs
    /\ printed (trace w') = printed (trace w) ++ map file_line fs
    /\ files w' = files w.
Proof.
  intros He Hne Hpath Hls Hfiles.
  assert (String.eqb editor "" = false) as Heq
    by (apply String.eqb_neq; exact Hne).
  unfold Startup.reviewMode, Startup.showFilesList. rewrite Hls.
  cbn [Startup.is_true].
  destruct He as [He|[He ->]]; rewrite He;
    destruct Hpath as [Hp|[path Hp]]; rewrite Hp;
    cbn [is_nil negb Main.as_string]; run_session; rewrite Heq;
    cbn [trace emit]; rewrite requests_of_log, Hfiles;
    destruct err as [e|];
    (erewrite print_files; [|reflexivity]);
    eexists; (split; [reflexivity|]);
    cbn [trace files emit];
    rewrite ?printed_app, printed_lines;
    cbn [printed]; rewrite <- ?app_assoc, ?app_nil_r; auto.
Qed.

(** X18. Without an editor nothing is done, not even the listing of the
    files, which needs none: when [-e] is absent and [$EDITOR] is empty,
    or [-e] is the empty string, [reviewMode] prints that an editor
    should be specified and exits with status 1. *)
Theorem an_editor_is_needed_even_to_list
    (args : gmap string value) (pr : Z) (w : World) :
  (is_nil (index args "-e") = true /\ EDITOR = "")
  \/ index args "-e" = VStr "" ->
  Startup.reviewMode EDITOR args GetPullRequest pr w
  = Exited 1
      (emit (EvPrint (Line
         [AStr "Either -e or env var $EDITOR should specify edtitor to use."]))
         w).
Proof.
  intros [[He ->]|He]; unfold Startup.reviewMode; rewrite He;
    cbn [is_nil negb Main.as_string]; run_session; reflexivity.
Qed.

End ReviewMode.

Lemma ls_prints_a_line_for_each_file_witness :
  index DemoShorthand.personal "ls" = VBool true
  /\ exists w' : World,
       Startup.reviewMode "vi" DemoShorthand.personal DemoShorthand.listing
         12 Demo.start
       = Done tt w'
       /\ trace w'
          = trace Demo.start
            ++ EvLog DEBUG "showing list of files in PR" []
               :: [EvLog ERROR "error accessing Stash: %s"
                     [AStr "unexpected EOF"]]
            ++ map (fun f => EvPrint (file_line f))
                 DemoShorthand.changed_files
       /\ printed (trace w')
          = printed (trace Demo.start)
            ++ map file_line DemoShorthand.changed_files
       /\ files w' = files Demo.start.
Proof.
  split; [vm_compute; reflexivity|].
  apply (ls_prints_a_line_for_each_file "vi" DemoShorthand.listing
           DemoShorthand.personal 12 "vi" DemoShorthand.changed_files
           (Some "unexpected EOF") Demo.start).
  - right. split; [vm_compute; reflexivity|reflexivity].
  - discriminate.
  - left. vm_compute; reflexivity.
  - vm_compute; reflexivity.
  - reflexivity.
Defined.

Lemma an_editor_is_needed_even_to_list_witness :
  index DemoShorthand.personal "ls" = VBool true
  /\ Startup.reviewMode "" DemoShorthand.personal DemoShorthand.listing 12
       Demo.start
     = Exited 1
         (emit (EvPrint (Line
            [AStr "Either -e or env var $EDITOR should specify edtitor to use."]))
            Demo.start).
Proof.
  split; [vm_compute; reflexivity|].
  apply (an_editor_is_needed_even_to_list "" DemoShorthand.listing
           DemoShorthand.personal 12 Demo.start).
  left. split; [vm_compute; reflexivity|reflexivity].
Defined.

(** ** Redacted: more than one password *)

Section Passwords.
Import regexp.

(** Replacing by the flag and [n] stars: the first password of the
    string gets the [n] stars and the rest is gone through in the same
    way. *)
Lemma replace_password (n : nat) (pre flag pw rest : string)
    (ws sep : ascii) (b : bool) :
  no_flag_starts_in pre (String ws (flag +:+ String sep (pw +:+ rest)))
  = true ->
  is_space ws = true ->
  flag = "-p" \/ flag = "--pass" ->
  is_space sep = true \/ sep = "="%char ->
  pw <> "" ->
  space_free pw = true ->
  rest = "" \/ (exists rest', rest = String " " rest') ->
  replace Main.rePassFlag ("$1" +:+ strings.Repeat "*" n) 0 b
    (with_password pre ws flag sep pw rest)
  = with_password pre ws flag sep (strings.Repeat "*" n)
      (replace Main.rePassFlag ("$1" +:+ strings.Repeat "*" n) 0 false rest).
Proof.
  intros Hpre Hws Hflag Hsep Hne Hfree Hrest.
  destruct (exec_rePassFlag_complete flag pw rest ws sep Hws Hflag Hsep Hne
              Hfree Hrest) as (caps & Hexec & H1 & _).
  unfold with_password.
  rewrite (replace_rePassFlag_prefix _ _ _ _ Hpre).
  assert (flag +:+ String sep (pw +:+ rest)
          = (flag +:+ String sep pw) +:+ rest) as Hshape
    by (rewrite append_assoc, append_cons; reflexivity).
  rewrite Hshape in Hexec |- *.
  rewrite (replace_rePassFlag_match _ _ _ _ _ _ Hexec).
  rewrite expand_redaction, H1. cbn [from_option id].
  rewrite append_cons, !append_assoc, !append_cons, append_nil_l,
    !append_assoc.
  reflexivity.
Qed.

(** X19. The stars count the bytes of the first password only: a
    second password flag in the arguments has its password replaced by
    as many stars as the FIRST password has bytes, whatever its own
    length is. *)
Theorem later_passwords_get_the_stars_of_the_first
    (pre flag pw mid flag2 pw2 rest : string) (ws sep ws2 sep2 : ascii) :
  let tail := with_password mid ws2 flag2 sep2 pw2 rest in
  no_flag_starts_in pre (String ws (flag +:+ String sep (pw +:+ tail)))
  = true ->
  is_space ws = true ->
  flag = "-p" \/ flag = "--pass" ->
  is_space sep = true \/ sep = "="%char ->
  pw <> "" ->
  space_free pw = true ->
  (exists tail', tail = String " " tail') ->
  no_flag_starts_in mid (String ws2 (flag2 +:+ String sep2 (pw2 +:+ rest)))
  = true ->
  is_space ws2 = true ->
  flag2 = "-p" \/ flag2 = "--pass" ->
  is_space sep2 = true \/ sep2 = "="%char ->
  pw2 <> "" ->
  space_free pw2 = true ->
  rest = "" \/ (exists rest', rest = String " " rest') ->
  has_flag rest = false ->
  let stars := strings.Repeat "*" (String.length pw) in
  Main.Redacted (with_password pre ws flag sep pw tail)
  = with_password pre ws flag sep stars
      (with_password mid ws2 flag2 sep2 stars rest).
Proof.
  intros tail Hpre Hws Hflag Hsep Hne Hfree Htail Hmid Hws2 Hflag2 Hsep2
    Hne2 Hfree2 Hrest Hnone stars.
  destruct (exec_rePassFlag_complete flag pw tail ws sep Hws Hflag Hsep Hne
              Hfree (or_intror Htail)) as (caps & Hexec & _ & H3).
  unfold Main.Redacted, FindStringSubmatch.
  unfold with_password.
  rewrite (find_rePassFlag_skip _ _ _ _ Hpre Hexec).
  cbn [whole groups]. change (NumSubexp Main.rePassFlag) with 3%nat.
  cbn [seq map length Nat.eqb nth group]. rewrite H3. cbn [from_option id].
  unfold logging.Redact, ReplaceAllString. fold stars.
  change (pre +:+ String ws (flag +:+ String sep (pw +:+ tail)))
    with (with_password pre ws flag sep pw tail).
  unfold stars.
  rewrite (replace_password _ pre flag pw tail ws sep false Hpre Hws Hflag
             Hsep Hne Hfree (or_intror Htail)).
  unfold tail.
  rewrite (replace_password _ mid flag2 pw2 rest ws2 sep2 false Hmid Hws2
             Hflag2 Hsep2 Hne2 Hfree2 Hrest).
  rewrite (replace_rePassFlag_none _ _ _ Hnone). reflexivity.
Qed.

End Passwords.

Lemma later_passwords_get_the_stars_of_the_first_witness :
  Main.Redacted "[ash -p a --pass=correct-horse-battery ash/ash/1 ls]"
  = "[ash -p * --pass=* ash/ash/1 ls]".
Proof.
  apply (later_passwords_get_the_stars_of_the_first
           "[ash" "-p" "a" "" "--pass" "correct-horse-battery"
           " ash/ash/1 ls]" " " " " " " "=");
    try reflexivity; try discriminate; auto.
  - eexists; reflexivity.
  - right; eexists; reflexivity.
Defined.

(** ** regexp: a match is a text of the pattern *)

Section Derives.
Import regexp.

Lemma strip_prefix_split' (p s rest : string) :
  strip_prefix p s = Some rest -> s = p +:+ rest.
Proof.
  revert s. induction p as [|a p IH]; intros s H; cbn [strip_prefix] in H.
  - inversion H. reflexivity.
  - destruct s as [|b s]; [discriminate|].
    destruct (Ascii.eqb_spec a b) as [->|]; [|discriminate].
    rewrite append_cons, (IH s H). reflexivity.
Qed.

Lemma repeat_step_derives
    (step : string -> Captures -> (string -> Captures -> option Result)
            -> option Result)
    (R : string -> Captures -> Captures -> Prop) :
  (forall s caps k x,
      step s caps k = Some x ->
      exists m s' caps',
        s = m +:+ s' /\ R m caps caps' /\ k s' caps' = Some x) ->
  forall fuel s caps k x,
    repeat_step step k fuel s caps = Some x ->
    exists m s' caps',
      s = m +:+ s' /\ iterated R m caps caps' /\ k s' caps' = Some x.
Proof.
  intros Hstep fuel. induction fuel as [|fuel IH]; intros s caps k x H;
    cbn [repeat_step] in H.
  - exists "", s, caps. split; [reflexivity|]. split; [constructor|exact H].
  - destruct (step s caps _) as [y|] eqn:E.
    + inversion H; subst y.
      apply Hstep in E. destruct E as (m1 & s1 & caps1 & -> & HR & E).
      destruct (String.length s1 <? String.length (m1 +:+ s1))%nat;
        [|discriminate].
      apply IH in E. destruct E as (m2 & s2 & caps2 & -> & Hit & E).
      exists (m1 +:+ m2), s2, caps2. split; [symmetry; apply append_assoc|].
      split; [econstructor; eassumption|exact E].
    + exists "", s, caps. split; [reflexivity|]. split; [constructor|exact H].
Qed.

(** What [exec] finds is a text of the pattern at the start of the
    input, and the continuation succeeded on what is left. *)
Lemma exec_derives (r : re) :
  forall s caps k x,
    exec r s caps k = Some x ->
    exists m s' caps',
      s = m +:+ s' /\ derives r m caps caps' /\ k s' caps' = Some x.
Proof.
  induction r as [l| |items|items|a IHa b IHb|a IHa b IHb|a IHa|a IHa|a IHa
                 |n a IHa]; intros s caps k x H; cbn [exec] in H;
    cbn [derives].
  - destruct (strip_prefix l s) as [rest|] eqn:E; [|discriminate].
    apply strip_prefix_split' in E. exists l, rest, caps. auto.
  - destruct s as [|c rest]; [discriminate|].
    destruct (Ascii.eqb c "010") eqn:Ec; [discriminate|].
    exists (String c ""), rest, caps. split; [reflexivity|]. split; eauto.
  - destruct s as [|c rest]; [discriminate|].
    destruct (in_set items c) eqn:Ec; [|discriminate].
    exists (String c ""), rest, caps. split; [reflexivity|]. split; eauto.
  - destruct s as [|c rest]; [discriminate|].
    destruct (in_set items c) eqn:Ec; [discriminate|].
    exists (String c ""), rest, caps. split; [reflexivity|]. split; eauto.
  - apply IHa in H. destruct H as (m1 & s1 & caps1 & -> & Ha & H).
    apply IHb in H. destruct H as (m2 & s2 & caps2 & -> & Hb & H).
    exists (m1 +:+ m2), s2, caps2. split; [symmetry; apply append_assoc|].
    split; [|exact H]. exists m1, m2, caps1. auto.
  - destruct (exec a s caps k) as [y|] eqn:E.
    + inversion H; subst y. apply IHa in E.
      destruct E as (m & s' & caps' & -> & Ha & E). eauto 10.
    + apply IHb in H. destruct H as (m & s' & caps' & -> & Hb & H).
      eauto 10.
  - destruct (exec a s caps k) as [y|] eqn:E.
    + inversion H; subst y. apply IHa in E.
      destruct E as (m & s' & caps' & -> & Ha & E). eauto 10.
    + exists "", s, caps. auto.
  - apply (repeat_step_derives (exec a) (derives a) IHa) in H. exact H.
  - apply IHa in H. destruct H as (m1 & s1 & caps1 & -> & Ha & H).
    apply (repeat_step_derives (exec a) (derives a) IHa) in H.
    destruct H as (m2 & s2 & caps2 & -> & Hit & H).
    exists (m1 +:+ m2), s2, caps2. split; [symmetry; apply append_assoc|].
    split; [|exact H]. exists m1, m2, caps1. auto.
  - apply IHa in H. destruct H as (m & s' & caps' & -> & Ha & H).
    rewrite consumed_append in H. eauto 10.
Qed.

Lemma exec_accept_derives (r : re) (s rest : string) (caps : Captures) :
  exec r s ∅ accept = Some (rest, caps) ->
  s = consumed s rest +:+ rest /\ derives r (consumed s rest) ∅ caps.
Proof.
  intros E. apply exec_derives in E.
  destruct E as (t & s' & caps' & -> & Hd & Hk).
  inversion Hk; subst s' caps'. rewrite consumed_append.
  split; [reflexivity|exact Hd].
Qed.

(** The leftmost match is a text of the pattern inside the input. *)
Lemma find_derives (r : re) (s : string) (m : Match) :
  find r s = Some m ->
  s = before m +:+ (whole m +:+ after m)
  /\ derives r (whole m) ∅ (groups m).
Proof.
  revert m. induction s as [|c s IH]; intros m H; cbn [find] in H.
  - destruct (exec r "" ∅ accept) as [[rest caps]|] eqn:E; [|discriminate].
    inversion H; subst m; cbn [before whole groups after].
    apply exec_accept_derives in E. rewrite append_nil_l. exact E.
  - destruct (exec r (String c s) ∅ accept) as [[rest caps]|] eqn:E.
    + inversion H; subst m; cbn [before whole groups after].
      apply exec_accept_derives in E. rewrite append_nil_l. exact E.
    + destruct (find r s) as [m'|] eqn:Ef; [|discriminate].
      inversion H; subst m; cbn [before whole groups after].
      destruct (IH m' eq_refl) as [Hs Hd].
      split; [rewrite append_cons, <- Hs; reflexivity|exact Hd].
Qed.

Lemma iterated_dots (m : string) (caps caps' : Captures) :
  iterated (derives Dot) m caps caps' -> caps' = caps.
Proof.
  induction 1 as [|m1 m2 c c1 c2 H1 _ IH]; [reflexivity|].
  destruct H1 as (_ & _ & _ & ->). exact IH.
Qed.

Lemma iterated_no_slash (m : string) (caps caps' : Captures) :
  iterated (derives (NotSet [IChar "/"])) m caps caps' ->
  caps' = caps /\ slash_free m = true.
Proof.
  induction 1 as [|m1 m2 c c1 c2 H1 _ IH]; [split; reflexivity|].
  destruct H1 as (x & -> & Hx & ->). destruct IH as [-> Hfree].
  split; [reflexivity|].
  rewrite append_cons, append_nil_l. cbn [slash_free].
  unfold in_set in Hx. cbn [existsb item_matches] in Hx.
  rewrite orb_false_r in Hx. rewrite Hx, Hfree. reflexivity.
Qed.

Lemma is_digit_decimal (c : ascii) :
  is_digit c = true -> strconv.is_decimal c = true.
Proof.
  destruct c as [[] [] [] [] [] [] [] []]; intros H;
    try discriminate H; reflexivity.
Qed.

Lemma iterated_digits (m : string) (caps caps' : Captures) :
  iterated (derives (Set_ [IDigit])) m caps caps' ->
  caps' = caps /\ strconv.all_decimal m = true.
Proof.
  induction 1 as [|m1 m2 c c1 c2 H1 _ IH]; [split; reflexivity|].
  destruct H1 as (x & -> & Hx & ->). destruct IH as [-> Hall].
  split; [reflexivity|].
  rewrite append_cons, append_nil_l. cbn [strconv.all_decimal].
  unfold in_set in Hx. cbn [existsb item_matches] in Hx.
  rewrite orb_false_r in Hx. rewrite (is_digit_decimal x Hx), Hall.
  reflexivity.
Qed.

(** What the groups of the URL pattern hold: the match is a piece of
    the argument, and the groups are its parts. *)
Lemma reStashURL_groups (uri : string) :
  FindStringSubmatch Main.reStashURL uri <> [] ->
  exists before after scheme domain kind proj repo digits : string,
    uri
    = before
      +:+ (("http" +:+ scheme +:+ "://" +:+ domain +:+ "/")
           +:+ (kind +:+ "/" +:+ proj) +:+ "/repos/" +:+ repo
           +:+ "/pull-requests/" +:+ digits)
      +:+ after
    /\ FindStringSubmatch Main.reStashURL uri
       = [ ("http" +:+ scheme +:+ "://" +:+ domain +:+ "/")
           +:+ (kind +:+ "/" +:+ proj) +:+ "/repos/" +:+ repo
           +:+ "/pull-requests/" +:+ digits;
           "http" +:+ scheme +:+ "://" +:+ domain +:+ "/";
           kind +:+ "/" +:+ proj; kind; proj; repo; digits ]
    /\ (scheme = "" \/ scheme = "s")
    /\ (kind = "users" \/ kind = "projects")
    /\ proj <> "" /\ slash_free proj = true
    /\ repo <> "" /\ slash_free repo = true
    /\ digits <> "" /\ strconv.all_decimal digits = true.
Proof.
  unfold FindStringSubmatch.
  destruct (find Main.reStashURL uri) as [m|] eqn:E; [intros _|congruence].
  apply find_derives in E. destruct E as [Huri Hd].
  change (NumSubexp Main.reStashURL) with 6%nat.
  cbn [seq map group].
  destruct m as [b wh caps af]. cbn [before whole groups after] in *.
  unfold Main.reStashURL in Hd. cbn [derives] in Hd.
  repeat match goal with
         | H : exists _, _ |- _ => destruct H as [? H]
         | H : _ /\ _ |- _ => destruct H
         end.
  repeat match goal with
         | H : iterated _ _ _ _ |- _ =>
             first [apply iterated_dots in H
                   |apply iterated_no_slash in H; destruct H
                   |apply iterated_digits in H; destruct H]
         end.
  match goal with
  | Hs : ?scheme = "" /\ _ \/ ?scheme = "s" /\ _,
    Hk : ?kind = "users" /\ _ \/ _,
    H4 : _ = <[4%nat := ?proj]> _,
    H5 : _ = <[5%nat := ?repo]> _,
    H6 : _ = <[6%nat := ?digits]> _,
    Hd : _ = ?domain +:+ ?slash,
    Hsl : ?slash = "/" |- _ =>
      exists b, af, scheme, domain, kind, proj, repo, digits;
      destruct Hs as [[? ?]|[? ?]]; destruct Hk as [[? ?]|[? ?]]
  end; subst; simpl_map; cbn [from_option id].
  all: rewrite !(append_cons _ ""), !append_nil_l.
  all: cbn [slash_free strconv.all_decimal].
  all: repeat match goal with
       | Hin : in_set [IChar "/"] _ = false |- _ =>
           unfold in_set in Hin; cbn [existsb item_matches] in Hin;
           rewrite orb_false_r in Hin; rewrite Hin; clear Hin
       | Hin : in_set [IDigit] ?c = true |- _ =>
           unfold in_set in Hin; cbn [existsb item_matches] in Hin;
           rewrite orb_false_r in Hin;
           rewrite (is_digit_decimal c Hin); clear Hin
       end.
  all: cbn [negb andb].
  all: repeat split; auto; discriminate.
Qed.

Lemma ParseInt_digits (digits : string) :
  digits <> "" -> strconv.all_decimal digits = true ->
  fst (strconv.ParseInt digits 10 16)
  = Z.min (strconv.decimal 0 digits) 32767.
Proof.
  intros Hne Hall.
  destruct (Z.le_gt_cases (strconv.decimal 0 digits) 32767) as [Hfit|Hbig].
  - rewrite (ParseInt_exact digits Hne Hall Hfit). cbn [fst]. lia.
  - rewrite (ParseInt_clamps digits Hne Hall ltac:(lia)). cbn [fst]. lia.
Qed.

(** X20. A URL that the pattern matches decides the result alone,
    whatever [--host] and [--project] are, and nothing is printed.  The
    match is a piece of the argument,
    host, project, "/repos/", repository, "/pull-requests/", digits,
    and the result is made of these parts: the host is the text from
    "http" or "https" up to a '/', scheme and '/' included, the project
    is "users/" or "projects/" with a name, the repository is not empty
    and has no '/', and the number is the one the digits write or, above
    32767, 32767. *)
Theorem url_form_keeps_the_scheme_in_the_host
    (args : gmap string value) (uri : string) (w : World) :
  (index args "<project>/<repo>" = VStr uri
   /\ (is_nil (index args "<project>/<repo>/<pr>") = true
       \/ exists other : string,
            index args "<project>/<repo>/<pr>" = VStr other))
  \/ (is_nil (index args "<project>/<repo>") = true
      /\ index args "<project>/<repo>/<pr>" = VStr uri) ->
  FindStringSubmatch Main.reStashURL uri <> [] ->
  exists (u : Main.Uri)
         (before after scheme domain kind proj digits : string),
    Main.parseUri args w = Done u w
    /\ uri
       = before
         +:+ (Main.host u +:+ Main.project u +:+ "/repos/" +:+ Main.repo u
              +:+ "/pull-requests/" +:+ digits)
         +:+ after
    /\ FindStringSubmatch Main.reStashURL uri
       = [ Main.host u +:+ Main.project u +:+ "/repos/" +:+ Main.repo u
           +:+ "/pull-requests/" +:+ digits;
           Main.host u; Main.project u; kind; proj; Main.repo u; digits ]
    /\ Main.host u = "http" +:+ scheme +:+ "://" +:+ domain +:+ "/"
    /\ (scheme = "" \/ scheme = "s")
    /\ Main.project u = kind +:+ "/" +:+ proj
    /\ (kind = "users" \/ kind = "projects")
    /\ proj <> ""
    /\ slash_free proj = true
    /\ Main.repo u <> ""
    /\ slash_free (Main.repo u) = true
    /\ digits <> ""
    /\ strconv.all_decimal digits = true
    /\ Main.pr u = Z.min (strconv.decimal 0 digits) 32767.
Proof.
  intros Hkey Hm.
  destruct (reStashURL_groups uri Hm)
    as (before & after & scheme & domain & kind & proj & repo & digits
        & Huri & Hms & Hs & Hk & Hp & Hpf & Hr & Hrf & Hd & Hdd).
  assert (Main.parseUri args w
          = Done {| Main.host := "http" +:+ scheme +:+ "://" +:+ domain +:+ "/";
                    Main.project := kind +:+ "/" +:+ proj;
                    Main.repo := repo;
                    Main.pr := fst (strconv.ParseInt digits 10 16) |} w)
    as Hrun.
  { unfold Main.parseUri.
    destruct Hkey as [[H2 [H3|[other H3]]]|[H2 H3]]; rewrite H2, H3;
      cbn [is_nil Main.as_string]; run_session; rewrite Hms;
      reflexivity. }
  eexists _, before, after, scheme, domain, kind, proj, digits.
  split; [exact Hrun|]. cbn [Main.host Main.project Main.repo Main.pr].
  rewrite (ParseInt_digits digits Hd Hdd).
  split; [exact Huri|]. split; [exact Hms|]. auto 14.
Qed.

End Derives.

Lemma url_form_keeps_the_scheme_in_the_host_witness :
  index DemoArgs.by_url "<project>/<repo>/<pr>" = VStr DemoArgs.url
  /\ exists (u : Main.Uri)
            (before after scheme domain kind proj digits : string),
       Main.parseUri DemoArgs.by_url Demo.start = Done u Demo.start
       /\ DemoArgs.url
          = before
            +:+ (Main.host u +:+ Main.project u +:+ "/repos/"
                 +:+ Main.repo u +:+ "/pull-requests/" +:+ digits)
            +:+ after
       /\ regexp.FindStringSubmatch Main.reStashURL DemoArgs.url
          = [ Main.host u +:+ Main.project u +:+ "/repos/" +:+ Main.repo u
              +:+ "/pull-requests/" +:+ digits;
              Main.host u; Main.project u; kind; proj; Main.repo u; digits ]
       /\ Main.host u = "http" +:+ scheme +:+ "://" +:+ domain +:+ "/"
       /\ (scheme = "" \/ scheme = "s")
       /\ Main.project u = kind +:+ "/" +:+ proj
       /\ (kind = "users" \/ kind = "projects")
       /\ proj <> ""
       /\ slash_free proj = true
       /\ Main.repo u <> ""
       /\ slash_free (Main.repo u) = true
       /\ digits <> ""
       /\ strconv.all_decimal digits = true
       /\ Main.pr u = Z.min (strconv.decimal 0 digits) 32767.
Proof.
  split; [vm_compute; reflexivity|].
  apply (url_form_keeps_the_scheme_in_the_host DemoArgs.by_url DemoArgs.url
           Demo.start).
  - right. split; vm_compute; reflexivity.
  - vm_compute. discriminate.
Defined.

(** ** NewPullRequest *)

Section NewPullRequest.

Lemma append_inj_l (p a b : string) : p +:+ a = p +:+ b -> a = b.
Proof.
  induction p as [|c p IH]; [rewrite !append_nil_l; auto|].
  rewrite !append_cons. intros H. inversion H. auto.
Qed.

(** X21. The pull requests of one repository have resources of their
    own: different numbers give different URLs. *)
Theorem NewPullRequest_separates_pull_requests
    (repo : Client.Repo) (id id' : Z) :
  id <> id' ->
  Client.NewPullRequest repo id <> Client.NewPullRequest repo id'.
Proof.
  unfold Client.NewPullRequest. intros Hne H. apply Hne.
  repeat apply append_inj_l in H.
  exact (inj pretty _ _ H).
Qed.

End NewPullRequest.

Lemma NewPullRequest_separates_pull_requests_witness :
  Client.NewPullRequest DemoShorthand.dotfiles 12
  <> Client.NewPullRequest DemoShorthand.dotfiles 21.
Proof.
  apply (NewPullRequest_separates_pull_requests DemoShorthand.dotfiles 12 21).
  discriminate.
Defined.
